(** * plaid-sync: the reconciliation engine

    A shallow embedding of [plaidapi.py] (the paginated provider calls) and of
    [plaid-sync.py] (class [PlaidSynchronizer] and the per-account loop of
    [main]), followed by the properties of the synchronisation core.

    Conventions.
    - Python objects with attributes are records; each class lives in a module
      of its name so that attributes keep their source names
      ([Transaction.pending], [AccountBalance.account_id], ...).
    - A Python [dict] keyed by transaction id is a [gmap string _]; a Python
      [set] of ids is a [gset string]; lists are lists.
    - Exceptions, the state of the remote provider, the state of the local
      store and the attributes of [self] are threaded by a state-and-exception
      monad [ST].  The two [while] loops of [plaidapi.py] have no bound in the
      source, so they take a fuel argument and answer [OutOfFuel] when it runs
      out.
    - Printing ([print]) is not part of the state and is left out; the two
      places where a verbose message raises are kept: the status callback
      that [sync_with_cursor] hands to [sync_transactions], and the message
      of [sync] that takes [len(balances)]. *)

From Stdlib Require Import ZArith Lia.
From stdpp Require Import base option list strings gmap fin_sets.

Local Open Scope Z_scope.
Local Open Scope nat_scope.

(* ===================================================================== *)
(** * Data model ([plaidapi.py], lines 24-71) *)
(* ===================================================================== *)

(** [None] stands for Python's [None] where the source passes it for a date
    ([main] passes [start_date=None] in cursor mode). *)
Definition pydate : Type := option Z.

Module AccountBalance.
Record t : Type := mk {
  account_id : string;
  account_name : string;
  account_type : string;
  account_subtype : string;
  account_number : string;
  balance_current : Z;
  balance_available : option Z;
  balance_limit : option Z;
  currency_code : string
}.
#[global] Instance eq_dec : EqDecision t.
Proof. solve_decision. Defined.
End AccountBalance.

Module AccountInfo.
Record t : Type := mk {
  item_id : string;
  institution_id : string;
  ts_consent_expiration : option Z;
  ts_last_failed_update : option Z;
  ts_last_successful_update : option Z
}.
#[global] Instance eq_dec : EqDecision t.
Proof. solve_decision. Defined.
End AccountInfo.

Module Transaction.
(** [amount] is kept in minor units; the synchroniser never computes with
    it. *)
Record t : Type := mk {
  account_id : string;
  date : Z;
  transaction_id : string;
  pending : bool;
  merchant_name : option string;
  amount : Z;
  currency_code : string;
  personal_finance_category : string
}.
#[global] Instance eq_dec : EqDecision t.
Proof. solve_decision. Defined.
End Transaction.

(* ===================================================================== *)
(** * Provider errors ([plaidapi.py], lines 84-122) *)
(* ===================================================================== *)

(** [plaid.ApiException], as far as the code reads it. *)
Record ApiException : Type := mkApiException {
  reason : string;
  status : Z;
  body : string
}.

#[global] Instance ApiException_eq_dec : EqDecision ApiException.
Proof. solve_decision. Defined.

(** The three subclasses of [PlaidError]; each keeps the exception it wraps. *)
Inductive PlaidError : Type :=
  | PlaidUnknownError (plaid_error : ApiException)
  | PlaidNoApplicableAccounts (plaid_error : ApiException)
  | PlaidAccountUpdateNeeded (plaid_error : ApiException).

#[global] Instance PlaidError_eq_dec : EqDecision PlaidError.
Proof. solve_decision. Defined.

(** [raise_plaid]: the classification; the [raise] itself is done by
    [wrap_plaid_error] below. *)
Definition raise_plaid (ex : ApiException) : PlaidError :=
  if decide (reason ex = "NO_ACCOUNTS") then PlaidNoApplicableAccounts ex
  else if decide (reason ex = "ITEM_LOGIN_REQUIRED") then PlaidAccountUpdateNeeded ex
  else PlaidUnknownError ex.

(** What a call can raise: the client library's [ApiException], a classified
    [PlaidError], the [TypeError] of [len] applied to an [int] or to [None],
    or the [KeyError] of a dictionary subscript. *)
Inductive exn : Type :=
  | ApiExn (ex : ApiException)
  | PlaidExn (e : PlaidError)
  | TypeError
  | KeyError (key : string).

(* ===================================================================== *)
(** * The state-and-exception monad *)
(* ===================================================================== *)

Inductive outcome (A : Type) : Type :=
  | Ok (a : A)
  | Raise (e : exn)
  | OutOfFuel.
Arguments Ok {A} a.
Arguments Raise {A} e.
Arguments OutOfFuel {A}.

(** A computation over a state [S]: the state is returned in every case, as
    a Python exception does not roll back earlier effects. *)
Definition ST (S A : Type) : Type := S → outcome A * S.

Definition st_ret {S A} (a : A) : ST S A := λ s, (Ok a, s).

Definition st_bind {S A B} (m : ST S A) (k : A → ST S B) : ST S B :=
  λ s, match m s with
       | (Ok a, s') => k a s'
       | (Raise e, s') => (Raise e, s')
       | (OutOfFuel, s') => (OutOfFuel, s')
       end.

Definition st_raise {S A} (e : exn) : ST S A := λ s, (Raise e, s).
Definition out_of_fuel {S A} : ST S A := λ s, (OutOfFuel, s).

Declare Scope st_scope.
Delimit Scope st_scope with st.
Notation "x <- m ;; k" := (st_bind m (λ x, k))
  (at level 100, m at next level, right associativity) : st_scope.
Notation "m ;;; k" := (st_bind m (λ _, k))
  (at level 100, right associativity) : st_scope.
Local Open Scope st_scope.

(** [for x in l: body(x)]. *)
Fixpoint for_each {S A} (l : list A) (body : A → ST S unit) : ST S unit :=
  match l with
  | [] => st_ret tt
  | x :: l' => body x ;;; for_each l' body
  end.

(* ===================================================================== *)
(** * The provider client ([plaid_api.PlaidApi], an external library) *)
(* ===================================================================== *)

Module TransactionsGetResponse.
Record t : Type := mk {
  transactions : list Transaction.t;
  total_transactions : Z
}.
End TransactionsGetResponse.

Module TransactionsSyncResponse.
Record t : Type := mk {
  added : list Transaction.t;
  modified : list Transaction.t;
  removed : list string;
  next_cursor : string;
  has_more : bool
}.
End TransactionsSyncResponse.

(** The four endpoints the synchroniser reaches through [self.client].  The
    provider has a state [P] of its own; a request answers with a response or
    raises [ApiException], and moves the provider to a new state.
    [transactions_get] receives the request's [access_token], [start_date],
    [end_date] and the options [count], [offset], [account_ids];
    [transactions_sync] receives [access_token] and the optional cursor. *)
Class PlaidApi (P : Type) : Type := {
  item_get : string → P → (ApiException + AccountInfo.t) * P;
  accounts_balance_get : string → P → (ApiException + list AccountBalance.t) * P;
  transactions_get :
    string → pydate → pydate → nat → nat → option (list string) →
    P → (ApiException + TransactionsGetResponse.t) * P;
  transactions_sync :
    string → option string → P → (ApiException + TransactionsSyncResponse.t) * P
}.

(** A call through [self.client]: the answer, or [ApiException] raised. *)
Definition client_call {P A} (f : P → (ApiException + A) * P) : ST P A :=
  λ p, match f p with
       | (inr a, p') => (Ok a, p')
       | (inl ex, p') => (Raise (ApiExn ex), p')
       end.

(* ===================================================================== *)
(** * [plaidapi.PlaidAPI] (lines 93-100 and 199-330) *)
(* ===================================================================== *)

(** The decorator: an [ApiException] leaving [f] is re-raised classified. *)
Definition wrap_plaid_error {P A} (f : ST P A) : ST P A :=
  λ p, match f p with
       | (Raise (ApiExn ex), p') => (Raise (PlaidExn (raise_plaid ex)), p')
       | r => r
       end.

(** The dictionary returned by [sync_transactions]. *)
Module SyncResult.
Record t : Type := mk {
  added : list Transaction.t;
  modified : list Transaction.t;
  removed : list string;
  cursor : option string;
  has_next : bool
}.
End SyncResult.

Section PlaidAPI.
Context {P : Type} `{PlaidApi P}.

Definition get_item_info (access_token : string) : ST P AccountInfo.t :=
  wrap_plaid_error (client_call (item_get access_token)).

Definition get_account_balance (access_token : string)
  : ST P (list AccountBalance.t) :=
  wrap_plaid_error (client_call (accounts_balance_get access_token)).

(** [if account_ids: options.account_ids = account_ids]: an empty list is
    falsy and is not sent. *)
Definition options_account_ids (account_ids : option (list string))
  : option (list string) :=
  match account_ids with
  | Some (a :: l) => Some (a :: l)
  | _ => None
  end.

(** The [while True] loop of [get_transactions] (lines 235-265), one
    iteration per unit of fuel; [count], [ret] and [offset] are the loop's
    variables. *)
Fixpoint get_transactions_loop (fuel : nat) (access_token : string)
    (start_date end_date : pydate) (account_ids : option (list string))
    (count : nat) (ret : list Transaction.t) (offset : nat)
  : ST P (list Transaction.t) :=
  match fuel with
  | O => out_of_fuel
  | S fuel' =>
      response <- client_call
        (transactions_get access_token start_date end_date count offset
           (options_account_ids account_ids)) ;;
      let total_transactions := TransactionsGetResponse.total_transactions response in
      let transactions_batch := TransactionsGetResponse.transactions response in
      let ret := ret ++ transactions_batch in
      if (length transactions_batch <? count)
         || (total_transactions <=? Z.of_nat (length ret))%Z
      then st_ret ret
      else get_transactions_loop fuel' access_token start_date end_date
             account_ids count ret (offset + count)
  end.

(** [get_transactions] with the page size left open; the source fixes it
    ([count = 500], line 231). *)
Definition get_transactions_paged (count : nat) (fuel : nat)
    (access_token : string) (start_date end_date : pydate)
    (account_ids : option (list string)) : ST P (list Transaction.t) :=
  wrap_plaid_error
    (get_transactions_loop fuel access_token start_date end_date account_ids
       count [] 0).

Definition get_transactions : nat → string → pydate → pydate →
    option (list string) → ST P (list Transaction.t) :=
  get_transactions_paged 500.

(** The [status_callback] argument of [sync_transactions]: a function of the
    three lengths and of [has_next] that returns or raises; [None] when the
    caller gives none. *)
Definition StatusCallback : Type := nat → nat → nat → bool → outcome unit.

(** Lines 319-322: [if status_callback: status_callback(len(all_added),
    len(all_modified), len(all_removed), has_next)]. *)
Definition call_status_callback (status_callback : option StatusCallback)
    (n_added n_modified n_removed : nat) (has_next : bool) : ST P unit :=
  match status_callback with
  | Some f => λ p, (f n_added n_modified n_removed has_next, p)
  | None => st_ret tt
  end.

(** The [while has_next] loop of [sync_transactions] (lines 295-322): the
    request, the three lists extended, the cursor and [has_next] taken from
    the response, then the status callback. *)
Fixpoint sync_transactions_loop (fuel : nat) (access_token : string)
    (status_callback : option StatusCallback)
    (all_added all_modified : list Transaction.t) (all_removed : list string)
    (current_cursor : option string) (has_next : bool)
  : ST P SyncResult.t :=
  if has_next then
    match fuel with
    | O => out_of_fuel
    | S fuel' =>
        response <- client_call (transactions_sync access_token current_cursor) ;;
        let batch_added := TransactionsSyncResponse.added response in
        let batch_modified := TransactionsSyncResponse.modified response in
        let batch_removed := TransactionsSyncResponse.removed response in
        let all_added := all_added ++ batch_added in
        let all_modified := all_modified ++ batch_modified in
        let all_removed := all_removed ++ batch_removed in
        let current_cursor := Some (TransactionsSyncResponse.next_cursor response) in
        let has_next := TransactionsSyncResponse.has_more response in
        call_status_callback status_callback
          (length all_added) (length all_modified) (length all_removed)
          has_next ;;;
        sync_transactions_loop fuel' access_token status_callback
          all_added all_modified all_removed current_cursor has_next
    end
  else
    st_ret (SyncResult.mk all_added all_modified all_removed current_cursor has_next).

(** [sync_transactions] (lines 269-330) with its [status_callback]
    argument. *)
Definition sync_transactions_with (fuel : nat) (access_token : string)
    (cursor : option string) (status_callback : option StatusCallback)
  : ST P SyncResult.t :=
  wrap_plaid_error
    (sync_transactions_loop fuel access_token status_callback [] [] [] cursor true).

(** [sync_transactions] called without [status_callback], which then has
    its default [None]. *)
Definition sync_transactions (fuel : nat) (access_token : string)
    (cursor : option string) : ST P SyncResult.t :=
  sync_transactions_with fuel access_token cursor None.

End PlaidAPI.

(* ===================================================================== *)
(** * The local store ([transactionsdb.TransactionsDB], a collaborator) *)
(* ===================================================================== *)

(** The calls [plaid-sync.py] can make on [self.db], with their arguments.
    Every call made is appended to a log, so that which calls a run made,
    and in which order, can be stated. *)
Inductive DbCall : Type :=
  | GetLastSyncCursor (item_id : string)
  | GetTransactionIds (start_date end_date : pydate) (account_ids : list string)
  | FetchTransactionsById (tids : list string)
  | SaveItemInfo (info : AccountInfo.t)
  | SaveBalance (item_id : string) (balance : AccountBalance.t)
  | SaveTransaction (t : Transaction.t)
  | SaveSyncCursor (item_id : string) (cursor : option string)
  | ArchiveTransactions (tids : list string).

#[global] Instance DbCall_eq_dec : EqDecision DbCall.
Proof. solve_decision. Defined.

(** The store's interface, over a store state [D].  The three queries read
    the state; the others change it.  [has_save_sync_cursor] answers
    [hasattr(self.db, "save_sync_cursor")] (line 257).  The store raises no
    [PlaidError]. *)
Class TransactionsDB (D : Type) : Type := {
  get_last_sync_cursor : string → D → option string;
  get_transaction_ids : pydate → pydate → list string → D → list string;
  fetch_transactions_by_id : list string → D → list Transaction.t;
  save_item_info : AccountInfo.t → D → D;
  save_balance : string → AccountBalance.t → D → D;
  save_transaction : Transaction.t → D → D;
  has_save_sync_cursor : D → bool;
  save_sync_cursor : string → option string → D → D;
  archive_transactions : list string → D → D
}.

(** A call that changes the store. *)
Definition is_write (c : DbCall) : bool :=
  match c with
  | GetLastSyncCursor _ | GetTransactionIds _ _ _ | FetchTransactionsById _ => false
  | _ => true
  end.

Definition is_archive (c : DbCall) : bool :=
  match c with
  | ArchiveTransactions _ => true
  | _ => false
  end.

(** The effect of a call on the store. *)
Definition db_apply {D} `{TransactionsDB D} (c : DbCall) (d : D) : D :=
  match c with
  | GetLastSyncCursor _ | GetTransactionIds _ _ _ | FetchTransactionsById _ => d
  | SaveItemInfo info => save_item_info info d
  | SaveBalance item_id balance => save_balance item_id balance d
  | SaveTransaction t => save_transaction t d
  | SaveSyncCursor item_id cursor => save_sync_cursor item_id cursor d
  | ArchiveTransactions tids => archive_transactions tids d
  end.

(* ===================================================================== *)
(** * [plaid-sync.py]: [SyncCounts] and [PlaidSynchronizer] *)
(* ===================================================================== *)

Module SyncCounts.
Record t : Type := mk {
  new : nat;
  new_pending : nat;
  archived : nat;
  archived_pending : nat;
  total_fetched : nat;
  accounts : nat
}.
#[global] Instance eq_dec : EqDecision t.
Proof. solve_decision. Defined.
End SyncCounts.

(** The attributes of a [PlaidSynchronizer] that are its own; [self.db] and
    [self.plaid] refer to objects shared by all synchronisers and live in
    [World]. *)
Module PlaidSynchronizer.
Record t : Type := mk {
  transactions : gmap string Transaction.t;
  account_name : string;
  access_token : string;
  plaid_error : option PlaidError;
  item_info : option AccountInfo.t;
  counts : SyncCounts.t
}.

(** [__init__] (lines 117-131). *)
Definition __init__ (account_name access_token : string) : t :=
  mk ∅ account_name access_token None None (SyncCounts.mk 0 0 0 0 0 0).

Definition set_transactions (d : gmap string Transaction.t) (s : t) : t :=
  mk d (account_name s) (access_token s) (plaid_error s) (item_info s) (counts s).
Definition set_plaid_error (e : option PlaidError) (s : t) : t :=
  mk (transactions s) (account_name s) (access_token s) e (item_info s) (counts s).
Definition set_item_info (i : option AccountInfo.t) (s : t) : t :=
  mk (transactions s) (account_name s) (access_token s) (plaid_error s) i (counts s).
Definition set_counts (c : SyncCounts.t) (s : t) : t :=
  mk (transactions s) (account_name s) (access_token s) (plaid_error s) (item_info s) c.
End PlaidSynchronizer.

(** The shared objects: the provider behind [self.plaid], the store behind
    [self.db], and the log of the calls made on the store. *)
Record World (P D : Type) : Type := mkWorld {
  plaid : P;
  db : D;
  db_log : list DbCall
}.
Arguments mkWorld {P D} _ _ _.
Arguments plaid {P D} _.
Arguments db {P D} _.
Arguments db_log {P D} _.

(** One synchroniser at work. *)
Record Machine (P D : Type) : Type := mkMachine {
  self : PlaidSynchronizer.t;
  world : World P D
}.
Arguments mkMachine {P D} _ _.
Arguments self {P D} _.
Arguments world {P D} _.

(** [dict(pairs)]: a later pair replaces an earlier one with the same key. *)
Definition dict_of_pairs (pairs : list (string * Transaction.t))
  : gmap string Transaction.t :=
  foldl (λ d p, <[p.1 := p.2]> d) ∅ pairs.

(** [d.update(other)]: the entries of [other] replace those of [d]. *)
Definition dict_update (d other : gmap string Transaction.t)
  : gmap string Transaction.t :=
  other ∪ d.

(** [d.values()]. *)
Definition dict_values (d : gmap string Transaction.t) : list Transaction.t :=
  (map_to_list d).*2.

(** The new value of [self.transactions] in [add_transactions]
    (lines 133-136). *)
Definition transactions_updated (d : gmap string Transaction.t)
    (transactions : list Transaction.t) : gmap string Transaction.t :=
  dict_update d
    (dict_of_pairs (map (λ t, (Transaction.transaction_id t, t)) transactions)).

(** [count_pending] (lines 138-145).  A [Transaction] object is truthy, so
    [self.transactions.get(tid) and self.transactions[tid].pending] is the
    pending flag of the entry when there is one. *)
Definition count_pending (self : PlaidSynchronizer.t) (tids : list string) : nat :=
  length
    (List.filter
       (λ tid, match PlaidSynchronizer.transactions self !! tid with
               | Some t => Transaction.pending t
               | None => false
               end)
       tids).

Section Synchronizer.
Context {P D : Type} `{PlaidApi P} `{TransactionsDB D}.

#[local] Abbreviation M := (ST (Machine P D)).

Definition get_self : M PlaidSynchronizer.t :=
  λ m, (Ok (self m), m).

Definition modify_self (f : PlaidSynchronizer.t → PlaidSynchronizer.t) : M unit :=
  λ m, (Ok tt, mkMachine (f (self m)) (world m)).

(** A method of [self.plaid]: it runs on the provider and leaves the rest. *)
Definition plaid_call {A} (f : ST P A) : M A :=
  λ m, let (o, p') := f (plaid (world m)) in
       (o, mkMachine (self m)
             (mkWorld p' (db (world m)) (db_log (world m)))).

(** A query on [self.db]: logged, answered from the store's state. *)
Definition db_read {A} (c : DbCall) (answer : D → A) : M A :=
  λ m, (Ok (answer (db (world m))),
        mkMachine (self m)
          (mkWorld (plaid (world m)) (db (world m)) (db_log (world m) ++ [c]))).

(** Any other call on [self.db]: logged, applied to the store's state. *)
Definition db_write (c : DbCall) : M unit :=
  λ m, (Ok tt,
        mkMachine (self m)
          (mkWorld (plaid (world m)) (db_apply c (db (world m)))
             (db_log (world m) ++ [c]))).

(** [hasattr(self.db, "save_sync_cursor")]: no call is made. *)
Definition hasattr_save_sync_cursor : M bool :=
  λ m, (Ok (has_save_sync_cursor (db (world m))), m).

(** [try: body except plaidapi.PlaidError as ex: handler(ex)]; any other
    exception passes through. *)
Definition try_except_PlaidError {S} (body : ST S unit)
    (handler : PlaidError → ST S unit) : ST S unit :=
  λ s, match body s with
       | (Raise (PlaidExn ex), s') => handler ex s'
       | r => r
       end.

Definition add_transactions (transactions : list Transaction.t) : M unit :=
  modify_self (λ s,
    PlaidSynchronizer.set_transactions
      (transactions_updated (PlaidSynchronizer.transactions s) transactions) s).

(** Lines 158-162 and 280-284: [balances] is [None] unless the fetch was
    asked for. *)
Definition fetch_balances_opt (fetch_balances : bool) (access_token : string)
  : ST P (option (list AccountBalance.t)) :=
  if fetch_balances
  then balances <- get_account_balance access_token ;; st_ret (Some balances)
  else st_ret None.

(** Lines 243-245 and 350-352: [if balances: for balance in balances: ...];
    [None] and the empty list are falsy. *)
Definition save_balances (item_id : string)
    (balances : option (list AccountBalance.t)) : M unit :=
  match balances with
  | Some (b :: bs) =>
      for_each (b :: bs) (λ balance, db_write (SaveBalance item_id balance))
  | _ => st_ret tt
  end.

(** The status callback [sync_with_cursor] hands to [sync_transactions]
    (lines 178-185): [lambda added, modified, removed, has_next:
    print(f"{len(added)} added, ...")] when [verbose], else [None].  The
    lambda takes [len] of its arguments, and [sync_transactions] calls it
    with the lengths, which are [int]s (lines 320-322): the f-string raises
    [TypeError] at [len(added)], whatever the numbers are. *)
Definition cursor_status_callback (verbose : bool) : option StatusCallback :=
  if verbose
  then Some (λ added modified removed has_next, Raise TypeError)
  else None.

(** The [try] block of [sync_with_cursor] (lines 153-258).  The
    commented-out lines 224-228 make no call. *)
Definition sync_with_cursor_try (fuel : nat) (fetch_balances verbose : bool)
  : M unit :=
    (s <- get_self ;;
     let access_token := PlaidSynchronizer.access_token s in
     info <- plaid_call (get_item_info access_token) ;;
     modify_self (PlaidSynchronizer.set_item_info (Some info)) ;;;
     balances <- plaid_call (fetch_balances_opt fetch_balances access_token) ;;
     last_cursor <- db_read (GetLastSyncCursor (AccountInfo.item_id info))
                      (get_last_sync_cursor (AccountInfo.item_id info)) ;;
     sync_result <- plaid_call
       (sync_transactions_with fuel access_token last_cursor
          (cursor_status_callback verbose)) ;;
     let added_transactions := SyncResult.added sync_result in
     let modified_transactions := SyncResult.modified sync_result in
     let removed_transaction_ids := SyncResult.removed sync_result in
     add_transactions added_transactions ;;;
     add_transactions modified_transactions ;;;
     let account_ids : gset string :=
       match added_transactions ++ modified_transactions with
       | [] => ∅
       | l => list_to_set (map Transaction.account_id l)
       end in
     s <- get_self ;;
     modify_self (PlaidSynchronizer.set_counts
       (SyncCounts.mk
          (length added_transactions)
          (count_pending s (map Transaction.transaction_id added_transactions))
          (length removed_transaction_ids)
          0
          (length added_transactions + length modified_transactions)
          (size account_ids))) ;;;
     db_write (SaveItemInfo info) ;;;
     save_balances (AccountInfo.item_id info) balances ;;;
     for_each added_transactions
       (λ transaction, db_write (SaveTransaction transaction)) ;;;
     for_each modified_transactions
       (λ transaction, db_write (SaveTransaction transaction)) ;;;
     has <- hasattr_save_sync_cursor ;;
     if has
     then db_write (SaveSyncCursor (AccountInfo.item_id info)
                      (SyncResult.cursor sync_result))
     else st_ret tt).

(** [except plaidapi.PlaidError as ex: self.plaid_error = ex]
    (lines 260-261 and 357-358). *)
Definition record_plaid_error (ex : PlaidError) : M unit :=
  modify_self (PlaidSynchronizer.set_plaid_error (Some ex)).

(** [sync_with_cursor] (lines 147-261). *)
Definition sync_with_cursor (fuel : nat) (fetch_balances verbose : bool) : M unit :=
  try_except_PlaidError
    (sync_with_cursor_try fuel fetch_balances verbose) record_plaid_error.

(** The sets of lines 304-310, computed from [self.transactions] after the
    fetch and from the store's answer to [get_transaction_ids]. *)
Definition window_account_ids (transactions : gmap string Transaction.t)
  : gset string :=
  list_to_set (map Transaction.account_id (dict_values transactions)).

Definition window_tids_existing (existing : list string) : gset string :=
  list_to_set existing.

Definition window_tids_fetched (transactions : gmap string Transaction.t)
  : gset string :=
  dom transactions.

Definition window_tids_new (transactions : gmap string Transaction.t)
    (existing : list string) : gset string :=
  window_tids_fetched transactions ∖ window_tids_existing existing.

Definition window_tids_to_archive (transactions : gmap string Transaction.t)
    (existing : list string) : gset string :=
  window_tids_existing existing ∖ window_tids_fetched transactions.

(** Lines 342-346: the verbose message takes [len(balances)], which raises
    [TypeError] when [balances] is [None]. *)
Definition print_saving (verbose : bool)
    (balances : option (list AccountBalance.t)) : M unit :=
  if verbose
  then match balances with
       | Some _ => st_ret tt
       | None => st_raise TypeError
       end
  else st_ret tt.

(** [self.db.save_transaction(self.transactions[tid])] (line 355). *)
Definition save_transaction_of (tid : string) : M unit :=
  s <- get_self ;;
  match PlaidSynchronizer.transactions s !! tid with
  | Some t => db_write (SaveTransaction t)
  | None => st_raise (KeyError tid)
  end.

(** The [try] block of [sync] (lines 275-355).  Python iterates a set in an
    order of its own; [elements] stands for it.  The commented-out lines
    336-340 make no call.  The status callback handed to [get_transactions]
    when [verbose] (lines 296-300) formats the two [int]s it is called with
    ([plaidapi.py], line 258) with [%d] and prints them: it returns, and is
    left out with the other prints. *)
Definition sync_try (fuel : nat) (start_date end_date : pydate)
    (fetch_balances verbose : bool) : M unit :=
    (s <- get_self ;;
     let access_token := PlaidSynchronizer.access_token s in
     info <- plaid_call (get_item_info access_token) ;;
     modify_self (PlaidSynchronizer.set_item_info (Some info)) ;;;
     balances <- plaid_call (fetch_balances_opt fetch_balances access_token) ;;
     fetched <- plaid_call
       (get_transactions fuel access_token start_date end_date None) ;;
     add_transactions fetched ;;;
     s <- get_self ;;
     let transactions := PlaidSynchronizer.transactions s in
     let account_ids := window_account_ids transactions in
     existing <- db_read
       (GetTransactionIds start_date end_date (elements account_ids))
       (get_transaction_ids start_date end_date (elements account_ids)) ;;
     let tids_fetched := window_tids_fetched transactions in
     let tids_new := window_tids_new transactions existing in
     let tids_to_archive := window_tids_to_archive transactions existing in
     stored <- db_read
       (FetchTransactionsById (elements tids_to_archive))
       (fetch_transactions_by_id (elements tids_to_archive)) ;;
     add_transactions stored ;;;
     s <- get_self ;;
     modify_self (PlaidSynchronizer.set_counts
       (SyncCounts.mk
          (size tids_new)
          (count_pending s (elements tids_new))
          (size tids_to_archive)
          (count_pending s (elements tids_to_archive))
          (size tids_fetched)
          (size account_ids))) ;;;
     print_saving verbose balances ;;;
     db_write (SaveItemInfo info) ;;;
     save_balances (AccountInfo.item_id info) balances ;;;
     for_each (elements tids_new) save_transaction_of).

(** [sync] (lines 263-358). *)
Definition sync (fuel : nat) (start_date end_date : pydate)
    (fetch_balances verbose use_cursor_sync : bool) : M unit :=
  if use_cursor_sync then sync_with_cursor fuel fetch_balances verbose
  else
    try_except_PlaidError
      (sync_try fuel start_date end_date fetch_balances verbose)
      record_plaid_error.

(** ** The per-account loop of [main] (lines 519-554) *)

(** The command-line options the loop reads. *)
Record Args : Type := mkArgs {
  args_verbose : bool;
  args_balances : bool;
  args_start_date : pydate;
  args_end_date : pydate;
  args_cursor_sync : bool
}.

(** [process_account]: a fresh synchroniser on the shared provider and store;
    [results[account_name] = sync] once [sync.sync] has returned.
    [get_account_access_token] is [cfg.get_account_access_token]. *)
Definition process_account (fuel : nat) (args : Args)
    (get_account_access_token : string → string) (account_name : string)
  : ST (gmap string PlaidSynchronizer.t * World P D) unit :=
  λ st,
    let sync0 :=
      PlaidSynchronizer.__init__ account_name
        (get_account_access_token account_name) in
    let run :=
      if args_cursor_sync args
      then sync fuel None None (args_balances args) (args_verbose args) true
      else sync fuel (args_start_date args) (args_end_date args)
             (args_balances args) (args_verbose args) false in
    match run (mkMachine sync0 st.2) with
    | (Ok _, m) => (Ok tt, (<[account_name := self m]> st.1, world m))
    | (Raise e, m) => (Raise e, (st.1, world m))
    | (OutOfFuel, m) => (OutOfFuel, (st.1, world m))
    end.

(** [for account_name in cfg.get_enabled_accounts(): process_account(...)]. *)
Definition process_accounts (fuel : nat) (args : Args)
    (get_account_access_token : string → string)
    (enabled_accounts : list string)
  : ST (gmap string PlaidSynchronizer.t * World P D) unit :=
  for_each enabled_accounts
    (process_account fuel args get_account_access_token).

End Synchronizer.

(* ===================================================================== *)
(** * A simulated provider and an in-memory store *)
(* ===================================================================== *)

(** A scripted provider.  [sim_item] and [sim_balances] are the answers of
    the item and balance endpoints; [sim_ledger] is the provider's list of
    transactions for the window, of which [transactions_get] serves the page
    at [offset] of at most [count] entries together with the total;
    [sim_changes] gives, per cursor, the answer of [transactions_sync];
    [sim_requests] records the [(offset, count)] of every page request
    received. *)
Record SimProvider : Type := mkSim {
  sim_item : ApiException + AccountInfo.t;
  sim_balances : ApiException + list AccountBalance.t;
  sim_ledger : list Transaction.t;
  sim_changes : list (option string * (ApiException + TransactionsSyncResponse.t));
  sim_requests : list (nat * nat)
}.

Definition invalid_cursor : ApiException :=
  mkApiException "INVALID_FIELD" 400 "cursor not recognised".

Fixpoint sim_lookup_changes
    (changes : list (option string * (ApiException + TransactionsSyncResponse.t)))
    (cursor : option string) : ApiException + TransactionsSyncResponse.t :=
  match changes with
  | [] => inl invalid_cursor
  | (c, answer) :: rest =>
      if decide (c = cursor) then answer else sim_lookup_changes rest cursor
  end.

Definition sim_transactions_get (count offset : nat) (p : SimProvider)
  : (ApiException + TransactionsGetResponse.t) * SimProvider :=
  (inr (TransactionsGetResponse.mk
          (take count (drop offset (sim_ledger p)))
          (Z.of_nat (length (sim_ledger p)))),
   mkSim (sim_item p) (sim_balances p) (sim_ledger p) (sim_changes p)
     (sim_requests p ++ [(offset, count)])).

#[global] Instance SimProvider_api : PlaidApi SimProvider := {
  item_get _ p := (sim_item p, p);
  accounts_balance_get _ p := (sim_balances p, p);
  transactions_get _ _ _ count offset _ p := sim_transactions_get count offset p;
  transactions_sync _ cursor p := (sim_lookup_changes (sim_changes p) cursor, p)
}.

(** The simulated provider [p] with its record of page requests replaced. *)
Definition sim_with_requests (p : SimProvider) (requests : list (nat * nat))
  : SimProvider :=
  mkSim (sim_item p) (sim_balances p) (sim_ledger p) (sim_changes p) requests.

(** Modelled from the spec: [transactionsdb.TransactionsDB] is not among the
    sources.  The store keeps one cursor per item, the transactions by id
    ([save_transaction] is an upsert by id), the item infos by item id, the
    balance rows in insertion order and the archived ids;
    [get_transaction_ids] answers the ids stored for the window and the
    accounts given, [fetch_transactions_by_id] the stored records of the ids
    given. *)
Record MemDB : Type := mkMemDB {
  mem_cursors : gmap string string;
  mem_transactions : gmap string Transaction.t;
  mem_item_infos : gmap string AccountInfo.t;
  mem_balances : list (string * AccountBalance.t);
  mem_archived : gset string;
  mem_has_save_sync_cursor : bool
}.

Definition in_window (start_date end_date : pydate) (d : Z) : bool :=
  match start_date with Some s => (s <=? d)%Z | None => true end
  && match end_date with Some e => (d <=? e)%Z | None => true end.

Definition mem_get_transaction_ids (start_date end_date : pydate)
    (account_ids : list string) (d : MemDB) : list string :=
  (List.filter
     (λ kt : string * Transaction.t,
        in_window start_date end_date (Transaction.date kt.2)
        && bool_decide (Transaction.account_id kt.2 ∈ account_ids))
     (map_to_list (mem_transactions d))).*1.

Definition mem_fetch_transactions_by_id (tids : list string) (d : MemDB)
  : list Transaction.t :=
  omap (λ tid, mem_transactions d !! tid) tids.

#[global] Instance MemDB_store : TransactionsDB MemDB := {
  get_last_sync_cursor item_id d := mem_cursors d !! item_id;
  get_transaction_ids := mem_get_transaction_ids;
  fetch_transactions_by_id := mem_fetch_transactions_by_id;
  save_item_info info d :=
    mkMemDB (mem_cursors d) (mem_transactions d)
      (<[AccountInfo.item_id info := info]> (mem_item_infos d))
      (mem_balances d) (mem_archived d) (mem_has_save_sync_cursor d);
  save_balance item_id balance d :=
    mkMemDB (mem_cursors d) (mem_transactions d) (mem_item_infos d)
      (mem_balances d ++ [(item_id, balance)]) (mem_archived d)
      (mem_has_save_sync_cursor d);
  save_transaction t d :=
    mkMemDB (mem_cursors d)
      (<[Transaction.transaction_id t := t]> (mem_transactions d))
      (mem_item_infos d) (mem_balances d) (mem_archived d)
      (mem_has_save_sync_cursor d);
  has_save_sync_cursor := mem_has_save_sync_cursor;
  save_sync_cursor item_id cursor d :=
    mkMemDB
      (match cursor with
       | Some c => <[item_id := c]> (mem_cursors d)
       | None => delete item_id (mem_cursors d)
       end)
      (mem_transactions d) (mem_item_infos d) (mem_balances d)
      (mem_archived d) (mem_has_save_sync_cursor d);
  archive_transactions tids d :=
    mkMemDB (mem_cursors d) (mem_transactions d) (mem_item_infos d)
      (mem_balances d) (mem_archived d ∪ list_to_set tids)
      (mem_has_save_sync_cursor d)
}.

(** ** Sample data *)

Definition sample_item : AccountInfo.t :=
  AccountInfo.mk "item-1" "ins_1" None None (Some 1700000000%Z).

Definition sample_balance : AccountBalance.t :=
  AccountBalance.mk "acc-1" "Checking" "depository" "checking" "0000"
    10000%Z (Some 9000%Z) None "USD".

Definition tx (tid : string) (is_pending : bool) (merchant : string)
  : Transaction.t :=
  Transaction.mk "acc-1" 10%Z tid is_pending (Some merchant) 1250%Z "USD" "FOOD".

Definition empty_store : MemDB := mkMemDB ∅ ∅ ∅ [] ∅ true.

Definition store_of (cursors : list (string * string))
    (stored : list Transaction.t) : MemDB :=
  mkMemDB (list_to_map cursors)
    (transactions_updated ∅ stored) ∅ [] ∅ true.

Definition login_required : ApiException :=
  mkApiException "ITEM_LOGIN_REQUIRED" 400 "the login details have changed".

Definition start_machine (p : SimProvider) (d : MemDB)
  : Machine SimProvider MemDB :=
  mkMachine (PlaidSynchronizer.__init__ "bank" "access-1") (mkWorld p d []).

(** A three-page drain from the stored cursor [c0] whose second page
    raises. *)
Definition drain_page_1 : TransactionsSyncResponse.t :=
  TransactionsSyncResponse.mk [tx "T1" true "cafe"; tx "T2" false "shop"] [] []
    "c1" true.

Definition drain_page_3 : TransactionsSyncResponse.t :=
  TransactionsSyncResponse.mk [tx "T4" false "bar"] [] [] "c3" false.

Definition failing_drain : SimProvider :=
  mkSim (inr sample_item) (inr [sample_balance]) []
    [(Some "c0", inr drain_page_1);
     (Some "c1", inl login_required);
     (Some "c2", inr drain_page_3)]
    [].

Definition store_at_c0 : MemDB := store_of [("item-1", "c0")] [].

(** Two pages from an initial sync: [T2] is added on the first page and
    modified on the second, which also removes [T3]. *)
Definition T2_modified : Transaction.t := tx "T2" true "shop, settled".

Definition two_page_1 : TransactionsSyncResponse.t :=
  TransactionsSyncResponse.mk [tx "T1" true "cafe"; tx "T2" false "shop"] [] []
    "c1" true.

Definition two_page_2 : TransactionsSyncResponse.t :=
  TransactionsSyncResponse.mk [] [T2_modified] ["T3"] "c2" false.

Definition two_page_drain : SimProvider :=
  mkSim (inr sample_item) (inr [sample_balance]) []
    [(None, inr two_page_1); (Some "c1", inr two_page_2)] [].

Definition two_page_result : SyncResult.t :=
  SyncResult.mk [tx "T1" true "cafe"; tx "T2" false "shop"] [T2_modified]
    ["T3"] (Some "c2") false.

(** Two pages where [T1] is reported as modified on the first page and as
    added on the second. *)
Definition T1_first : Transaction.t := tx "T1" true "first page".
Definition T1_second : Transaction.t := tx "T1" false "second page".

Definition crossed_page_1 : TransactionsSyncResponse.t :=
  TransactionsSyncResponse.mk [] [T1_first] [] "c1" true.

Definition crossed_page_2 : TransactionsSyncResponse.t :=
  TransactionsSyncResponse.mk [T1_second] [] [] "c2" false.

Definition crossed_drain : SimProvider :=
  mkSim (inr sample_item) (inr [sample_balance]) []
    [(None, inr crossed_page_1); (Some "c1", inr crossed_page_2)] [].

(** A window: the store holds [A], [B] (pending) and [C]; the provider now
    lists [B] (settled, so with changed fields), [C] and [D] (pending). *)
Definition B_stored : Transaction.t := tx "B" true "grocer".
Definition B_fetched : Transaction.t := tx "B" false "grocer".

Definition window_ledger : list Transaction.t :=
  [B_fetched; tx "C" false "baker"; tx "D" true "florist"].

Definition window_provider : SimProvider :=
  mkSim (inr sample_item) (inr [sample_balance]) window_ledger [] [].

Definition window_store : MemDB :=
  store_of [] [tx "A" false "butcher"; B_stored; tx "C" false "baker"].

(** A provider with an empty ledger, and one with three transactions. *)
Definition empty_provider : SimProvider :=
  mkSim (inr sample_item) (inr []) [] [] [].

Definition cursor_args : Args := mkArgs false true None None true.

(* ===================================================================== *)
(** * Vocabulary of the properties *)
(* ===================================================================== *)

(** [new_pending ≤ new] and [archived_pending ≤ archived]. *)
Definition counts_bounded (c : SyncCounts.t) : Prop :=
  SyncCounts.new_pending c ≤ SyncCounts.new c
  ∧ SyncCounts.archived_pending c ≤ SyncCounts.archived c.

(** Every entry of the working map sits under its own transaction id. *)
Definition well_keyed (d : gmap string Transaction.t) : Prop :=
  ∀ k t, d !! k = Some t → Transaction.transaction_id t = k.

(** The last transaction of a list that carries the id [tid]. *)
Definition last_version (tid : string) (l : list Transaction.t)
  : option Transaction.t :=
  last (List.filter (λ t, bool_decide (Transaction.transaction_id t = tid)) l).

(** The version of [tid] a page reports, if it reports one, and the version
    reported by the latest page that reports [tid]. *)
Definition page_version (tid : string) (page : TransactionsSyncResponse.t)
  : option Transaction.t :=
  last_version tid
    (TransactionsSyncResponse.added page ++ TransactionsSyncResponse.modified page).

Definition latest_page_version (tid : string)
    (pages : list TransactionsSyncResponse.t) : option Transaction.t :=
  last (omap (page_version tid) pages).

(** The version of [tid] in the latest page whose list [select] (the page's
    [added] or its [modified]) reports [tid]. *)
Definition latest_reported (select : TransactionsSyncResponse.t → list Transaction.t)
    (tid : string) (pages : list TransactionsSyncResponse.t)
  : option Transaction.t :=
  last (omap (λ page, last_version tid (select page)) pages).

(** "Duplicate keys resolve to the version of the latest page on which the
    id appeared", as a property of the pages served and the merged map. *)
Definition last_page_wins (pages : list TransactionsSyncResponse.t)
    (merged : gmap string Transaction.t) : Prop :=
  ∀ tid t, latest_page_version tid pages = Some t → merged !! tid = Some t.

(** [ceil(n / p)]. *)
Definition ceil_div (n p : nat) : nat := (n + p - 1) / p.

(** The first [k] page requests of a drain with page size [count]. *)
Definition page_requests (count k : nat) : list (nat * nat) :=
  map (λ i, (i * count, count)) (seq 0 k).

Section Vocabulary.
Context {P D : Type} `{PlaidApi P} `{TransactionsDB D}.

(** The pages [transactions_sync] serves to the loop of [sync_transactions]
    started on cursor [cursor] in provider state [p]: the replay stops after
    a page without [has_more], at a request that raises, or with the fuel. *)
Fixpoint served_pages (fuel : nat) (access_token : string)
    (cursor : option string) (p : P) : list TransactionsSyncResponse.t :=
  match fuel with
  | O => []
  | S fuel' =>
      match transactions_sync access_token cursor p with
      | (inr response, p') =>
          response ::
          (if TransactionsSyncResponse.has_more response
           then served_pages fuel' access_token
                  (Some (TransactionsSyncResponse.next_cursor response)) p'
           else [])
      | (inl _, _) => []
      end
  end.

(** The [try] block that [sync] runs, by mode. *)
Definition try_block (fuel : nat) (start_date end_date : pydate)
    (fetch_balances verbose use_cursor_sync : bool) : ST (Machine P D) unit :=
  if use_cursor_sync then sync_with_cursor_try fuel fetch_balances verbose
  else sync_try fuel start_date end_date fetch_balances verbose.

(** The machine once the handler has recorded [ex] on the synchroniser. *)
Definition failed (ex : PlaidError) (m : Machine P D) : Machine P D :=
  mkMachine (PlaidSynchronizer.set_plaid_error (Some ex) (self m)) (world m).

(** The store calls a run from [m] to [m'] has added to the log. *)
Definition new_calls (m m' : Machine P D) : list DbCall :=
  drop (length (db_log (world m))) (db_log (world m')).

(** The world after the calls [calls] on the store, in order. *)
Definition exec_calls (calls : list DbCall) (w : World P D) : World P D :=
  mkWorld (plaid w) (foldl (λ d c, db_apply c d) (db w) calls)
    (db_log w ++ calls).

(** The machine at the point where a provider call of a run started in [m]
    did not return: the provider is in state [p], [item_info] is set if the
    item was fetched, the store has only been queried ([reads]). *)
Definition stopped (m : Machine P D) (info : option AccountInfo.t)
    (reads : list DbCall) (p : P) : Machine P D :=
  mkMachine
    (match info with
     | Some i => PlaidSynchronizer.set_item_info (Some i) (self m)
     | None => self m
     end)
    (mkWorld p (db (world m)) (db_log (world m) ++ reads)).

Definition balance_calls (item_id : string)
    (balances : option (list AccountBalance.t)) : list DbCall :=
  map (SaveBalance item_id) (default [] balances).

(** The working map and the counts of a cursor-mode run whose provider calls
    answered [sync_result]. *)
Definition cursor_merged (m : Machine P D) (sync_result : SyncResult.t)
  : gmap string Transaction.t :=
  transactions_updated
    (transactions_updated (PlaidSynchronizer.transactions (self m))
       (SyncResult.added sync_result))
    (SyncResult.modified sync_result).

Definition cursor_counts (m : Machine P D) (sync_result : SyncResult.t)
  : SyncCounts.t :=
  SyncCounts.mk
    (length (SyncResult.added sync_result))
    (length
       (List.filter
          (λ t, match cursor_merged m sync_result !! Transaction.transaction_id t with
                | Some t' => Transaction.pending t'
                | None => false
                end)
          (SyncResult.added sync_result)))
    (length (SyncResult.removed sync_result))
    0
    (length (SyncResult.added sync_result)
     + length (SyncResult.modified sync_result))
    (size (list_to_set (C := gset string)
             (map Transaction.account_id
                (SyncResult.added sync_result ++ SyncResult.modified sync_result)))).

(** The machine at the end of a cursor-mode run whose provider calls answered
    [info], [balances] and [sync_result], leaving the provider in [p]. *)
Definition cursor_done (m : Machine P D) (info : AccountInfo.t)
    (balances : option (list AccountBalance.t)) (sync_result : SyncResult.t)
    (p : P) : Machine P D :=
  let item_id := AccountInfo.item_id info in
  let w1 := mkWorld p (db (world m))
              (db_log (world m) ++ [GetLastSyncCursor item_id]) in
  let w2 := exec_calls
              (SaveItemInfo info :: balance_calls item_id balances
               ++ map SaveTransaction (SyncResult.added sync_result)
               ++ map SaveTransaction (SyncResult.modified sync_result)) w1 in
  let w3 := if has_save_sync_cursor (db w2)
            then exec_calls [SaveSyncCursor item_id (SyncResult.cursor sync_result)] w2
            else w2 in
  mkMachine
    (PlaidSynchronizer.set_counts (cursor_counts m sync_result)
       (PlaidSynchronizer.set_transactions (cursor_merged m sync_result)
          (PlaidSynchronizer.set_item_info (Some info) (self m))))
    w3.

(** Window mode: the working map after the fetch, the ids the store knows
    for the window, the working map after the stored records of the ids to
    archive were added, and the counts. *)
Definition window_fetched (m : Machine P D) (fetched : list Transaction.t)
  : gmap string Transaction.t :=
  transactions_updated (PlaidSynchronizer.transactions (self m)) fetched.

Definition window_existing (m : Machine P D) (start_date end_date : pydate)
    (fetched : list Transaction.t) : list string :=
  get_transaction_ids start_date end_date
    (elements (window_account_ids (window_fetched m fetched))) (db (world m)).

Definition window_new (m : Machine P D) (start_date end_date : pydate)
    (fetched : list Transaction.t) : gset string :=
  window_tids_new (window_fetched m fetched)
    (window_existing m start_date end_date fetched).

Definition window_to_archive (m : Machine P D) (start_date end_date : pydate)
    (fetched : list Transaction.t) : gset string :=
  window_tids_to_archive (window_fetched m fetched)
    (window_existing m start_date end_date fetched).

Definition window_merged (m : Machine P D) (start_date end_date : pydate)
    (fetched : list Transaction.t) : gmap string Transaction.t :=
  transactions_updated (window_fetched m fetched)
    (fetch_transactions_by_id
       (elements (window_to_archive m start_date end_date fetched))
       (db (world m))).

Definition pending_in (d : gmap string Transaction.t) (tid : string) : bool :=
  match d !! tid with
  | Some t => Transaction.pending t
  | None => false
  end.

Definition window_counts (m : Machine P D) (start_date end_date : pydate)
    (fetched : list Transaction.t) : SyncCounts.t :=
  let merged := window_merged m start_date end_date fetched in
  let tids_new := window_new m start_date end_date fetched in
  let tids_to_archive := window_to_archive m start_date end_date fetched in
  SyncCounts.mk
    (size tids_new)
    (length (List.filter (pending_in merged) (elements tids_new)))
    (size tids_to_archive)
    (length (List.filter (pending_in merged) (elements tids_to_archive)))
    (size (window_tids_fetched (window_fetched m fetched)))
    (size (window_account_ids (window_fetched m fetched))).

(** The store calls of a window-mode run, queries first. *)
Definition window_reads (m : Machine P D) (start_date end_date : pydate)
    (fetched : list Transaction.t) : list DbCall :=
  [GetTransactionIds start_date end_date
     (elements (window_account_ids (window_fetched m fetched)));
   FetchTransactionsById
     (elements (window_to_archive m start_date end_date fetched))].

Definition window_writes (m : Machine P D) (start_date end_date : pydate)
    (info : AccountInfo.t) (balances : option (list AccountBalance.t))
    (fetched : list Transaction.t) : list DbCall :=
  SaveItemInfo info :: balance_calls (AccountInfo.item_id info) balances
  ++ map SaveTransaction
       (omap (λ tid, window_merged m start_date end_date fetched !! tid)
          (elements (window_new m start_date end_date fetched))).

(** The outcome and the machine at the end of a window-mode run whose
    provider calls answered [info], [balances] and [fetched]. *)
Definition window_done (m : Machine P D) (start_date end_date : pydate)
    (verbose : bool) (info : AccountInfo.t)
    (balances : option (list AccountBalance.t)) (fetched : list Transaction.t)
    (p : P) : outcome unit * Machine P D :=
  let s := PlaidSynchronizer.set_counts
             (window_counts m start_date end_date fetched)
             (PlaidSynchronizer.set_transactions
                (window_merged m start_date end_date fetched)
                (PlaidSynchronizer.set_item_info (Some info) (self m))) in
  let w1 := mkWorld p (db (world m))
              (db_log (world m) ++ window_reads m start_date end_date fetched) in
  if verbose && negb (bool_decide (is_Some balances))
  then (Raise TypeError, mkMachine s w1)
  else (Ok tt,
        mkMachine s
          (exec_calls (window_writes m start_date end_date info balances fetched) w1)).

End Vocabulary.

(* ===================================================================== *)
(** * [parse_options]: the dates (lines 81-95) *)
(* ===================================================================== *)

(** The part of [parse_options] that follows [parser.parse_args()].  Dates
    are day numbers; [today_1] and [today_2] are the dates of the two
    readings of [datetime.datetime.now()], in the order the code takes them.
    A date object is truthy, so [not args.start_date] holds exactly when the
    option was not given.  [None] is [parser.error], which leaves the
    program. *)
Definition parse_options_dates (today_1 today_2 : Z) (args : Args)
  : option Args :=
  if args_cursor_sync args then Some args
  else
    let start_date :=
      match args_start_date args with
      | Some d => d
      | None => (today_1 - 30)%Z
      end in
    let end_date :=
      match args_end_date args with
      | Some d => d
      | None => today_2
      end in
    if (end_date <? start_date)%Z then None
    else Some (mkArgs (args_verbose args) (args_balances args)
                 (Some start_date) (Some end_date) (args_cursor_sync args)).

(* ===================================================================== *)
(** * More providers and options for examples *)
(* ===================================================================== *)

(** [PlaidError.plaid_error]: the exception a classified error wraps. *)
Definition wrapped_exception (e : PlaidError) : ApiException :=
  match e with
  | PlaidUnknownError ex => ex
  | PlaidNoApplicableAccounts ex => ex
  | PlaidAccountUpdateNeeded ex => ex
  end.

(** A provider whose change pages always announce more. *)
Definition endless_page : TransactionsSyncResponse.t :=
  TransactionsSyncResponse.mk [] [] [] "c" true.

Definition endless_drain : SimProvider :=
  mkSim (inr sample_item) (inr [sample_balance]) []
    [(None, inr endless_page); (Some "c", inr endless_page)] [].

(** A provider that answers every page request with a full page and a total
    one beyond what it has served so far; its state counts the requests. *)
Record FullPages : Type := mkFullPages { full_pages_served : nat }.

#[global] Instance FullPages_api : PlaidApi FullPages := {
  item_get _ p := (inr sample_item, p);
  accounts_balance_get _ p := (inr [], p);
  transactions_get _ _ _ count offset _ p :=
    (inr (TransactionsGetResponse.mk
            (replicate count (tx "R" false "again"))
            (Z.of_nat (offset + count) + 1)%Z),
     mkFullPages (S (full_pages_served p)));
  transactions_sync _ _ p := (inl invalid_cursor, p)
}.

(** A provider that caps its pages at two entries, whatever is asked. *)
Record CappedPages : Type := mkCappedPages { capped_ledger : list Transaction.t }.

#[global] Instance CappedPages_api : PlaidApi CappedPages := {
  item_get _ p := (inr sample_item, p);
  accounts_balance_get _ p := (inr [], p);
  transactions_get _ _ _ count offset _ p :=
    (inr (TransactionsGetResponse.mk
            (take (Nat.min 2 count) (drop offset (capped_ledger p)))
            (Z.of_nat (length (capped_ledger p)))),
     p);
  transactions_sync _ _ p := (inl invalid_cursor, p)
}.

Definition capped_provider : CappedPages :=
  mkCappedPages
    (window_ledger ++ [tx "E" false "tailor"; tx "F" false "cobbler"]).

(** A provider whose item endpoint refuses the login. *)
Definition item_down : SimProvider :=
  mkSim (inl login_required) (inr [sample_balance]) window_ledger [] [].

(** A synchroniser that knows one pending transaction. *)
Definition one_pending : PlaidSynchronizer.t :=
  PlaidSynchronizer.set_transactions
    (transactions_updated ∅ [tx "T1" true "cafe"])
    (PlaidSynchronizer.__init__ "bank" "access-1").

(** Window mode with neither date given. *)
Definition default_dates_args : Args := mkArgs false false None None false.

(** Window mode, verbose, without the balance fetch. *)
Definition verbose_window_args : Args :=
  mkArgs true false (Some 0%Z) (Some 20%Z) false.

Definition window_args : Args :=
  mkArgs false true (Some 0%Z) (Some 20%Z) false.

(* ===================================================================== *)
(** * Lemmas on the store calls and on the working map *)
(* ===================================================================== *)

Section RunLemmas.
Context {P D : Type} `{PlaidApi P} `{TransactionsDB D}.

Lemma exec_calls_nil (w : World P D) : exec_calls [] w = w.
Proof. destruct w. unfold exec_calls. simpl. by rewrite app_nil_r. Qed.

Lemma exec_calls_app (a b : list DbCall) (w : World P D) :
  exec_calls (a ++ b) w = exec_calls b (exec_calls a w).
Proof. unfold exec_calls. simpl. by rewrite foldl_app, app_assoc. Qed.

Lemma exec_calls_cons (c : DbCall) (cs : list DbCall) (w : World P D) :
  exec_calls (c :: cs) w = exec_calls cs (exec_calls [c] w).
Proof. apply (exec_calls_app [c] cs). Qed.

Lemma db_write_exec (c : DbCall) (m : Machine P D) :
  db_write c m = (Ok tt, mkMachine (self m) (exec_calls [c] (world m))).
Proof. reflexivity. Qed.

Lemma for_each_db_write {A} (f : A → DbCall) (l : list A) (m : Machine P D) :
  for_each l (λ x, db_write (f x)) m
  = (Ok tt, mkMachine (self m) (exec_calls (map f l) (world m))).
Proof.
  revert m. induction l as [|x l IH]; intros m.
  - simpl. rewrite exec_calls_nil. by destruct m.
  - cbn [for_each map]. unfold st_bind. rewrite db_write_exec, IH.
    cbn [self world]. by rewrite <- exec_calls_cons.
Qed.

Lemma save_balances_exec (item_id : string) balances (m : Machine P D) :
  save_balances item_id balances m
  = (Ok tt, mkMachine (self m) (exec_calls (balance_calls item_id balances) (world m))).
Proof.
  unfold save_balances, balance_calls.
  destruct balances as [[|b bs]|].
  - simpl. rewrite exec_calls_nil. by destruct m.
  - apply for_each_db_write.
  - simpl. rewrite exec_calls_nil. by destruct m.
Qed.

Lemma length_filter_map {A B} (f : B → bool) (g : A → B) (l : list A) :
  length (List.filter f (map g l)) = length (List.filter (λ x, f (g x)) l).
Proof.
  induction l as [|x l IH]; [done|]. simpl.
  destruct (f (g x)); simpl; by rewrite IH.
Qed.

Lemma sync_with_cursor_try_eq fuel fetch_balances verbose (m : Machine P D) :
  sync_with_cursor_try fuel fetch_balances verbose m =
  let access_token := PlaidSynchronizer.access_token (self m) in
  match get_item_info access_token (plaid (world m)) with
  | (Ok info, p1) =>
      match fetch_balances_opt fetch_balances access_token p1 with
      | (Ok balances, p2) =>
          let reads := [GetLastSyncCursor (AccountInfo.item_id info)] in
          match sync_transactions_with fuel access_token
                  (get_last_sync_cursor (AccountInfo.item_id info) (db (world m)))
                  (cursor_status_callback verbose) p2 with
          | (Ok sync_result, p3) => (Ok tt, cursor_done m info balances sync_result p3)
          | (Raise e, p3) => (Raise e, stopped m (Some info) reads p3)
          | (OutOfFuel, p3) => (OutOfFuel, stopped m (Some info) reads p3)
          end
      | (Raise e, p2) => (Raise e, stopped m (Some info) [] p2)
      | (OutOfFuel, p2) => (OutOfFuel, stopped m (Some info) [] p2)
      end
  | (Raise e, p1) => (Raise e, stopped m None [] p1)
  | (OutOfFuel, p1) => (OutOfFuel, stopped m None [] p1)
  end.
Proof.
  unfold sync_with_cursor_try, st_bind at 1, get_self at 1. cbv zeta.
  unfold st_bind at 1, plaid_call at 1.
  destruct (get_item_info _ _) as [[info|e|] p1];
    [|unfold stopped; simpl; by rewrite app_nil_r..].
  unfold st_bind at 1, modify_self at 1. 
  unfold st_bind at 1, plaid_call at 1. cbn [self world plaid db db_log].
  destruct (fetch_balances_opt _ _ _) as [[balances|e|] p2];
    [|unfold stopped; simpl; by rewrite app_nil_r..].
  unfold st_bind at 1, db_read at 1. cbn [self world plaid db db_log].
  unfold st_bind at 1, plaid_call at 1. cbn [self world plaid db db_log].
  destruct (sync_transactions_with _ _ _ _ _) as [[r|e|] p3]; [|reflexivity..].
  unfold st_bind, add_transactions, modify_self, get_self, hasattr_save_sync_cursor.
  cbn [self world plaid db db_log].
  rewrite db_write_exec. cbn [self world].
  rewrite save_balances_exec. cbn [self world].
  rewrite !for_each_db_write. cbn [self world].
  rewrite <- !exec_calls_app.
  unfold cursor_done. cbn zeta.
  set (ids := match SyncResult.added r ++ SyncResult.modified r with
          | [] => (∅ : gset string)
          | l => list_to_set (map Transaction.account_id l)
          end).
  assert (Hacc : ids = list_to_set (map Transaction.account_id (SyncResult.added r ++ SyncResult.modified r))).
  { subst ids. by destruct (SyncResult.added r ++ SyncResult.modified r). }
  rewrite Hacc.
  change ([SaveItemInfo info] ++ ?l) with (SaveItemInfo info :: l).
  set (w2 := exec_calls _ _).
  destruct (has_save_sync_cursor (db w2)) eqn:Hhas; [rewrite db_write_exec|];
    unfold st_ret; cbn [self world].
  all: f_equal; f_equal.
  all: unfold PlaidSynchronizer.set_counts; cbn; f_equal.
  all: unfold cursor_counts, count_pending; rewrite length_filter_map.
  all: reflexivity.
Qed.


Lemma for_each_save_transaction_of (l : list string) (m : Machine P D) :
  Forall (λ tid, is_Some (PlaidSynchronizer.transactions (self m) !! tid)) l →
  for_each l save_transaction_of m
  = (Ok tt,
     mkMachine (self m)
       (exec_calls
          (map SaveTransaction
             (omap (λ tid, PlaidSynchronizer.transactions (self m) !! tid) l))
          (world m))).
Proof.
  revert m. induction l as [|tid l IH]; intros m Hall.
  - simpl. rewrite exec_calls_nil. by destruct m.
  - inversion Hall as [|? ? [t Ht] Hl]; subst.
    cbn [for_each omap list_omap]. unfold st_bind at 1, save_transaction_of at 1.
    unfold st_bind at 1, get_self at 1. rewrite Ht, db_write_exec, IH by done.
    cbn [self world map]. by rewrite <- exec_calls_cons.
Qed.

End RunLemmas.

Section DictLemmas.

Lemma dict_of_pairs_snoc pairs p :
  dict_of_pairs (pairs ++ [p]) = <[p.1 := p.2]> (dict_of_pairs pairs).
Proof. unfold dict_of_pairs. by rewrite foldl_app. Qed.

Lemma last_version_snoc tid l t :
  last_version tid (l ++ [t])
  = if decide (Transaction.transaction_id t = tid) then Some t
    else last_version tid l.
Proof.
  unfold last_version. rewrite List.filter_app. simpl.
  case_bool_decide; case_decide; try done.
  - by rewrite last_snoc.
  - by rewrite app_nil_r.
Qed.

Lemma dict_of_pairs_lookup (l : list Transaction.t) (k : string) :
  dict_of_pairs (map (λ t, (Transaction.transaction_id t, t)) l) !! k
  = last_version k l.
Proof.
  induction l as [|t l IH] using rev_ind; [done|].
  rewrite map_app. cbn [map]. rewrite dict_of_pairs_snoc, last_version_snoc. simpl.
  rewrite lookup_insert. case_decide; [done|]. apply IH.
Qed.

Lemma transactions_updated_lookup d l k :
  transactions_updated d l !! k
  = match last_version k l with
    | Some t => Some t
    | None => d !! k
    end.
Proof.
  unfold transactions_updated, dict_update.
  rewrite lookup_union, dict_of_pairs_lookup.
  destruct (last_version k l), (d !! k); done.
Qed.

Lemma last_version_id tid l t :
  last_version tid l = Some t → Transaction.transaction_id t = tid ∧ t ∈ l.
Proof.
  unfold last_version. intros Hl. apply last_Some_elem_of in Hl.
  apply list_elem_of_In, List.filter_In in Hl as [Hin Hb].
  apply bool_decide_eq_true in Hb. split; [done|]. by apply list_elem_of_In.
Qed.

Lemma last_version_None tid l :
  last_version tid l = None ↔ tid ∉ map Transaction.transaction_id l.
Proof.
  unfold last_version. rewrite last_None. split.
  - intros Hf Hin. apply list_elem_of_fmap in Hin as (t & -> & Ht).
    assert (t ∈ List.filter (λ t0, bool_decide (Transaction.transaction_id t0 = Transaction.transaction_id t)) l) as Hc.
    { apply list_elem_of_In, List.filter_In. split; [by apply list_elem_of_In|].
      by apply bool_decide_eq_true. }
    rewrite Hf in Hc. by apply not_elem_of_nil in Hc.
  - intros Hn. destruct (List.filter _ l) as [|t l'] eqn:Hf; [done|].
    exfalso. apply Hn.
    assert (t ∈ List.filter (λ t0, bool_decide (Transaction.transaction_id t0 = tid)) l) as Hc.
    { rewrite Hf. apply list_elem_of_here. }
    apply list_elem_of_In, List.filter_In in Hc as [Hin Hb].
    apply bool_decide_eq_true in Hb. subst tid.
    apply list_elem_of_fmap. exists t. split; [done|]. by apply list_elem_of_In.
Qed.

Lemma transactions_updated_dom d l :
  dom (transactions_updated d l)
  = list_to_set (map Transaction.transaction_id l) ∪ dom d.
Proof.
  apply set_eq. intros k.
  rewrite elem_of_dom, transactions_updated_lookup, elem_of_union,
    elem_of_list_to_set, elem_of_dom.
  destruct (last_version k l) as [t|] eqn:Hl.
  - split; [|by eauto]. intros _. left.
    apply last_version_id in Hl as [<- Hin].
    apply list_elem_of_fmap. eauto.
  - apply last_version_None in Hl. split; [intros ?; by right|].
    intros [Hin|?]; [by destruct Hl|done].
Qed.

Lemma transactions_updated_well_keyed d l :
  well_keyed d → well_keyed (transactions_updated d l).
Proof.
  intros Hd k t. rewrite transactions_updated_lookup.
  destruct (last_version k l) as [t'|] eqn:Hl.
  - intros [= ->]. by apply last_version_id in Hl as [? _].
  - apply Hd.
Qed.

End DictLemmas.


Section WindowLemmas.
Context {P D : Type} `{PlaidApi P} `{TransactionsDB D}.

Lemma window_new_in_merged (m : Machine P D) sd ed fetched :
  Forall (λ tid, is_Some (window_merged m sd ed fetched !! tid))
    (elements (window_new m sd ed fetched)).
Proof.
  apply Forall_forall. intros tid Hin. apply elem_of_elements in Hin.
  apply elem_of_dom. unfold window_merged. rewrite transactions_updated_dom.
  unfold window_new, window_tids_new, window_tids_fetched in Hin.
  apply elem_of_difference in Hin as [Hin _]. apply elem_of_union. by right.
Qed.

Lemma sync_try_eq fuel sd ed fetch_balances verbose (m : Machine P D) :
  sync_try fuel sd ed fetch_balances verbose m =
  let access_token := PlaidSynchronizer.access_token (self m) in
  match get_item_info access_token (plaid (world m)) with
  | (Ok info, p1) =>
      match fetch_balances_opt fetch_balances access_token p1 with
      | (Ok balances, p2) =>
          match get_transactions fuel access_token sd ed None p2 with
          | (Ok fetched, p3) => window_done m sd ed verbose info balances fetched p3
          | (Raise e, p3) => (Raise e, stopped m (Some info) [] p3)
          | (OutOfFuel, p3) => (OutOfFuel, stopped m (Some info) [] p3)
          end
      | (Raise e, p2) => (Raise e, stopped m (Some info) [] p2)
      | (OutOfFuel, p2) => (OutOfFuel, stopped m (Some info) [] p2)
      end
  | (Raise e, p1) => (Raise e, stopped m None [] p1)
  | (OutOfFuel, p1) => (OutOfFuel, stopped m None [] p1)
  end.
Proof.
  unfold sync_try, st_bind at 1, get_self at 1. cbv zeta.
  unfold st_bind at 1, plaid_call at 1.
  destruct (get_item_info _ _) as [[info|e|] p1];
    [|unfold stopped; simpl; by rewrite app_nil_r..].
  unfold st_bind at 1, modify_self at 1.
  unfold st_bind at 1, plaid_call at 1. cbn [self world plaid db db_log].
  destruct (fetch_balances_opt _ _ _) as [[balances|e|] p2];
    [|unfold stopped; simpl; by rewrite app_nil_r..].
  unfold st_bind at 1, plaid_call at 1. cbn [self world plaid db db_log].
  destruct (get_transactions _ _ _ _ _ _) as [[fetched|e|] p3];
    [|unfold stopped; simpl; by rewrite app_nil_r..].
  unfold st_bind at 1, add_transactions at 1, modify_self at 1.
  unfold st_bind at 1, get_self at 1. cbn [self world plaid db db_log].
  unfold st_bind at 1, db_read at 1. cbn [self world plaid db db_log].
  unfold st_bind at 1, db_read at 1. cbn [self world plaid db db_log].
  unfold st_bind at 1, add_transactions at 1, modify_self at 1.
  unfold st_bind at 1, get_self at 1. cbn [self world plaid db db_log].
  unfold st_bind at 1, modify_self at 1. cbn [self world plaid db db_log].
  unfold window_done, print_saving.
  destruct verbose, balances as [balances|]; cbn [andb negb bool_decide];
    unfold st_bind at 1; unfold st_ret, st_raise; cbn beta iota.
  all: rewrite <- (app_assoc (db_log (world m))).
  all: repeat match goal with
    | |- context [mkMachine ?s ?w] =>
        progress change s with
          (PlaidSynchronizer.set_counts (window_counts m sd ed fetched)
             (PlaidSynchronizer.set_transactions (window_merged m sd ed fetched)
                (PlaidSynchronizer.set_item_info (Some info) (self m))))
    | |- context [for_each (elements ?x) save_transaction_of] =>
        progress change x with (window_new m sd ed fetched)
    end.
  all: try reflexivity.
  all: unfold st_bind; rewrite db_write_exec; cbn [self world];
    rewrite save_balances_exec; cbn [self world];
    rewrite for_each_save_transaction_of by apply window_new_in_merged;
    cbn [self world]; rewrite <- !exec_calls_app.
  all: reflexivity.
Qed.
End WindowLemmas.

Section ApiLemmas.
Context {P : Type} `{PlaidApi P}.

Lemma wrap_plaid_error_ok {A} (f : ST P A) p a p' :
  wrap_plaid_error f p = (Ok a, p') → f p = (Ok a, p').
Proof.
  unfold wrap_plaid_error. destruct (f p) as [[a'|[ex|e| |k]|] p1]; congruence.
Qed.

(** The callback is called on the side: it leaves the provider as it is. *)
Lemma call_status_callback_state cb a mo r h (p : P) :
  (call_status_callback cb a mo r h p).2 = p.
Proof. by destruct cb. Qed.

Lemma call_status_callback_None a mo r h (p : P) :
  call_status_callback None a mo r h p = (Ok tt, p).
Proof. done. Qed.

(** One iteration of the loop. *)
Lemma sync_transactions_loop_step fuel tok cb all_added all_modified all_removed
    cursor (p : P) :
  sync_transactions_loop (S fuel) tok cb all_added all_modified all_removed
    cursor true p
  = match transactions_sync tok cursor p with
    | (inl ex, p1) => (Raise (ApiExn ex), p1)
    | (inr response, p1) =>
        let all_added := all_added ++ TransactionsSyncResponse.added response in
        let all_modified := all_modified ++ TransactionsSyncResponse.modified response in
        let all_removed := all_removed ++ TransactionsSyncResponse.removed response in
        let has_next := TransactionsSyncResponse.has_more response in
        match (call_status_callback cb (length all_added) (length all_modified)
                 (length all_removed) has_next p1).1 with
        | Ok _ =>
            sync_transactions_loop fuel tok cb all_added all_modified all_removed
              (Some (TransactionsSyncResponse.next_cursor response)) has_next p1
        | Raise e => (Raise e, p1)
        | OutOfFuel => (OutOfFuel, p1)
        end
    end.
Proof.
  cbn [sync_transactions_loop]. unfold st_bind at 1, client_call.
  destruct (transactions_sync tok cursor p) as [[ex|resp] p1]; [done|].
  cbv zeta. unfold st_bind.
  destruct cb as [f|]; cbn [call_status_callback fst]; [|done].
  by destruct (f _ _ _ _) as [[]|e|].
Qed.

Lemma sync_transactions_loop_ok fuel tok cb all_added all_modified all_removed
    cursor p r p' :
  sync_transactions_loop fuel tok cb all_added all_modified all_removed cursor
    true p
  = (Ok r, p') →
  let pages := served_pages fuel tok cursor p in
  SyncResult.added r
  = all_added ++ concat (map TransactionsSyncResponse.added pages)
  ∧ SyncResult.modified r
    = all_modified ++ concat (map TransactionsSyncResponse.modified pages)
  ∧ SyncResult.removed r
    = all_removed ++ concat (map TransactionsSyncResponse.removed pages)
  ∧ SyncResult.has_next r = false
  ∧ SyncResult.cursor r
    = option_map (λ page, TransactionsSyncResponse.next_cursor page) (last pages)
  ∧ option_map TransactionsSyncResponse.has_more (last pages) = Some false.
Proof.
  revert all_added all_modified all_removed cursor p.
  induction fuel as [|fuel IH]; intros A Mo R cur p; [discriminate|].
  rewrite sync_transactions_loop_step. cbn [served_pages].
  destruct (transactions_sync tok cur p) as [[ex|resp] p1]; [discriminate|].
  cbv zeta.
  destruct (call_status_callback _ _ _ _ _ _).1 as [[]|e|]; [|discriminate..].
  destruct (TransactionsSyncResponse.has_more resp) eqn:Hmore.
  - intros Hrun. apply IH in Hrun. cbv zeta in Hrun.
    destruct Hrun as (Ha & Hm & Hr & Hn & Hc & Hl).
    cbn [map concat]. rewrite !app_assoc.
    destruct (served_pages fuel tok _ p1) as [|pg pgs] eqn:Hp; [discriminate|].
    rewrite last_cons_cons. done.
  - destruct fuel; cbn [sync_transactions_loop]; unfold st_ret;
      intros [= <- <-]; cbn; rewrite !app_nil_r, Hmore; done.
Qed.

(** What the loop raises is the client's [ApiException], which the
    decorator re-raises classified, or what the status callback raised. *)
Lemma sync_transactions_loop_raise fuel tok cb all_added all_modified all_removed
    cursor has_next p e p' :
  sync_transactions_loop fuel tok cb all_added all_modified all_removed cursor
    has_next p = (Raise e, p') →
  (∃ ex, e = ApiExn ex)
  ∨ (∃ f a mo r h, cb = Some f ∧ f a mo r h = Raise e).
Proof.
  revert all_added all_modified all_removed cursor has_next p.
  induction fuel as [|fuel IH]; intros A Mo R cur more p;
    destruct more; try (cbn [sync_transactions_loop]; discriminate).
  rewrite sync_transactions_loop_step.
  destruct (transactions_sync tok cur p) as [[ex|resp] p1].
  - intros [= <- <-]. left. by exists ex.
  - cbv zeta.
    destruct (call_status_callback _ _ _ _ _ _).1 as [[]|e0|] eqn:Hcb;
      [apply IH| |discriminate].
    intros [= <- <-]. right.
    destruct cb as [f|]; [|discriminate]. cbn in Hcb. eauto 10.
Qed.

Lemma sync_transactions_with_raise fuel tok cursor cb p e p' :
  sync_transactions_with fuel tok cursor cb p = (Raise e, p') →
  (∃ ex, e = PlaidExn (raise_plaid ex))
  ∨ (∃ f a mo r h, cb = Some f ∧ f a mo r h = Raise e).
Proof.
  unfold sync_transactions_with, wrap_plaid_error.
  destruct (sync_transactions_loop _ _ _ _ _ _ _ _ _) as [[r|e'|] p1] eqn:Hloop;
    try discriminate.
  apply sync_transactions_loop_raise in Hloop as [[ex ->]|Hcb].
  - intros [= <- <-]. left. by exists ex.
  - destruct e' as [ex| | |]; intros [= <- <-]; eauto.
Qed.

Lemma sync_transactions_raise fuel tok cursor p e p' :
  sync_transactions fuel tok cursor p = (Raise e, p') →
  ∃ ex, e = PlaidExn (raise_plaid ex).
Proof.
  intros Hrun. apply sync_transactions_with_raise in Hrun as [?|Hcb]; [done|].
  by destruct Hcb as (f & a & mo & r & h & [=] & _).
Qed.

Lemma sync_transactions_with_ok fuel tok cursor cb p r p' :
  sync_transactions_with fuel tok cursor cb p = (Ok r, p') →
  let pages := served_pages fuel tok cursor p in
  SyncResult.added r = concat (map TransactionsSyncResponse.added pages)
  ∧ SyncResult.modified r = concat (map TransactionsSyncResponse.modified pages)
  ∧ SyncResult.removed r = concat (map TransactionsSyncResponse.removed pages)
  ∧ SyncResult.has_next r = false
  ∧ SyncResult.cursor r
    = option_map (λ page, TransactionsSyncResponse.next_cursor page) (last pages)
  ∧ option_map TransactionsSyncResponse.has_more (last pages) = Some false.
Proof.
  intros Hrun. apply wrap_plaid_error_ok in Hrun.
  by apply sync_transactions_loop_ok in Hrun.
Qed.

Lemma sync_transactions_ok fuel tok cursor p r p' :
  sync_transactions fuel tok cursor p = (Ok r, p') →
  let pages := served_pages fuel tok cursor p in
  SyncResult.added r = concat (map TransactionsSyncResponse.added pages)
  ∧ SyncResult.modified r = concat (map TransactionsSyncResponse.modified pages)
  ∧ SyncResult.removed r = concat (map TransactionsSyncResponse.removed pages)
  ∧ SyncResult.has_next r = false
  ∧ SyncResult.cursor r
    = option_map (λ page, TransactionsSyncResponse.next_cursor page) (last pages)
  ∧ option_map TransactionsSyncResponse.has_more (last pages) = Some false.
Proof. apply sync_transactions_with_ok. Qed.

(** With the callback of a verbose [sync_with_cursor] the call ends at the
    first page: the request raises, or the page is served and the callback
    raises [TypeError]. *)
Lemma sync_transactions_verbose_first_page fuel tok cursor (p : P) :
  sync_transactions_with (S fuel) tok cursor (cursor_status_callback true) p
  = match transactions_sync tok cursor p with
    | (inl ex, p1) => (Raise (PlaidExn (raise_plaid ex)), p1)
    | (inr _, p1) => (Raise TypeError, p1)
    end.
Proof.
  unfold sync_transactions_with, wrap_plaid_error.
  rewrite sync_transactions_loop_step.
  by destruct (transactions_sync tok cursor p) as [[ex|resp] p1].
Qed.

(** So the call returns a result only without that callback. *)
Lemma cursor_status_callback_ok fuel tok cursor v (p : P) r p' :
  sync_transactions_with fuel tok cursor (cursor_status_callback v) p = (Ok r, p') →
  v = false.
Proof.
  destruct v; [|done]. destruct fuel as [|fuel]; [discriminate|].
  rewrite sync_transactions_verbose_first_page.
  by destruct (transactions_sync tok cursor p) as [[ex|resp] p1].
Qed.

Lemma cursor_status_callback_raise fuel tok cursor v (p : P) e p' :
  sync_transactions_with fuel tok cursor (cursor_status_callback v) p
  = (Raise e, p') →
  (∃ ex, e = PlaidExn (raise_plaid ex)) ∨ (v = true ∧ e = TypeError).
Proof.
  intros Hrun. apply sync_transactions_with_raise in Hrun as [?|Hcb]; [by left|].
  destruct Hcb as (f & a & mo & r & h & Hf & He). right.
  destruct v; [|discriminate]. injection Hf as <-. by injection He as <-.
Qed.

End ApiLemmas.

Section RunCases.
Context {P D : Type} `{PlaidApi P} `{TransactionsDB D}.

Lemma cursor_try_cases fuel fb v (m : Machine P D) o m' :
  sync_with_cursor_try fuel fb v m = (o, m') →
  (∃ info reads p,
      m' = stopped m info reads p
      ∧ Forall (λ c, is_write c = false) reads ∧ o ≠ Ok tt)
  ∨ (∃ info balances r p, o = Ok tt ∧ m' = cursor_done m info balances r p).
Proof.
  rewrite sync_with_cursor_try_eq. cbv zeta.
  destruct (get_item_info _ _) as [[info|e|] p1].
  2,3: intros [= <- <-]; left; exists None, [], p1; by repeat split.
  destruct (fetch_balances_opt _ _ _) as [[balances|e|] p2].
  2,3: intros [= <- <-]; left; exists (Some info), [], p2; by repeat split.
  destruct (sync_transactions_with _ _ _ _ _) as [[r|e|] p3].
  - intros [= <- <-]. right. by exists info, balances, r, p3.
  - intros [= <- <-]. left. eexists (Some info), _, p3.
    split; [done|]. split; [|done]. by repeat constructor.
  - intros [= <- <-]. left. eexists (Some info), _, p3.
    split; [done|]. split; [|done]. by repeat constructor.
Qed.

Lemma window_try_cases fuel sd ed fb v (m : Machine P D) o m' :
  sync_try fuel sd ed fb v m = (o, m') →
  (∃ info reads p,
      m' = stopped m info reads p
      ∧ Forall (λ c, is_write c = false) reads ∧ o ≠ Ok tt)
  ∨ (∃ info balances fetched p,
        (o, m') = window_done m sd ed v info balances fetched p).
Proof.
  rewrite sync_try_eq. cbv zeta.
  destruct (get_item_info _ _) as [[info|e|] p1].
  2,3: intros [= <- <-]; left; exists None, [], p1; by repeat split.
  destruct (fetch_balances_opt _ _ _) as [[balances|e|] p2].
  2,3: intros [= <- <-]; left; exists (Some info), [], p2; by repeat split.
  destruct (get_transactions _ _ _ _ _ _) as [[fetched|e|] p3].
  2,3: intros [= <- <-]; left; exists (Some info), [], p3; by repeat split.
  intros Heq. right. by exists info, balances, fetched, p3.
Qed.

(** Projections of the end states. *)

Lemma stopped_plaid_error (m : Machine P D) info reads p :
  PlaidSynchronizer.plaid_error (self (stopped m info reads p))
  = PlaidSynchronizer.plaid_error (self m).
Proof. by destruct info. Qed.

Lemma stopped_counts (m : Machine P D) info reads p :
  PlaidSynchronizer.counts (self (stopped m info reads p))
  = PlaidSynchronizer.counts (self m).
Proof. by destruct info. Qed.

Lemma new_calls_app (m m' : Machine P D) calls :
  db_log (world m') = db_log (world m) ++ calls → new_calls m m' = calls.
Proof. unfold new_calls. intros ->. by rewrite drop_app_length. Qed.

Lemma cursor_done_log (m : Machine P D) info balances r p :
  ∃ tail,
    db_log (world (cursor_done m info balances r p))
    = db_log (world m)
      ++ (GetLastSyncCursor (AccountInfo.item_id info)
          :: SaveItemInfo info
          :: balance_calls (AccountInfo.item_id info) balances
          ++ map SaveTransaction (SyncResult.added r)
          ++ map SaveTransaction (SyncResult.modified r) ++ tail)
    ∧ (tail = [] ∨ tail = [SaveSyncCursor (AccountInfo.item_id info) (SyncResult.cursor r)]).
Proof.
  unfold cursor_done. cbv zeta. cbn [world].
  destruct (has_save_sync_cursor _).
  - eexists. split; [|by right]. cbn [exec_calls db_log].
    rewrite <- !app_assoc. cbn. by rewrite <- !app_assoc.
  - exists []. split; [|by left]. cbn [exec_calls db_log].
    rewrite <- app_assoc. cbn [app]. repeat f_equal. symmetry. apply app_nil_r.
Qed.

Lemma window_done_log (m : Machine P D) sd ed v info balances fetched p :
  ∃ tail,
    db_log (world (window_done m sd ed v info balances fetched p).2)
    = db_log (world m) ++ window_reads m sd ed fetched ++ tail
    ∧ (tail = [] ∨ tail = window_writes m sd ed info balances fetched).
Proof.
  unfold window_done. cbv zeta.
  destruct (v && _).
  - exists []. split; [|by left]. cbn [snd world db_log]. by rewrite app_nil_r.
  - eexists. split; [|by right]. cbn [snd world exec_calls db_log].
    by rewrite <- app_assoc.
Qed.

End RunCases.

Section SyncLemmas.
Context {P D : Type} `{PlaidApi P} `{TransactionsDB D}.

Lemma sync_try_block fuel sd ed fb v mode (m : Machine P D) :
  sync fuel sd ed fb v mode m
  = match try_block fuel sd ed fb v mode m with
    | (Raise (PlaidExn ex), m1) => (Ok tt, failed ex m1)
    | r => r
    end.
Proof. unfold sync, sync_with_cursor, try_block. by destruct mode. Qed.

Lemma try_block_cases fuel sd ed fb v mode (m : Machine P D) o m' :
  try_block fuel sd ed fb v mode m = (o, m') →
  (∃ info reads p,
      m' = stopped m info reads p
      ∧ Forall (λ c, is_write c = false) reads ∧ o ≠ Ok tt)
  ∨ (∃ info balances r p,
        mode = true ∧ o = Ok tt ∧ m' = cursor_done m info balances r p)
  ∨ (∃ info balances fetched p,
        mode = false
        ∧ (o, m') = window_done m sd ed v info balances fetched p).
Proof.
  unfold try_block. destruct mode; intros Hrun.
  - apply cursor_try_cases in Hrun as [?|(info & b & r & p & ? & ?)]; [by left|].
    right. left. by exists info, b, r, p.
  - apply window_try_cases in Hrun as [?|(info & b & f & p & ?)]; [by left|].
    right. right. by exists info, b, f, p.
Qed.

(** A try block that raises a provider error has only queried the store. *)
Lemma try_block_plaid_error fuel sd ed fb v mode (m : Machine P D) ex m1 :
  try_block fuel sd ed fb v mode m = (Raise (PlaidExn ex), m1) →
  ∃ info reads p,
    m1 = stopped m info reads p ∧ Forall (λ c, is_write c = false) reads.
Proof.
  intros Hrun.
  apply try_block_cases in Hrun
    as [(info & reads & p & ? & ? & _)
       |[(? & ? & ? & ? & _ & ? & _)|(info & b & f & p & _ & Hd)]].
  - by exists info, reads, p.
  - done.
  - unfold window_done in Hd. cbv zeta in Hd. by destruct (v && _).
Qed.

(** The try block never touches [plaid_error]. *)
Lemma try_block_keeps_plaid_error fuel sd ed fb v mode (m : Machine P D) o m' :
  try_block fuel sd ed fb v mode m = (o, m') →
  PlaidSynchronizer.plaid_error (self m')
  = PlaidSynchronizer.plaid_error (self m).
Proof.
  intros Hrun.
  apply try_block_cases in Hrun
    as [(info & reads & p & -> & _)
       |[(? & ? & ? & ? & _ & _ & ->)|(info & b & f & p & _ & Hd)]].
  - apply stopped_plaid_error.
  - done.
  - unfold window_done in Hd. cbv zeta in Hd.
    by destruct (v && _); injection Hd as _ ->.
Qed.

(** A run that ends with an error recorded, from a synchroniser without
    one, is a run whose try block raised it. *)
Lemma sync_error_recorded fuel sd ed fb v mode (m : Machine P D) ex :
  PlaidSynchronizer.plaid_error (self m) = None →
  PlaidSynchronizer.plaid_error (self (sync fuel sd ed fb v mode m).2) = Some ex →
  ∃ m1, try_block fuel sd ed fb v mode m = (Raise (PlaidExn ex), m1)
        ∧ sync fuel sd ed fb v mode m = (Ok tt, failed ex m1).
Proof.
  intros Hnone. rewrite sync_try_block.
  destruct (try_block fuel sd ed fb v mode m) as [o m1] eqn:Hrun.
  pose proof (try_block_keeps_plaid_error _ _ _ _ _ _ _ _ _ Hrun) as Hkeep.
  rewrite Hnone in Hkeep.
  destruct o as [[]|[ex'|e'| |k]|]; cbn [snd]; rewrite ?Hkeep; try discriminate.
  cbn. intros [= ->]. by exists m1.
Qed.

(** The log of a run extends the log it started with, by calls that are
    never [archive_transactions]. *)
Lemma try_block_log fuel sd ed fb v mode (m : Machine P D) o m' :
  try_block fuel sd ed fb v mode m = (o, m') →
  ∃ calls, db_log (world m') = db_log (world m) ++ calls
           ∧ Forall (λ c, is_archive c = false) calls.
Proof.
  intros Hrun.
  apply try_block_cases in Hrun
    as [(info & reads & p & -> & Hreads & _)
       |[(info & b & r & p & _ & _ & ->)|(info & b & f & p & _ & Hd)]].
  - exists reads. split; [done|].
    eapply Forall_impl; [exact Hreads|]. by intros [].
  - destruct (cursor_done_log m info b r p) as (tail & -> & Htail).
    eexists. split; [done|].
    repeat (apply Forall_cons; split; [done|]).
    rewrite !Forall_app, !Forall_map. unfold balance_calls. rewrite Forall_map.
    repeat split; try (by apply Forall_true).
    destruct Htail as [->| ->]; by repeat constructor.
  - destruct (window_done_log m sd ed v info b f p) as (tail & Hlog & Htail).
    rewrite <- Hd in Hlog. cbn [snd] in Hlog. rewrite Hlog.
    eexists. split; [done|].
    rewrite Forall_app. split; [by repeat constructor|].
    destruct Htail as [->| ->]; [constructor|].
    unfold window_writes, balance_calls.
    apply Forall_cons; split; [done|].
    rewrite Forall_app, !Forall_map. split; by apply Forall_true.
Qed.

End SyncLemmas.

Lemma last_version_app tid l1 l2 :
  last_version tid (l1 ++ l2)
  = match last_version tid l2 with
    | Some t => Some t
    | None => last_version tid l1
    end.
Proof.
  unfold last_version. rewrite List.filter_app.
  destruct (List.filter _ l2) as [|t l] eqn:Hf.
  - by rewrite app_nil_r.
  - rewrite last_app_cons. by destruct (last (t :: l)) eqn:Hl;
      [|apply last_None in Hl].
Qed.

Lemma last_version_concat tid (ls : list (list Transaction.t)) :
  last_version tid (concat ls) = last (omap (last_version tid) ls).
Proof.
  induction ls as [|l ls IH] using rev_ind; [done|].
  rewrite concat_app, omap_app. cbn [concat omap list_omap].
  rewrite app_nil_r, last_version_app.
  destruct (last_version tid l) as [t|] eqn:Hl; cbn.
  - by rewrite last_snoc.
  - by rewrite app_nil_r.
Qed.

Lemma latest_reported_concat select tid pages :
  latest_reported select tid pages
  = last_version tid (concat (map select pages)).
Proof.
  unfold latest_reported. rewrite last_version_concat.
  f_equal. induction pages as [|pg pgs IH]; [done|].
  cbn. rewrite IH. done.
Qed.

Section CursorRun.
Context {P D : Type} `{PlaidApi P} `{TransactionsDB D}.

Lemma sync_with_cursor_chain fuel fb v (m : Machine P D) info p1 balances p2 r p3 :
  let tok := PlaidSynchronizer.access_token (self m) in
  get_item_info tok (plaid (world m)) = (Ok info, p1) →
  fetch_balances_opt fb tok p1 = (Ok balances, p2) →
  sync_transactions_with fuel tok
    (get_last_sync_cursor (AccountInfo.item_id info) (db (world m)))
    (cursor_status_callback v) p2
  = (Ok r, p3) →
  sync_with_cursor fuel fb v m = (Ok tt, cursor_done m info balances r p3).
Proof.
  cbv zeta. intros H1 H2 H3. unfold sync_with_cursor, try_except_PlaidError.
  rewrite sync_with_cursor_try_eq. cbv zeta. by rewrite H1, H2, H3.
Qed.

(** When the call to [sync_transactions] raises: a [PlaidError] is caught
    and recorded, anything else leaves [sync_with_cursor]. *)
Lemma sync_with_cursor_loop_error fuel fb v (m : Machine P D) info p1 balances p2 e p3 :
  let tok := PlaidSynchronizer.access_token (self m) in
  let m1 := stopped m (Some info) [GetLastSyncCursor (AccountInfo.item_id info)] p3 in
  get_item_info tok (plaid (world m)) = (Ok info, p1) →
  fetch_balances_opt fb tok p1 = (Ok balances, p2) →
  sync_transactions_with fuel tok
    (get_last_sync_cursor (AccountInfo.item_id info) (db (world m)))
    (cursor_status_callback v) p2
  = (Raise e, p3) →
  sync_with_cursor fuel fb v m
  = match e with
    | PlaidExn ex => (Ok tt, failed ex m1)
    | _ => (Raise e, m1)
    end.
Proof.
  cbv zeta. intros H1 H2 H3. unfold sync_with_cursor, try_except_PlaidError.
  rewrite sync_with_cursor_try_eq. cbv zeta. rewrite H1, H2, H3.
  by destruct e.
Qed.

Lemma cursor_try_ok_chain fuel fb v (m : Machine P D) m' :
  sync_with_cursor_try fuel fb v m = (Ok tt, m') →
  ∃ info p1 balances p2 r p3,
    let tok := PlaidSynchronizer.access_token (self m) in
    get_item_info tok (plaid (world m)) = (Ok info, p1)
    ∧ fetch_balances_opt fb tok p1 = (Ok balances, p2)
    ∧ sync_transactions_with fuel tok
        (get_last_sync_cursor (AccountInfo.item_id info) (db (world m)))
        (cursor_status_callback v) p2
      = (Ok r, p3)
    ∧ m' = cursor_done m info balances r p3.
Proof.
  rewrite sync_with_cursor_try_eq. cbv zeta.
  destruct (get_item_info _ _) as [[info|e|] p1] eqn:H1; [|discriminate..].
  destruct (fetch_balances_opt _ _ _) as [[balances|e|] p2] eqn:H2;
    [|discriminate..].
  destruct (sync_transactions_with _ _ _ _ _) as [[r|e|] p3] eqn:H3;
    [|discriminate..].
  intros [= <-]. by exists info, p1, balances, p2, r, p3.
Qed.

(** A cursor-mode run whose log gained a write has run its provider calls
    to the end. *)
Lemma sync_with_cursor_wrote fuel fb v (m : Machine P D) c :
  c ∈ new_calls m (sync_with_cursor fuel fb v m).2 → is_write c = true →
  ∃ info p1 balances p2 r p3,
    let tok := PlaidSynchronizer.access_token (self m) in
    get_item_info tok (plaid (world m)) = (Ok info, p1)
    ∧ fetch_balances_opt fb tok p1 = (Ok balances, p2)
    ∧ sync_transactions_with fuel tok
        (get_last_sync_cursor (AccountInfo.item_id info) (db (world m)))
        (cursor_status_callback v) p2
      = (Ok r, p3)
    ∧ (sync_with_cursor fuel fb v m).2 = cursor_done m info balances r p3.
Proof.
  change (sync_with_cursor fuel fb v m) with (sync fuel None None fb v true m).
  rewrite sync_try_block.
  destruct (try_block fuel None None fb v true m) as [o m1] eqn:Hrun.
  intros Hin Hw.
  assert (Hworld : new_calls m (match o with
                               | Raise (PlaidExn ex) => (Ok tt, failed ex m1)
                               | _ => (o, m1)
                               end).2 = new_calls m m1)
    by (by destruct o as [[]|[ex'|e'| |k]|]).
  pose proof Hrun as Hcases.
  apply try_block_cases in Hcases
    as [(info & reads & p & -> & Hreads & Ho)
       |[(info & b & r & p & _ & -> & ->)|(? & ? & ? & ? & ? & _)]];
    [| |done].
  - exfalso. 
    assert (Hc : c ∈ reads).
    { destruct o as [[]|[ex'|e'| |k]|]; cbn in Hin;
        unfold new_calls in Hin; cbn in Hin;
        by rewrite drop_app_length in Hin. }
    rewrite Forall_forall in Hreads. apply Hreads in Hc. congruence.
  - apply (cursor_try_ok_chain fuel fb v) in Hrun
      as (info' & p1 & b' & p2 & r' & p3 & H1 & H2 & H3 & Hdone).
    exists info', p1, b', p2, r', p3. cbv zeta. by rewrite Hdone.
Qed.

(** C1.  Cursor mode.  (1) When the change-replay loop does not run to its
    end because a call in it raises, the store is exactly as it was before
    the run (so the cursor stored for every item is unchanged) and the query
    of the last cursor is the only store call the run made.  What leaves the
    loop is then either a classified provider error, which the run records
    before it returns, or the [TypeError] of the status callback of a
    verbose run, which leaves [sync_with_cursor] and records nothing.
    (2) A [save_sync_cursor] call appears in a run only when the whole loop
    has returned (its last page without [has_more]); it is then the last
    call of the run and carries the loop's final cursor. *)
Theorem cursor_saved_only_after_full_drain fuel fb v (m : Machine P D) :
  let tok := PlaidSynchronizer.access_token (self m) in
  let run := sync_with_cursor fuel fb v m in
  let m' := run.2 in
  (∀ info p1 balances p2 e p3,
     get_item_info tok (plaid (world m)) = (Ok info, p1) →
     fetch_balances_opt fb tok p1 = (Ok balances, p2) →
     sync_transactions_with fuel tok
       (get_last_sync_cursor (AccountInfo.item_id info) (db (world m)))
       (cursor_status_callback v) p2
     = (Raise e, p3) →
     db (world m') = db (world m)
     ∧ (∀ item_id, get_last_sync_cursor item_id (db (world m'))
                   = get_last_sync_cursor item_id (db (world m)))
     ∧ new_calls m m' = [GetLastSyncCursor (AccountInfo.item_id info)]
     ∧ ((∃ ex, e = PlaidExn ex ∧ run.1 = Ok tt
               ∧ PlaidSynchronizer.plaid_error (self m') = Some ex)
        ∨ (v = true ∧ e = TypeError ∧ run.1 = Raise TypeError
           ∧ PlaidSynchronizer.plaid_error (self m')
             = PlaidSynchronizer.plaid_error (self m))))
  ∧ (∀ item_id cursor,
       SaveSyncCursor item_id cursor ∈ new_calls m m' →
       ∃ info p1 balances p2 r p3,
         get_item_info tok (plaid (world m)) = (Ok info, p1)
         ∧ fetch_balances_opt fb tok p1 = (Ok balances, p2)
         ∧ sync_transactions_with fuel tok
             (get_last_sync_cursor (AccountInfo.item_id info) (db (world m)))
             (cursor_status_callback v) p2
           = (Ok r, p3)
         ∧ SyncResult.has_next r = false
         ∧ option_map TransactionsSyncResponse.has_more
             (last (served_pages fuel tok
                      (get_last_sync_cursor (AccountInfo.item_id info)
                         (db (world m))) p2))
           = Some false
         ∧ item_id = AccountInfo.item_id info
         ∧ cursor = SyncResult.cursor r
         ∧ last (new_calls m m') = Some (SaveSyncCursor item_id cursor)).
Proof.
  cbv zeta. split.
  - intros info p1 balances p2 e p3 H1 H2 H3.
    pose proof (sync_with_cursor_loop_error _ _ _ _ _ _ _ _ _ _ H1 H2 H3) as Hrun.
    cbv zeta in Hrun. rewrite Hrun.
    destruct (cursor_status_callback_raise _ _ _ _ _ _ _ H3) as [[ex0 ->]|[-> ->]];
      cbn [fst snd].
    + repeat split; try done; [by apply new_calls_app|].
      left. by eexists.
    + repeat split; try done; [by apply new_calls_app|].
      by right.
  - intros item_id cursor Hin.
    destruct (sync_with_cursor_wrote _ _ _ _ _ Hin eq_refl)
      as (info & p1 & balances & p2 & r & p3 & H1 & H2 & H3 & Hdone).
    exists info, p1, balances, p2, r, p3.
    destruct (sync_transactions_with_ok _ _ _ _ _ _ _ H3)
      as (_ & _ & _ & Hn & _ & Hl).
    repeat (split; [done|]).
    rewrite Hdone in *.
    destruct (cursor_done_log m info balances r p3) as (tail & Hlog & Htail).
    rewrite (new_calls_app _ _ _ Hlog) in *.
    rewrite !elem_of_cons, !elem_of_app in Hin.
    unfold balance_calls in Hin. rewrite !list_elem_of_fmap in Hin.
    destruct Hin as [?|[?|[(? & ? & ?)|[(? & ? & ?)|[(? & ? & ?)|Hin]]]]];
      try discriminate.
    destruct Htail as [->| ->]; [by apply elem_of_nil in Hin|].
    apply list_elem_of_singleton in Hin as [= -> ->].
    repeat split.
    rewrite !app_comm_cons, !app_assoc. apply last_snoc.
Qed.

End CursorRun.

(* ===================================================================== *)
(** * The properties *)
(* ===================================================================== *)

Section BothModes.
Context {P D : Type} `{PlaidApi P} `{TransactionsDB D}.

Lemma length_filter_le {A} (f : A → bool) (l : list A) :
  length (List.filter f l) ≤ length l.
Proof. induction l as [|x l IH]; simpl; [lia|]. destruct (f x); simpl; lia. Qed.

Lemma cursor_counts_bounded (m : Machine P D) r :
  counts_bounded (cursor_counts m r).
Proof. split; cbn; [apply length_filter_le|lia]. Qed.

Lemma window_counts_bounded (m : Machine P D) sd ed fetched :
  counts_bounded (window_counts m sd ed fetched).
Proof. split; cbn; apply length_filter_le. Qed.

Lemma try_block_counts_bounded fuel sd ed fb v mode (m : Machine P D) o m' :
  try_block fuel sd ed fb v mode m = (o, m') →
  counts_bounded (PlaidSynchronizer.counts (self m)) →
  counts_bounded (PlaidSynchronizer.counts (self m')).
Proof.
  intros Hrun Hm.
  apply try_block_cases in Hrun
    as [(info & reads & p & -> & _)
       |[(info & b & r & p & _ & _ & ->)|(info & b & f & p & _ & Hd)]].
  - by rewrite stopped_counts.
  - apply cursor_counts_bounded.
  - unfold window_done in Hd. cbv zeta in Hd.
    destruct (v && _); injection Hd as _ ->; apply window_counts_bounded.
Qed.

(** C8.  In either mode, the counts a run leaves on the synchroniser satisfy
    [new_pending ≤ new] and [archived_pending ≤ archived], provided the
    counts it started with did (those of [__init__] do). *)
Theorem counts_bounded_after_sync fuel sd ed fb v mode (m : Machine P D) :
  counts_bounded (PlaidSynchronizer.counts (self m)) →
  counts_bounded
    (PlaidSynchronizer.counts (self (sync fuel sd ed fb v mode m).2)).
Proof.
  intros Hm. rewrite sync_try_block.
  destruct (try_block fuel sd ed fb v mode m) as [o m1] eqn:Hrun.
  pose proof (try_block_counts_bounded _ _ _ _ _ _ _ _ _ Hrun Hm) as Hb.
  by destruct o as [[]|[ex'|e'| |k]|].
Qed.

(** C9.  In either mode and on every input, the store calls a run adds to
    the log are never [archive_transactions]. *)
Theorem archive_never_invoked fuel sd ed fb v mode (m : Machine P D) :
  let m' := (sync fuel sd ed fb v mode m).2 in
  db_log (world m') = db_log (world m) ++ new_calls m m'
  ∧ Forall (λ c, is_archive c = false) (new_calls m m').
Proof.
  cbv zeta. rewrite sync_try_block.
  destruct (try_block fuel sd ed fb v mode m) as [o m1] eqn:Hrun.
  destruct (try_block_log _ _ _ _ _ _ _ _ _ Hrun) as (calls & Hlog & Hcalls).
  unfold new_calls.
  destruct o as [[]|[ex'|e'| |k]|]; cbn [snd failed world];
    by rewrite Hlog, drop_app_length.
Qed.

(** C10.  A synchroniser fresh from [__init__] that ends a run, in either
    mode, with [plaid_error] set has the counts of [__init__]: all zeros. *)
Theorem failed_sync_reports_zero_counts fuel sd ed fb v mode name tok
    (w : World P D) :
  let m' := (sync fuel sd ed fb v mode
               (mkMachine (PlaidSynchronizer.__init__ name tok) w)).2 in
  is_Some (PlaidSynchronizer.plaid_error (self m')) →
  PlaidSynchronizer.counts (self m') = SyncCounts.mk 0 0 0 0 0 0.
Proof.
  cbv zeta. intros [ex Hex].
  apply sync_error_recorded in Hex as (m1 & Htry & ->); [|done].
  apply try_block_plaid_error in Htry as (info & reads & p & -> & _).
  cbn [snd failed self PlaidSynchronizer.set_plaid_error PlaidSynchronizer.counts].
  by rewrite stopped_counts.
Qed.

(** C3.  When the try block of an account's sync raises a provider error,
    in either mode: [sync] returns normally with the error recorded on the
    synchroniser; the store is as it was and the run has only queried it;
    and the loop of [main] goes on with the remaining accounts. *)
Theorem provider_error_caught_before_any_write fuel args (m : Machine P D) ex m1 :
  let sd := args_start_date args in
  let ed := args_end_date args in
  let fb := args_balances args in
  let v := args_verbose args in
  let mode := args_cursor_sync args in
  try_block fuel sd ed fb v mode m = (Raise (PlaidExn ex), m1) →
  sync fuel sd ed fb v mode m = (Ok tt, failed ex m1)
  ∧ PlaidSynchronizer.plaid_error (self (failed ex m1)) = Some ex
  ∧ db (world (failed ex m1)) = db (world m)
  ∧ db_log (world (failed ex m1))
    = db_log (world m) ++ new_calls m (failed ex m1)
  ∧ Forall (λ c, is_write c = false) (new_calls m (failed ex m1))
  ∧ ∀ get_token account_name rest results,
      self m = PlaidSynchronizer.__init__ account_name (get_token account_name) →
      process_accounts fuel args get_token (account_name :: rest)
        (results, world m)
      = process_accounts fuel args get_token rest
          (<[account_name := self (failed ex m1)]> results, world m1).
Proof.
  cbv zeta. intros Htry.
  assert (Hsync : sync fuel (args_start_date args) (args_end_date args)
            (args_balances args) (args_verbose args) (args_cursor_sync args) m
          = (Ok tt, failed ex m1)) by (by rewrite sync_try_block, Htry).
  destruct (try_block_plaid_error _ _ _ _ _ _ _ _ _ Htry)
    as (info & reads & p & -> & Hreads).
  assert (Hlog : db_log (world (failed ex (stopped m info reads p)))
                 = db_log (world m) ++ reads) by done.
  rewrite (new_calls_app _ _ _ Hlog).
  repeat split; try done.
  intros get_token account_name rest results Hself.
  unfold process_accounts. cbn [for_each]. unfold st_bind at 1.
  unfold process_account at 1. cbn [fst snd]. rewrite <- Hself.
  assert (Hm : mkMachine (self m) (world m) = m) by (by destruct m).
  rewrite Hm.
  destruct (args_cursor_sync args) eqn:Hmode.
  - unfold sync in *. by rewrite Hsync.
  - by rewrite Hsync.
Qed.

End BothModes.

Section PerMode.
Context {P D : Type} `{PlaidApi P} `{TransactionsDB D}.

(** C7.  Cursor mode: the counts of a run whose call to [sync_transactions],
    made with the status callback of the run, returned [sync_result].  (The
    call of a verbose run returns none: its callback raises at the first
    page.) *)
Theorem cursor_counts_emitted fuel fb v (m : Machine P D)
    info p1 balances p2 sync_result p3 :
  let tok := PlaidSynchronizer.access_token (self m) in
  get_item_info tok (plaid (world m)) = (Ok info, p1) →
  fetch_balances_opt fb tok p1 = (Ok balances, p2) →
  sync_transactions_with fuel tok
    (get_last_sync_cursor (AccountInfo.item_id info) (db (world m)))
    (cursor_status_callback v) p2
  = (Ok sync_result, p3) →
  let m' := (sync_with_cursor fuel fb v m).2 in
  let merged := PlaidSynchronizer.transactions (self m') in
  let added := SyncResult.added sync_result in
  let modified := SyncResult.modified sync_result in
  let removed := SyncResult.removed sync_result in
  merged = transactions_updated
             (transactions_updated (PlaidSynchronizer.transactions (self m)) added)
             modified
  ∧ PlaidSynchronizer.counts (self m')
    = SyncCounts.mk
        (length added)
        (length
           (List.filter
              (λ t, pending_in merged (Transaction.transaction_id t)) added))
        (length removed)
        0
        (length added + length modified)
        (size (list_to_set (C := gset string)
                 (map Transaction.account_id (added ++ modified)))).
Proof.
  cbv zeta. intros H1 H2 H3.
  rewrite (sync_with_cursor_chain _ _ _ _ _ _ _ _ _ _ H1 H2 H3).
  done.
Qed.

(** C4, as amended.  Cursor mode: after a run whose call to
    [sync_transactions], made with the status callback of the run, returned,
    the working map holds for every id the version of the latest page whose
    [modified] list reports the id; when no page's [modified] list reports
    it, the version of the latest page whose [added] list reports it; and
    otherwise what the map held before the run.  (The call of a verbose run
    does not return: its callback raises at the first page.) *)
Theorem merged_map_modified_then_added fuel fb v (m : Machine P D)
    info p1 balances p2 sync_result p3 :
  let tok := PlaidSynchronizer.access_token (self m) in
  let last_cursor :=
    get_last_sync_cursor (AccountInfo.item_id info) (db (world m)) in
  get_item_info tok (plaid (world m)) = (Ok info, p1) →
  fetch_balances_opt fb tok p1 = (Ok balances, p2) →
  sync_transactions_with fuel tok last_cursor (cursor_status_callback v) p2
  = (Ok sync_result, p3) →
  let pages := served_pages fuel tok last_cursor p2 in
  let merged :=
    PlaidSynchronizer.transactions (self (sync_with_cursor fuel fb v m).2) in
  ∀ tid,
    merged !! tid
    = match latest_reported TransactionsSyncResponse.modified tid pages with
      | Some t => Some t
      | None =>
          match latest_reported TransactionsSyncResponse.added tid pages with
          | Some t => Some t
          | None => PlaidSynchronizer.transactions (self m) !! tid
          end
      end.
Proof.
  cbv zeta. intros H1 H2 H3 tid.
  rewrite (sync_with_cursor_chain _ _ _ _ _ _ _ _ _ _ H1 H2 H3).
  destruct (sync_transactions_with_ok _ _ _ _ _ _ _ H3) as (Ha & Hm & _).
  cbn [snd cursor_done self PlaidSynchronizer.set_counts
       PlaidSynchronizer.set_transactions PlaidSynchronizer.transactions].
  unfold cursor_merged. rewrite !transactions_updated_lookup.
  by rewrite !latest_reported_concat, <- Ha, <- Hm.
Qed.

Lemma sync_window_chain fuel sd ed fb v (m : Machine P D)
    info p1 balances p2 fetched p3 :
  let tok := PlaidSynchronizer.access_token (self m) in
  get_item_info tok (plaid (world m)) = (Ok info, p1) →
  fetch_balances_opt fb tok p1 = (Ok balances, p2) →
  get_transactions fuel tok sd ed None p2 = (Ok fetched, p3) →
  sync fuel sd ed fb v false m
  = window_done m sd ed v info balances fetched p3.
Proof.
  cbv zeta. intros H1 H2 H3. unfold sync, try_except_PlaidError.
  rewrite sync_try_eq. cbv zeta. rewrite H1, H2, H3.
  unfold window_done. cbv zeta. by destruct (v && _).
Qed.

(** C2.  The reconciler's sets: [tids_new] is [fetched − existing],
    [tids_to_archive] is [existing − fetched], and the two are disjoint;
    [fetched] are the keys of the working map after the fetch, [existing]
    the ids the store answers for the window; the counts of a window-mode
    run are the sizes of these sets. *)
Theorem window_sets_are_differences :
  (∀ (transactions : gmap string Transaction.t) (existing : list string),
     window_tids_new transactions existing
     = dom transactions ∖ list_to_set existing
     ∧ window_tids_to_archive transactions existing
       = list_to_set existing ∖ dom transactions
     ∧ (∀ tid, tid ∈ window_tids_new transactions existing
               ↔ tid ∈ dom transactions ∧ tid ∉ existing)
     ∧ (∀ tid, tid ∈ window_tids_to_archive transactions existing
               ↔ tid ∈ existing ∧ tid ∉ dom transactions)
     ∧ window_tids_new transactions existing
       ∩ window_tids_to_archive transactions existing = ∅)
  ∧ (∀ fuel sd ed fb v (m : Machine P D) info p1 balances p2 fetched p3,
       let tok := PlaidSynchronizer.access_token (self m) in
       get_item_info tok (plaid (world m)) = (Ok info, p1) →
       fetch_balances_opt fb tok p1 = (Ok balances, p2) →
       get_transactions fuel tok sd ed None p2 = (Ok fetched, p3) →
       let m' := (sync fuel sd ed fb v false m).2 in
       let fetched_ids : gset string :=
         list_to_set (map Transaction.transaction_id fetched)
         ∪ dom (PlaidSynchronizer.transactions (self m)) in
       let existing_ids : gset string :=
         list_to_set (window_existing m sd ed fetched) in
       SyncCounts.new (PlaidSynchronizer.counts (self m'))
       = size (fetched_ids ∖ existing_ids)
       ∧ SyncCounts.archived (PlaidSynchronizer.counts (self m'))
         = size (existing_ids ∖ fetched_ids)
       ∧ SyncCounts.total_fetched (PlaidSynchronizer.counts (self m'))
         = size fetched_ids
       ∧ FetchTransactionsById (elements (existing_ids ∖ fetched_ids))
         ∈ new_calls m m').
Proof.
  split.
  - intros transactions existing.
    unfold window_tids_new, window_tids_to_archive, window_tids_fetched,
      window_tids_existing.
    split; [done|]. split; [done|]. split; [|split].
    + intros tid. by rewrite elem_of_difference, elem_of_list_to_set.
    + intros tid. by rewrite elem_of_difference, elem_of_list_to_set.
    + apply set_eq. intros tid.
      rewrite elem_of_intersection, !elem_of_difference.
      split; [|by intros ?%elem_of_empty]. by intros [[? ?] [? ?]].
  - cbv zeta. intros fuel sd ed fb v m info p1 balances p2 fetched p3 H1 H2 H3.
    rewrite (sync_window_chain _ _ _ _ _ _ _ _ _ _ _ _ H1 H2 H3).
    assert (Hf : window_tids_fetched (window_fetched m fetched)
                 = list_to_set (map Transaction.transaction_id fetched)
                   ∪ dom (PlaidSynchronizer.transactions (self m))).
    { unfold window_tids_fetched, window_fetched.
      apply transactions_updated_dom. }
    destruct (window_done_log m sd ed v info balances fetched p3)
      as (tail & Hlog & _).
    rewrite (new_calls_app _ _ _ Hlog).
    assert (Hc : PlaidSynchronizer.counts
                   (self (window_done m sd ed v info balances fetched p3).2)
                 = window_counts m sd ed fetched).
    { unfold window_done. cbv zeta. by destruct (v && _). }
    rewrite Hc. cbn [window_counts SyncCounts.new SyncCounts.archived
                     SyncCounts.total_fetched].
    unfold window_new, window_to_archive, window_tids_new,
      window_tids_to_archive, window_tids_existing. rewrite Hf.
    repeat split.
    unfold window_reads, window_to_archive, window_tids_to_archive,
      window_tids_existing. rewrite Hf.
    rewrite !elem_of_app, !elem_of_cons. left. by right; left.
Qed.

(** C5, as amended.  Window mode: the transactions a run saves are the
    working map's entries for the ids in [tids_new = fetched − existing],
    one call each; so no [save_transaction] call carries an id the store
    already answers for the window, and a transaction fetched again under
    such an id is not saved. *)
Theorem window_saves_only_new_ids fuel sd ed fb v (m : Machine P D)
    info p1 balances p2 fetched p3 :
  let tok := PlaidSynchronizer.access_token (self m) in
  well_keyed (PlaidSynchronizer.transactions (self m)) →
  get_item_info tok (plaid (world m)) = (Ok info, p1) →
  fetch_balances_opt fb tok p1 = (Ok balances, p2) →
  get_transactions fuel tok sd ed None p2 = (Ok fetched, p3) →
  let run := sync fuel sd ed fb v false m in
  let merged := window_merged m sd ed fetched in
  let tids_new := window_new m sd ed fetched in
  let existing := window_existing m sd ed fetched in
  (∀ t, SaveTransaction t ∈ new_calls m run.2 →
        Transaction.transaction_id t ∈ tids_new
        ∧ merged !! Transaction.transaction_id t = Some t)
  ∧ (run.1 = Ok tt →
     ∀ tid, tid ∈ tids_new →
            ∃ t, merged !! tid = Some t ∧ SaveTransaction t ∈ new_calls m run.2)
  ∧ (∀ t, Transaction.transaction_id t ∈ existing →
          SaveTransaction t ∉ new_calls m run.2).
Proof.
  cbv zeta. intros Hkeyed H1 H2 H3.
  rewrite (sync_window_chain _ _ _ _ _ _ _ _ _ _ _ _ H1 H2 H3).
  assert (Hmk : well_keyed (window_merged m sd ed fetched)).
  { unfold window_merged, window_fetched.
    by do 2 apply transactions_updated_well_keyed. }
  assert (Hsaved : ∀ t,
            SaveTransaction t ∈ window_writes m sd ed info balances fetched ↔
            ∃ tid, tid ∈ window_new m sd ed fetched
                   ∧ window_merged m sd ed fetched !! tid = Some t).
  { intros t. unfold window_writes, balance_calls.
    rewrite elem_of_cons, elem_of_app, !list_elem_of_fmap. split.
    - intros [?|[(? & ? & ?)|(t' & [= ->] & Hin)]]; try discriminate.
      apply list_elem_of_omap in Hin as (tid & Hin & Ht).
      apply elem_of_elements in Hin. eauto.
    - intros (tid & Hin & Ht). right. right. exists t. split; [done|].
      apply list_elem_of_omap. exists tid. split; [|done].
      by apply elem_of_elements. }
  assert (Hfwd : ∀ t,
            SaveTransaction t
            ∈ new_calls m (window_done m sd ed v info balances fetched p3).2 →
            Transaction.transaction_id t ∈ window_new m sd ed fetched
            ∧ window_merged m sd ed fetched !! Transaction.transaction_id t
              = Some t).
  { intros t Hin.
    destruct (window_done_log m sd ed v info balances fetched p3)
      as (tail & Hlog & Htail).
    rewrite (new_calls_app _ _ _ Hlog) in Hin.
    unfold window_reads in Hin.
    rewrite elem_of_app, !elem_of_cons in Hin.
    destruct Hin as [[?|[?|Hin]]|Hin]; try discriminate;
      [by apply elem_of_nil in Hin|].
    destruct Htail as [->| ->]; [by apply elem_of_nil in Hin|].
    apply Hsaved in Hin as (tid & Hin & Ht).
    rewrite (Hmk _ _ Ht). done. }
  split; [exact Hfwd|]. split.
  - unfold window_done. cbv zeta.
    destruct (v && _); [discriminate|]. intros _ tid Hin.
    pose proof (window_new_in_merged m sd ed fetched) as Hall.
    rewrite Forall_forall in Hall.
    destruct (Hall tid) as [t Ht]; [by apply elem_of_elements|].
    exists t. split; [done|].
    cbn [snd]. erewrite new_calls_app; [|by cbn; rewrite <- app_assoc].
    apply elem_of_app. right. apply Hsaved. eauto.
  - intros t Hex Hin. apply Hfwd in Hin as [Hin _].
    unfold window_new, window_tids_new, window_tids_existing in Hin.
    apply elem_of_difference in Hin as [_ Hn]. apply Hn.
    by apply elem_of_list_to_set.
Qed.

End PerMode.

(** ** The page collector against the simulated provider *)

Lemma ceil_div_bounds n c :
  1 ≤ c → 1 ≤ n → (ceil_div n c - 1) * c < n ∧ n ≤ ceil_div n c * c ∧ 1 ≤ ceil_div n c.
Proof.
  intros Hc Hn. unfold ceil_div.
  pose proof (Nat.div_mod_eq (n + c - 1) c) as Hdm.
  pose proof (Nat.mod_upper_bound (n + c - 1) c) as Hmod.
  set (q := (n + c - 1) / c) in *. set (r := (n + c - 1) mod c) in *.
  assert (r < c) by lia. nia.
Qed.

Lemma get_transactions_loop_sim count tok sd ed accts :
  1 ≤ count →
  ∀ j fuel k ret (p : SimProvider),
    1 ≤ j → j ≤ fuel →
    ret = take (k * count) (sim_ledger p) →
    (j = 1 ∨ (j - 1) * count < length (sim_ledger p) - k * count) →
    length (sim_ledger p) - k * count ≤ j * count →
    get_transactions_loop fuel tok sd ed accts count ret (k * count) p
    = (Ok (sim_ledger p),
       sim_with_requests p
         (sim_requests p ++ map (λ i, (i * count, count)) (seq k j))).
Proof.
  intros Hcount. induction j as [|j IH]; intros fuel k ret p Hj Hfuel Hret Hlo Hhi;
    [lia|].
  destruct fuel as [|fuel]; [lia|].
  cbn [get_transactions_loop]. unfold st_bind, client_call.
  cbn [transactions_get SimProvider_api]. unfold sim_transactions_get.
  cbn [TransactionsGetResponse.total_transactions
       TransactionsGetResponse.transactions].
  set (L := sim_ledger p) in *. set (N := length L) in *.
  assert (Hbatch : length (take count (drop (k * count) L))
                   = Nat.min count (N - k * count)).
  { by rewrite length_take, length_drop. }
  assert (Hret' : ret ++ take count (drop (k * count) L)
                  = take (k * count + count) L).
  { rewrite Hret. by rewrite take_take_drop. }
  rewrite Hret', Hbatch, length_take.
  match goal with
  | |- (if ?c then _ else _) _ = _ => destruct c eqn:Hcond
  end.
  - (* the loop stops: this was the last page *)
    apply orb_true_iff in Hcond.
    rewrite Nat.ltb_lt, Z.leb_le in Hcond. fold N in Hcond.
    assert (Hlast : N - k * count ≤ count) by lia.
    assert (j = 0) as -> by nia.
    unfold st_ret. cbn [seq map]. f_equal. f_equal.
    apply take_ge. fold N. lia.
  - apply orb_false_iff in Hcond.
    rewrite Nat.ltb_ge, Z.leb_gt in Hcond. fold N in Hcond.
    assert (Hmore : count < N - k * count) by lia.
    assert (Hj' : 1 ≤ j) by (destruct Hlo as [?|?]; nia).
    replace (k * count + count) with (S k * count) by lia.
    rewrite (IH fuel (S k) _
               (sim_with_requests p (sim_requests p ++ [(k * count, count)])));
      cbn [sim_with_requests sim_ledger sim_requests sim_item sim_balances
           sim_changes]; fold L; fold N; try done; try lia.
    unfold sim_with_requests. cbn. by rewrite <- app_assoc.
Qed.

(** C6, as amended.  Against the simulated provider with [N] transactions,
    the page collector with page size [count ≥ 1] and enough fuel returns
    the [N] transactions in order after exactly [max 1 (ceil (N / count))]
    page requests, at offsets [0, count, 2 count, ...]: [ceil (N / count)]
    requests when [N ≥ 1], and one request when [N = 0].  [get_transactions]
    is the collector with [count = 500]. *)
Theorem page_collector_requests count fuel tok sd ed accts (p : SimProvider) :
  1 ≤ count →
  let N := length (sim_ledger p) in
  let pages := Nat.max 1 (ceil_div N count) in
  pages ≤ fuel →
  let r := get_transactions_paged count fuel tok sd ed accts p in
  r.1 = Ok (sim_ledger p)
  ∧ sim_requests r.2 = sim_requests p ++ page_requests count pages
  ∧ length (sim_requests r.2) = length (sim_requests p) + pages
  ∧ (1 ≤ N → pages = ceil_div N count)
  ∧ (count = 500 →
     get_transactions fuel tok sd ed accts p = r).
Proof.
  cbv zeta. intros Hcount Hfuel.
  set (N := length (sim_ledger p)) in *.
  assert (Hloop :
    get_transactions_loop fuel tok sd ed accts count [] 0 p
    = (Ok (sim_ledger p),
       sim_with_requests p
         (sim_requests p ++ page_requests count (Nat.max 1 (ceil_div N count))))).
  { apply (get_transactions_loop_sim count tok sd ed accts Hcount
             (Nat.max 1 (ceil_div N count)) fuel 0 [] p); try done; try lia.
    - destruct (decide (N = 0)) as [HN|HN].
      + left. rewrite HN. unfold ceil_div. rewrite Nat.div_small by lia. done.
      + right. destruct (ceil_div_bounds N count Hcount) as (? & ? & ?); [lia|].
        fold N. rewrite Nat.max_r by lia. lia.
    - fold N. destruct (decide (N = 0)) as [HN|HN]; [lia|].
      destruct (ceil_div_bounds N count Hcount) as (? & ? & ?); [lia|].
      rewrite Nat.max_r by lia. lia. }
  unfold get_transactions_paged, wrap_plaid_error. rewrite Hloop.
  cbn [fst snd sim_with_requests sim_requests]. unfold page_requests.
  repeat split.
  - by rewrite length_app, length_map, length_seq.
  - intros HN. destruct (ceil_div_bounds N count Hcount HN) as (_ & _ & ?). lia.
  - intros ->. unfold get_transactions, get_transactions_paged, wrap_plaid_error.
    by rewrite Hloop.
Qed.

(** ** Witnesses and counterexamples *)

(** The three-page drain that fails on its second page: the stored cursor
    is still [c0] and the error is recorded.  The verbose run on the same
    drain ends at the first page with the callback's [TypeError]: the cursor
    is still [c0] and no error is recorded. *)
Lemma cursor_saved_only_after_full_drain_witness :
  let m := start_machine failing_drain store_at_c0 in
  let m' := (sync_with_cursor 10 true false m).2 in
  let verbose_run := sync_with_cursor 10 true true m in
  get_last_sync_cursor "item-1" (db (world m)) = Some "c0"
  ∧ (PlaidSynchronizer.plaid_error (self m')
     = Some (PlaidAccountUpdateNeeded login_required)
     ∧ get_last_sync_cursor "item-1" (db (world m')) = Some "c0"
     ∧ new_calls m m' = [GetLastSyncCursor "item-1"])
  ∧ (verbose_run.1 = Raise TypeError
     ∧ PlaidSynchronizer.plaid_error (self verbose_run.2) = None
     ∧ get_last_sync_cursor "item-1" (db (world verbose_run.2)) = Some "c0"
     ∧ new_calls m verbose_run.2 = [GetLastSyncCursor "item-1"]).
Proof.
  cbv zeta. split; [vm_compute; reflexivity|]. split.
  - destruct (cursor_saved_only_after_full_drain 10 true false
                (start_machine failing_drain store_at_c0)) as [Hfail _].
    destruct (Hfail sample_item failing_drain (Some [sample_balance])
                failing_drain (PlaidExn (PlaidAccountUpdateNeeded login_required))
                failing_drain)
      as (Hdb & Hcur & Hcalls & [(ex & Hex & _ & Herr)|(Hv & _)]).
    + vm_compute; reflexivity.
    + vm_compute; reflexivity.
    + vm_compute; reflexivity.
    + injection Hex as <-.
      split; [exact Herr|]. split; [|exact Hcalls].
      rewrite Hcur. vm_compute; reflexivity.
    + discriminate Hv.
  - destruct (cursor_saved_only_after_full_drain 10 true true
                (start_machine failing_drain store_at_c0)) as [Hfail _].
    destruct (Hfail sample_item failing_drain (Some [sample_balance])
                failing_drain TypeError failing_drain)
      as (Hdb & Hcur & Hcalls & [(ex & Hex & _)|(_ & _ & Hout & Herr)]).
    + vm_compute; reflexivity.
    + vm_compute; reflexivity.
    + vm_compute; reflexivity.
    + discriminate Hex.
    + split; [exact Hout|]. split; [rewrite Herr; vm_compute; reflexivity|].
      split; [|exact Hcalls].
      rewrite Hcur. vm_compute; reflexivity.
Defined.

Lemma counts_bounded_after_sync_witness :
  counts_bounded
    (PlaidSynchronizer.counts
       (self (sync 10 (Some 0%Z) (Some 20%Z) true false false
                (start_machine window_provider window_store)).2)).
Proof.
  apply (counts_bounded_after_sync 10 (Some 0%Z) (Some 20%Z) true false false
           (start_machine window_provider window_store)).
  split; simpl; lia.
Defined.

Lemma failed_sync_reports_zero_counts_witness :
  let m' := (sync 10 None None true false true
               (mkMachine (PlaidSynchronizer.__init__ "bank" "access-1")
                  (mkWorld failing_drain store_at_c0 []))).2 in
  PlaidSynchronizer.plaid_error (self m')
  = Some (PlaidAccountUpdateNeeded login_required)
  ∧ PlaidSynchronizer.counts (self m') = SyncCounts.mk 0 0 0 0 0 0.
Proof.
  cbv zeta. split; [vm_compute; reflexivity|].
  apply (failed_sync_reports_zero_counts 10 None None true false true
           "bank" "access-1" (mkWorld failing_drain store_at_c0 [])).
  exists (PlaidAccountUpdateNeeded login_required). vm_compute; reflexivity.
Defined.

Lemma provider_error_caught_before_any_write_witness :
  let m := start_machine failing_drain store_at_c0 in
  let ex := PlaidAccountUpdateNeeded login_required in
  let m1 := stopped m (Some sample_item) [GetLastSyncCursor "item-1"]
              failing_drain in
  try_block 10 None None true false true m = (Raise (PlaidExn ex), m1)
  ∧ sync 10 None None true false true m = (Ok tt, failed ex m1)
  ∧ db (world (failed ex m1)) = store_at_c0
  ∧ Forall (λ c, is_write c = false) (new_calls m (failed ex m1))
  ∧ process_accounts 10 cursor_args (λ _, "access-1") ["bank"; "broker"]
      (∅, world m)
    = process_accounts 10 cursor_args (λ _, "access-1") ["broker"]
        (<["bank" := self (failed ex m1)]> ∅, world m1).
Proof.
  cbv zeta.
  assert (Htry :
    try_block 10 (args_start_date cursor_args) (args_end_date cursor_args)
      (args_balances cursor_args) (args_verbose cursor_args)
      (args_cursor_sync cursor_args)
      (start_machine failing_drain store_at_c0)
    = (Raise (PlaidExn (PlaidAccountUpdateNeeded login_required)),
       stopped (start_machine failing_drain store_at_c0) (Some sample_item)
         [GetLastSyncCursor "item-1"] failing_drain))
    by (vm_compute; reflexivity).
  split; [exact Htry|].
  destruct (provider_error_caught_before_any_write 10 cursor_args _ _ _ Htry)
    as (Hsync & _ & Hdb & _ & Hreads & Hbatch).
  split; [exact Hsync|]. split; [exact Hdb|]. split; [exact Hreads|].
  apply (Hbatch (λ _, "access-1") "bank" ["broker"] ∅). reflexivity.
Defined.

Lemma cursor_counts_emitted_witness :
  let m := start_machine two_page_drain empty_store in
  let m' := (sync_with_cursor 10 true false m).2 in
  sync_transactions_with 10 "access-1" None (cursor_status_callback false)
    two_page_drain
  = (Ok two_page_result, two_page_drain)
  ∧ PlaidSynchronizer.counts (self m') = SyncCounts.mk 2 2 1 0 3 1.
Proof.
  cbv zeta. split; [vm_compute; reflexivity|].
  destruct (cursor_counts_emitted 10 true false
              (start_machine two_page_drain empty_store)
              sample_item two_page_drain (Some [sample_balance]) two_page_drain
              two_page_result two_page_drain) as [_ Hcounts];
    [vm_compute; reflexivity..|].
  rewrite Hcounts. vm_compute; reflexivity.
Defined.

Lemma merged_map_modified_then_added_witness :
  let m := start_machine two_page_drain empty_store in
  let merged :=
    PlaidSynchronizer.transactions (self (sync_with_cursor 10 true false m).2) in
  served_pages 10 "access-1" None two_page_drain = [two_page_1; two_page_2]
  ∧ merged !! "T1" = Some (tx "T1" true "cafe")
  ∧ merged !! "T2" = Some T2_modified.
Proof.
  cbv zeta. split; [vm_compute; reflexivity|].
  pose proof (merged_map_modified_then_added 10 true false
                (start_machine two_page_drain empty_store)
                sample_item two_page_drain (Some [sample_balance]) two_page_drain
                two_page_result two_page_drain) as Hmerged.
  cbv zeta in Hmerged.
  split; rewrite Hmerged; vm_compute; reflexivity.
Defined.

(** The merged map keeps the first page's version of [T1] although the
    second page reports [T1] again. *)
Lemma last_page_does_not_win :
  let m := start_machine crossed_drain empty_store in
  let pages := served_pages 10 "access-1" None crossed_drain in
  let merged :=
    PlaidSynchronizer.transactions (self (sync_with_cursor 10 true false m).2) in
  pages = [crossed_page_1; crossed_page_2]
  ∧ latest_page_version "T1" pages = Some T1_second
  ∧ merged !! "T1" = Some T1_first
  ∧ ¬ last_page_wins pages merged.
Proof.
  cbv zeta. split; [vm_compute; reflexivity|].
  split; [vm_compute; reflexivity|].
  assert (Hm : PlaidSynchronizer.transactions
                 (self (sync_with_cursor 10 true false
                          (start_machine crossed_drain empty_store)).2)
               !! "T1" = Some T1_first) by (vm_compute; reflexivity).
  split; [exact Hm|].
  intros Hwins. specialize (Hwins "T1" T1_second).
  rewrite Hm in Hwins. 
  assert (Hl : latest_page_version "T1"
                 (served_pages 10 "access-1" None crossed_drain)
               = Some T1_second) by (vm_compute; reflexivity).
  specialize (Hwins Hl). discriminate Hwins.
Qed.

Lemma window_sets_are_differences_witness :
  let m := start_machine window_provider window_store in
  let m' := (sync 10 (Some 0%Z) (Some 20%Z) true false false m).2 in
  get_transactions 10 "access-1" (Some 0%Z) (Some 20%Z) None window_provider
  = (Ok window_ledger, sim_with_requests window_provider [(0, 500)])
  ∧ SyncCounts.new (PlaidSynchronizer.counts (self m')) = 1
  ∧ SyncCounts.archived (PlaidSynchronizer.counts (self m')) = 1
  ∧ FetchTransactionsById ["A"] ∈ new_calls m m'.
Proof.
  cbv zeta.
  assert (Hget :
    get_transactions 10 "access-1" (Some 0%Z) (Some 20%Z) None window_provider
    = (Ok window_ledger, sim_with_requests window_provider [(0, 500)]))
    by (vm_compute; reflexivity).
  split; [exact Hget|].
  destruct (@window_sets_are_differences SimProvider MemDB _ _) as [_ Hrun].
  destruct (Hrun 10 (Some 0%Z) (Some 20%Z) true false
              (start_machine window_provider window_store)
              sample_item window_provider (Some [sample_balance])
              window_provider window_ledger
              (sim_with_requests window_provider [(0, 500)]))
    as (Hnew & Harch & _ & Hfetch); [vm_compute; reflexivity..|exact Hget|].
  split; [rewrite Hnew; vm_compute; reflexivity|].
  split; [rewrite Harch; vm_compute; reflexivity|].
  exact Hfetch.
Defined.

Lemma window_saves_only_new_ids_witness :
  let m := start_machine window_provider window_store in
  let run := sync 10 (Some 0%Z) (Some 20%Z) true false false m in
  well_keyed (PlaidSynchronizer.transactions (self m))
  ∧ Transaction.transaction_id B_fetched
    ∈ window_existing m (Some 0%Z) (Some 20%Z) window_ledger
  ∧ (SaveTransaction B_fetched ∉ new_calls m run.2)
  ∧ SaveTransaction (tx "D" true "florist") ∈ new_calls m run.2.
Proof.
  cbv zeta.
  assert (Hkeyed : well_keyed
            (PlaidSynchronizer.transactions
               (self (start_machine window_provider window_store)))).
  { intros k t Hk. vm_compute in Hk. discriminate Hk. }
  assert (Hex : Transaction.transaction_id B_fetched
                ∈ window_existing (start_machine window_provider window_store)
                    (Some 0%Z) (Some 20%Z) window_ledger).
  { eapply bool_decide_eq_true_1. vm_compute. reflexivity. }
  split; [exact Hkeyed|]. split; [exact Hex|].
  destruct (window_saves_only_new_ids 10 (Some 0%Z) (Some 20%Z) true false
              (start_machine window_provider window_store)
              sample_item window_provider (Some [sample_balance])
              window_provider window_ledger
              (sim_with_requests window_provider [(0, 500)]) Hkeyed)
    as (_ & Hsaved & Hnot); [vm_compute; reflexivity..|].
  split; [exact (Hnot B_fetched Hex)|].
  assert (Hok : (sync 10 (Some 0%Z) (Some 20%Z) true false false
                   (start_machine window_provider window_store)).1 = Ok tt)
    by (vm_compute; reflexivity).
  destruct (Hsaved Hok "D") as (t & Ht & Hin).
  - eapply bool_decide_eq_true_1. vm_compute. reflexivity.
  - vm_compute in Ht. by injection Ht as <-.
Defined.

(** Window mode leaves the stored record of [B] as it was, although [B] was
    fetched again with changed fields. *)
Lemma refetched_transaction_not_persisted :
  let m := start_machine window_provider window_store in
  let run := sync 10 (Some 0%Z) (Some 20%Z) true false false m in
  run.1 = Ok tt
  ∧ B_fetched ∈ window_ledger
  ∧ Transaction.transaction_id B_fetched = Transaction.transaction_id B_stored
  ∧ B_fetched ≠ B_stored
  ∧ mem_transactions (db (world m)) !! "B" = Some B_stored
  ∧ mem_transactions (db (world run.2)) !! "B" = Some B_stored
  ∧ mem_transactions (db (world run.2)) !! "B" ≠ Some B_fetched
  ∧ SaveTransaction B_fetched ∉ db_log (world run.2).
Proof.
  cbv zeta.
  split; [vm_compute; reflexivity|].
  split; [apply list_elem_of_here|].
  split; [reflexivity|].
  split; [discriminate|].
  split; [vm_compute; reflexivity|].
  split; [vm_compute; reflexivity|].
  split; [vm_compute; discriminate|].
  eapply bool_decide_eq_false_1. vm_compute. reflexivity.
Qed.

Lemma page_collector_requests_witness :
  let r := get_transactions_paged 2 5 "access-1" (Some 0%Z) (Some 20%Z) None
             window_provider in
  1 ≤ 2
  ∧ Nat.max 1 (ceil_div (length (sim_ledger window_provider)) 2) ≤ 5
  ∧ r.1 = Ok window_ledger
  ∧ sim_requests r.2 = [(0, 2); (2, 2)].
Proof.
  cbv zeta.
  assert (H1 : 1 ≤ 2) by lia.
  assert (H2 : Nat.max 1 (ceil_div (length (sim_ledger window_provider)) 2) ≤ 5)
    by (vm_compute; lia).
  split; [exact H1|]. split; [exact H2|].
  destruct (page_collector_requests 2 5 "access-1" (Some 0%Z) (Some 20%Z) None
              window_provider H1 H2) as (Hret & Hreq & _).
  split; [exact Hret|]. rewrite Hreq. reflexivity.
Defined.

(** With nothing to fetch the collector still issues one request, where
    [ceil (0 / 500)] is [0]. *)
Lemma empty_ledger_costs_one_request :
  let r := get_transactions 5 "access-1" (Some 0%Z) (Some 20%Z) None
             empty_provider in
  length (sim_ledger empty_provider) = 0
  ∧ r.1 = Ok []
  ∧ length (sim_requests r.2) = 1
  ∧ ceil_div (length (sim_ledger empty_provider)) 500 = 0
  ∧ length (sim_requests r.2)
    ≠ ceil_div (length (sim_ledger empty_provider)) 500.
Proof.
  cbv zeta. repeat split; try (vm_compute; reflexivity).
  vm_compute. discriminate.
Qed.

(* ===================================================================== *)
(** * Further properties of [plaidapi.PlaidAPI] *)
(* ===================================================================== *)

Section ApiProperties.
Context {P : Type} `{PlaidApi P}.

Lemma get_transactions_loop_raise fuel tok sd ed accts count ret offset p e p' :
  get_transactions_loop fuel tok sd ed accts count ret offset p = (Raise e, p') →
  ∃ ex, e = ApiExn ex.
Proof.
  revert ret offset p.
  induction fuel as [|fuel IH]; intros ret offset p; [discriminate|].
  cbn [get_transactions_loop]. unfold st_bind, client_call.
  destruct (transactions_get _ _ _ _ _ _ p) as [[ex|resp] p1].
  - intros [= <- <-]. by exists ex.
  - cbv zeta. destruct (_ || _); [discriminate|]. apply IH.
Qed.

Lemma wrap_plaid_error_raise {A} (f : ST P A) p e p' :
  (∀ e0 p0, f p = (Raise e0, p0) → ∃ ex, e0 = ApiExn ex) →
  wrap_plaid_error f p = (Raise e, p') →
  ∃ ex, e = PlaidExn (raise_plaid ex).
Proof.
  intros Hf. unfold wrap_plaid_error.
  destruct (f p) as [[a|e0|] p0] eqn:Hfp; try discriminate.
  destruct (Hf e0 p0 eq_refl) as [ex ->].
  intros [= <- <-]. by exists ex.
Qed.

Lemma get_transactions_raise fuel tok sd ed accts p e p' :
  get_transactions fuel tok sd ed accts p = (Raise e, p') →
  ∃ ex, e = PlaidExn (raise_plaid ex).
Proof.
  apply wrap_plaid_error_raise. intros e0 p0.
  apply get_transactions_loop_raise.
Qed.

Lemma get_item_info_eq tok p :
  get_item_info tok p
  = match item_get tok p with
    | (inr info, p') => (Ok info, p')
    | (inl ex, p') => (Raise (PlaidExn (raise_plaid ex)), p')
    end.
Proof.
  unfold get_item_info, wrap_plaid_error, client_call.
  by destruct (item_get tok p) as [[ex|info] p'].
Qed.

Lemma get_account_balance_eq tok p :
  get_account_balance tok p
  = match accounts_balance_get tok p with
    | (inr balances, p') => (Ok balances, p')
    | (inl ex, p') => (Raise (PlaidExn (raise_plaid ex)), p')
    end.
Proof.
  unfold get_account_balance, wrap_plaid_error, client_call.
  by destruct (accounts_balance_get tok p) as [[ex|balances] p'].
Qed.

Lemma get_item_info_raise tok p e p' :
  get_item_info tok p = (Raise e, p') → ∃ ex, e = PlaidExn (raise_plaid ex).
Proof.
  rewrite get_item_info_eq.
  destruct (item_get tok p) as [[ex|info] p1]; [|discriminate].
  intros [= <- <-]. by exists ex.
Qed.

Lemma fetch_balances_opt_raise fb tok p e p' :
  fetch_balances_opt fb tok p = (Raise e, p') →
  ∃ ex, e = PlaidExn (raise_plaid ex).
Proof.
  unfold fetch_balances_opt. destruct fb; [|discriminate].
  unfold st_bind. rewrite get_account_balance_eq.
  destruct (accounts_balance_get tok p) as [[ex|b] p1]; [|discriminate].
  intros [= <- <-]. by exists ex.
Qed.

Lemma wrap_plaid_error_no_api_exception {A} (f : ST P A) p ex :
  (wrap_plaid_error f p).1 ≠ Raise (ApiExn ex).
Proof.
  unfold wrap_plaid_error. by destruct (f p) as [[a|[ex'|e| |k]|] p1].
Qed.

(** X1.  No [ApiException] leaves the four methods behind
    [wrap_plaid_error] that the synchroniser calls, whatever the client
    answers and whatever the status callback of [sync_transactions] does;
    and the exception with which the client refuses a request (for the two
    paginated methods, the first one) leaves the method as the error
    [raise_plaid] makes of it, with the provider as that request left it. *)
Theorem api_methods_raise_classified tok fuel sd ed accts cursor cb (p : P) :
  (∀ ex,
     (get_item_info tok p).1 ≠ Raise (ApiExn ex)
     ∧ (get_account_balance tok p).1 ≠ Raise (ApiExn ex)
     ∧ (get_transactions fuel tok sd ed accts p).1 ≠ Raise (ApiExn ex)
     ∧ (sync_transactions_with fuel tok cursor cb p).1 ≠ Raise (ApiExn ex))
  ∧ (∀ ex p',
       item_get tok p = (inl ex, p') →
       get_item_info tok p = (Raise (PlaidExn (raise_plaid ex)), p'))
  ∧ (∀ ex p',
       accounts_balance_get tok p = (inl ex, p') →
       get_account_balance tok p = (Raise (PlaidExn (raise_plaid ex)), p'))
  ∧ (∀ ex p',
       transactions_get tok sd ed 500 0 (options_account_ids accts) p
       = (inl ex, p') →
       get_transactions (S fuel) tok sd ed accts p
       = (Raise (PlaidExn (raise_plaid ex)), p'))
  ∧ (∀ ex p',
       transactions_sync tok cursor p = (inl ex, p') →
       sync_transactions_with (S fuel) tok cursor cb p
       = (Raise (PlaidExn (raise_plaid ex)), p')).
Proof.
  split; [|split; [|split; [|split]]].
  - intros ex. repeat split; apply wrap_plaid_error_no_api_exception.
  - intros ex p' Hreq. by rewrite get_item_info_eq, Hreq.
  - intros ex p' Hreq. by rewrite get_account_balance_eq, Hreq.
  - intros ex p' Hreq.
    unfold get_transactions, get_transactions_paged, wrap_plaid_error.
    cbn [get_transactions_loop]. unfold st_bind, client_call.
    by rewrite Hreq.
  - intros ex p' Hreq.
    unfold sync_transactions_with, wrap_plaid_error.
    by rewrite sync_transactions_loop_step, Hreq.
Qed.

End ApiProperties.

(** X2.  [raise_plaid] classifies by the reason alone, each class for
    exactly one case, and the classified error wraps the exception it was
    given. *)
Theorem raise_plaid_classifies (ex : ApiException) :
  (raise_plaid ex = PlaidNoApplicableAccounts ex ↔ reason ex = "NO_ACCOUNTS")
  ∧ (raise_plaid ex = PlaidAccountUpdateNeeded ex
     ↔ reason ex = "ITEM_LOGIN_REQUIRED")
  ∧ (raise_plaid ex = PlaidUnknownError ex
     ↔ reason ex ≠ "NO_ACCOUNTS" ∧ reason ex ≠ "ITEM_LOGIN_REQUIRED")
  ∧ wrapped_exception (raise_plaid ex) = ex.
Proof.
  unfold raise_plaid.
  destruct (decide (reason ex = "NO_ACCOUNTS")) as [Hn|Hn];
    [|destruct (decide (reason ex = "ITEM_LOGIN_REQUIRED")) as [Hl|Hl]].
  - split; [done|]. split; [|split; [|done]].
    + split; [discriminate|]. intros Hl. rewrite Hn in Hl. discriminate Hl.
    + split; [discriminate|]. by intros [? _].
  - split; [|split; [done|split; [|done]]].
    + split; [discriminate|]. intros Hn'. by destruct Hn.
    + split; [discriminate|]. by intros [_ ?].
  - split; [|split; [|done]].
    + split; [discriminate|]. intros Hn'. by destruct Hn.
    + split; [discriminate|]. intros Hl'. by destruct Hl.
Qed.

Section SyncTransactionsProperties.
Context {P : Type} `{PlaidApi P}.

Lemma served_pages_nonempty_of_last fuel tok cursor (p : P) b :
  option_map TransactionsSyncResponse.has_more
    (last (served_pages fuel tok cursor p)) = Some b →
  served_pages fuel tok cursor p ≠ [].
Proof. by destruct (served_pages fuel tok cursor p). Qed.

Lemma sync_transactions_loop_drained fuel tok all_added all_modified all_removed
    cursor (p : P) :
  option_map TransactionsSyncResponse.has_more
    (last (served_pages fuel tok cursor p)) = Some false →
  ∃ r p',
    sync_transactions_loop fuel tok None all_added all_modified all_removed
      cursor true p = (Ok r, p').
Proof.
  revert all_added all_modified all_removed cursor p.
  induction fuel as [|fuel IH]; intros A Mo R cur p; [discriminate|].
  rewrite sync_transactions_loop_step. cbn [served_pages].
  destruct (transactions_sync tok cur p) as [[ex|resp] p1]; [discriminate|].
  cbv zeta. rewrite call_status_callback_None. cbn [fst].
  destruct (TransactionsSyncResponse.has_more resp) eqn:Hmore.
  - destruct (served_pages fuel tok _ p1) as [|pg pgs] eqn:Hp.
    + cbn. rewrite Hmore. discriminate.
    + rewrite last_cons_cons. rewrite <- Hp. apply IH.
  - intros _. destruct fuel; cbn [sync_transactions_loop]; unfold st_ret; eauto.
Qed.

(** X3.  [sync_transactions] returns exactly when the last page the
    provider served says there is no more.  What it returns is then the
    concatenation, in page order, of the pages' three lists, [has_next] false,
    and as cursor the [next_cursor] of the last page: at least one page was
    requested, so the cursor returned is never [None]. *)
Theorem sync_transactions_returns_iff_drained fuel tok cursor (p : P) :
  let pages := served_pages fuel tok cursor p in
  (option_map TransactionsSyncResponse.has_more (last pages) = Some false
   ↔ ∃ r p', sync_transactions fuel tok cursor p = (Ok r, p'))
  ∧ (∀ r p',
       sync_transactions fuel tok cursor p = (Ok r, p') →
       pages ≠ []
       ∧ SyncResult.added r
         = concat (map TransactionsSyncResponse.added pages)
       ∧ SyncResult.modified r
         = concat (map TransactionsSyncResponse.modified pages)
       ∧ SyncResult.removed r
         = concat (map TransactionsSyncResponse.removed pages)
       ∧ SyncResult.has_next r = false
       ∧ SyncResult.cursor r
         = option_map TransactionsSyncResponse.next_cursor (last pages)
       ∧ is_Some (SyncResult.cursor r)).
Proof.
  cbv zeta. split; [split|].
  - intros Hlast.
    destruct (sync_transactions_loop_drained fuel tok [] [] [] cursor p Hlast)
      as (r & p' & Hloop).
    exists r, p'.
    unfold sync_transactions, sync_transactions_with, wrap_plaid_error.
    by rewrite Hloop.
  - intros (r & p' & Hrun).
    by destruct (sync_transactions_ok _ _ _ _ _ _ Hrun) as (_ & _ & _ & _ & _ & ?).
  - intros r p' Hrun.
    destruct (sync_transactions_ok _ _ _ _ _ _ Hrun)
      as (Ha & Hm & Hr & Hn & Hc & Hl).
    pose proof (served_pages_nonempty_of_last _ _ _ _ _ Hl) as Hne.
    repeat (split; [done|]).
    rewrite Hc. destruct (last (served_pages fuel tok cursor p)); [by eexists|done].
Qed.

(** X4.  The loop of [sync_transactions] has no ceiling of its own: against
    a provider that answers every page of the drain with [has_more] set, no
    amount of fuel makes it return. *)
Theorem sync_transactions_has_no_ceiling (I : option string → P → Prop)
    tok cursor (p : P) :
  (∀ c q, I c q →
     ∃ resp q',
       transactions_sync tok c q = (inr resp, q')
       ∧ TransactionsSyncResponse.has_more resp = true
       ∧ I (Some (TransactionsSyncResponse.next_cursor resp)) q') →
  I cursor p →
  ∀ fuel, (sync_transactions fuel tok cursor p).1 = OutOfFuel.
Proof.
  intros Hstep Hinit fuel.
  assert (Hloop : ∀ A Mo R c q,
            I c q →
            (sync_transactions_loop fuel tok None A Mo R c true q).1 = OutOfFuel).
  { induction fuel as [|fuel IH]; intros A Mo R c q Hq; [done|].
    rewrite sync_transactions_loop_step.
    destruct (Hstep c q Hq) as (resp & q' & -> & Hmore & Hq').
    cbv zeta. rewrite call_status_callback_None. cbn [fst].
    rewrite Hmore. by apply IH. }
  unfold sync_transactions, sync_transactions_with, wrap_plaid_error.
  specialize (Hloop [] [] [] cursor p Hinit).
  by destruct (sync_transactions_loop _ _ _ _ _ _ _ _ _) as [[r|e|] q]; cbn in *;
    subst.
Qed.

(** X5.  Nor has the loop of [get_transactions]: against a provider that
    answers every request with a full page and a total beyond what has been
    collected, no amount of fuel makes it return. *)
Theorem get_transactions_has_no_ceiling (I : P → Prop) tok sd ed accts (p : P) :
  (∀ offset q, I q →
     ∃ resp q',
       transactions_get tok sd ed 500 offset (options_account_ids accts) q
       = (inr resp, q')
       ∧ length (TransactionsGetResponse.transactions resp) = 500
       ∧ (Z.of_nat (offset + 500)
          < TransactionsGetResponse.total_transactions resp)%Z
       ∧ I q') →
  I p →
  ∀ fuel, (get_transactions fuel tok sd ed accts p).1 = OutOfFuel.
Proof.
  intros Hstep Hinit fuel.
  assert (Hloop : ∀ ret offset q,
            I q → length ret = offset →
            (get_transactions_loop fuel tok sd ed accts 500 ret offset q).1
            = OutOfFuel).
  { induction fuel as [|fuel IH]; intros ret offset q Hq Hret; [done|].
    cbn [get_transactions_loop]. unfold st_bind, client_call.
    destruct (Hstep offset q Hq) as (resp & q' & -> & Hlen & Htot & Hq').
    cbv zeta. rewrite length_app, Hlen, Hret.
    assert (Hcond : (500 <? 500)
                    || (TransactionsGetResponse.total_transactions resp
                        <=? Z.of_nat (offset + 500))%Z = false).
    { apply orb_false_iff. split; [done|]. by apply Z.leb_gt. }
    rewrite Hcond. apply IH; [done|]. by rewrite length_app, Hlen, Hret. }
  unfold get_transactions, get_transactions_paged, wrap_plaid_error.
  specialize (Hloop [] 0 p Hinit eq_refl).
  by destruct (get_transactions_loop _ _ _ _ _ _ _ _ _) as [[r|e|] q];
    cbn in *; subst.
Qed.

(** X6.  [get_transactions] believes a short page over the reported total:
    when the first page has fewer than 500 entries, or the total is no more
    than the page's length, it returns that page after the one request,
    whatever the total says. *)
Theorem get_transactions_stops_at_first_page fuel tok sd ed accts (p : P)
    resp p' :
  transactions_get tok sd ed 500 0 (options_account_ids accts) p
  = (inr resp, p') →
  length (TransactionsGetResponse.transactions resp) < 500
  ∨ (TransactionsGetResponse.total_transactions resp
     ≤ Z.of_nat (length (TransactionsGetResponse.transactions resp)))%Z →
  get_transactions (S fuel) tok sd ed accts p
  = (Ok (TransactionsGetResponse.transactions resp), p').
Proof.
  intros Hget Hshort.
  unfold get_transactions, get_transactions_paged, wrap_plaid_error.
  cbn [get_transactions_loop]. unfold st_bind, client_call. rewrite Hget.
  cbv zeta. cbn [app].
  assert (Hcond : (length (TransactionsGetResponse.transactions resp) <? 500)
                  || (TransactionsGetResponse.total_transactions resp
                      <=? Z.of_nat (length (TransactionsGetResponse.transactions resp)))%Z
                  = true).
  { apply orb_true_iff. destruct Hshort as [Hs|Hs].
    - left. by apply Nat.ltb_lt.
    - right. by apply Z.leb_le. }
  by rewrite Hcond.
Qed.

Lemma get_transactions_loop_empty_account_ids fuel tok sd ed count ret offset
    (p : P) :
  get_transactions_loop fuel tok sd ed (Some []) count ret offset p
  = get_transactions_loop fuel tok sd ed None count ret offset p.
Proof.
  revert ret offset p.
  induction fuel as [|fuel IH]; intros ret offset p; [done|].
  cbn [get_transactions_loop options_account_ids]. unfold st_bind.
  destruct (client_call _ p) as [[resp|e|] p1]; try done.
  cbv zeta. destruct (_ || _); [done|]. apply IH.
Qed.

(** X7.  An empty [account_ids] list is falsy: [get_transactions] sends the
    same requests, and gives the same result, as with no list at all. *)
Theorem get_transactions_empty_account_ids fuel tok sd ed (p : P) :
  get_transactions fuel tok sd ed (Some []) p
  = get_transactions fuel tok sd ed None p.
Proof.
  unfold get_transactions, get_transactions_paged, wrap_plaid_error.
  by rewrite get_transactions_loop_empty_account_ids.
Qed.

End SyncTransactionsProperties.

(* ===================================================================== *)
(** * Further properties of [PlaidSynchronizer] *)
(* ===================================================================== *)

Section WorkingMap.
Context {P D : Type} `{PlaidApi P} `{TransactionsDB D}.

(** X8.  [add_transactions] always returns, touches nothing but
    [self.transactions], and leaves under every id the last transaction of
    the list that carries it, or what the map held when the list has none. *)
Theorem add_transactions_lookup (transactions : list Transaction.t)
    (m : Machine P D) :
  ∃ m',
    add_transactions transactions m = (Ok tt, m')
    ∧ world m' = world m
    ∧ PlaidSynchronizer.account_name (self m') = PlaidSynchronizer.account_name (self m)
    ∧ PlaidSynchronizer.access_token (self m') = PlaidSynchronizer.access_token (self m)
    ∧ PlaidSynchronizer.plaid_error (self m') = PlaidSynchronizer.plaid_error (self m)
    ∧ PlaidSynchronizer.item_info (self m') = PlaidSynchronizer.item_info (self m)
    ∧ PlaidSynchronizer.counts (self m') = PlaidSynchronizer.counts (self m)
    ∧ ∀ tid,
        PlaidSynchronizer.transactions (self m') !! tid
        = match last_version tid transactions with
          | Some t => Some t
          | None => PlaidSynchronizer.transactions (self m) !! tid
          end.
Proof.
  eexists. split; [reflexivity|]. cbn. repeat split.
  intros tid. apply transactions_updated_lookup.
Qed.

Lemma transactions_updated_idempotent d l :
  transactions_updated (transactions_updated d l) l = transactions_updated d l.
Proof.
  apply map_eq. intros k. rewrite !transactions_updated_lookup.
  by destruct (last_version k l).
Qed.

Lemma size_list_to_set_le_length (l : list string) :
  size (list_to_set (C := gset string) l) ≤ length l.
Proof.
  induction l as [|x l IH]; [by rewrite list_to_set_nil, size_empty|].
  rewrite list_to_set_cons, size_union_alt, size_singleton. cbn.
  assert (size (list_to_set (C := gset string) l ∖ {[x]})
          ≤ size (list_to_set (C := gset string) l)).
  { apply subseteq_size, subseteq_difference_l. reflexivity. }
  lia.
Qed.

Lemma transactions_updated_size d l :
  size (transactions_updated d l) ≤ size d + length l.
Proof.
  rewrite <- !size_dom, transactions_updated_dom, size_union_alt.
  assert (size (list_to_set (C := gset string)
                  (map Transaction.transaction_id l)) ≤ length l).
  { etransitivity; [apply size_list_to_set_le_length|]. by rewrite length_map. }
  assert (size (dom d ∖ list_to_set (C := gset string)
                  (map Transaction.transaction_id l)) ≤ size (dom d)).
  { apply subseteq_size. apply subseteq_difference_l. reflexivity. }
  lia.
Qed.

(** X9.  The keys after [add_transactions] are the keys before together with
    the ids of the list; every entry sits under its own id if that held
    before; adding the same list again changes nothing; and the map grows by
    at most the length of the list. *)
Theorem add_transactions_keys (transactions : list Transaction.t)
    (m : Machine P D) :
  let before := PlaidSynchronizer.transactions (self m) in
  let m1 := (add_transactions transactions m).2 in
  let after := PlaidSynchronizer.transactions (self m1) in
  dom after
  = list_to_set (map Transaction.transaction_id transactions) ∪ dom before
  ∧ (well_keyed before → well_keyed after)
  ∧ (add_transactions transactions m1).2 = m1
  ∧ size after ≤ size before + length transactions.
Proof.
  cbv zeta. cbn.
  split; [apply transactions_updated_dom|].
  split; [apply transactions_updated_well_keyed|].
  split; [|apply transactions_updated_size].
  unfold PlaidSynchronizer.set_transactions. cbn.
  by rewrite transactions_updated_idempotent.
Qed.

Lemma count_pending_app s l1 l2 :
  count_pending s (l1 ++ l2) = count_pending s l1 + count_pending s l2.
Proof. unfold count_pending. by rewrite List.filter_app, length_app. Qed.

Lemma filter_filter_absorb {A} (f g : A → bool) (l : list A) :
  (∀ x, f x = true → g x = true) →
  List.filter f (List.filter g l) = List.filter f l.
Proof.
  intros Hfg. induction l as [|x l IH]; [done|]. cbn.
  destruct (g x) eqn:Hg; cbn.
  - destruct (f x); by rewrite IH.
  - destruct (f x) eqn:Hf; [|done]. apply Hfg in Hf. congruence.
Qed.

(** X10.  [count_pending] never fails on an id it does not know: ids absent
    from [self.transactions] are passed over, so the count is that of the
    known ids alone, at most their number; it counts an id as often as the
    list repeats it, and adds up over concatenation. *)
Theorem count_pending_passes_unknown_ids (s : PlaidSynchronizer.t)
    (tids more : list string) :
  let known :=
    List.filter
      (λ tid, bool_decide (is_Some (PlaidSynchronizer.transactions s !! tid)))
      tids in
  count_pending s tids = count_pending s known
  ∧ count_pending s tids ≤ length known
  ∧ count_pending s (tids ++ more) = count_pending s tids + count_pending s more
  ∧ ((∀ tid, tid ∈ tids → PlaidSynchronizer.transactions s !! tid = None) →
     count_pending s tids = 0).
Proof.
  cbv zeta. split; [|split; [|split]].
  - unfold count_pending. rewrite filter_filter_absorb; [done|].
    intros tid. destruct (PlaidSynchronizer.transactions s !! tid); [|done].
    intros _. by apply bool_decide_eq_true.
  - unfold count_pending.
    rewrite <- (filter_filter_absorb _
      (λ tid, bool_decide (is_Some (PlaidSynchronizer.transactions s !! tid)))).
    + apply length_filter_le.
    + intros tid. destruct (PlaidSynchronizer.transactions s !! tid); [|done].
      intros _. by apply bool_decide_eq_true.
  - apply count_pending_app.
  - intros Hnone. unfold count_pending.
    induction tids as [|tid tids IH]; [done|]. cbn.
    rewrite (Hnone tid) by apply list_elem_of_here.
    apply IH. intros tid' Hin. apply Hnone. by apply list_elem_of_further.
Qed.

End WorkingMap.

Section RunProperties.
Context {P D : Type} `{PlaidApi P} `{TransactionsDB D}.

(** How a try block can end: at a provider call that raised its classified
    error or never returned, or at the status callback of a verbose
    cursor-mode run, the store only queried; or past all provider calls, in
    the end state of its mode. *)
Lemma try_block_outcome fuel sd ed fb v mode (m : Machine P D) o m' :
  try_block fuel sd ed fb v mode m = (o, m') →
  let tok := PlaidSynchronizer.access_token (self m) in
  (∃ info reads p,
      m' = stopped m info reads p
      ∧ Forall (λ c, is_write c = false) reads
      ∧ (info = None
         ↔ ∀ i q, get_item_info tok (plaid (world m)) ≠ (Ok i, q))
      ∧ (∀ i, info = Some i
              → ∃ q, get_item_info tok (plaid (world m)) = (Ok i, q))
      ∧ (o = OutOfFuel
         ∨ (∃ ex, o = Raise (PlaidExn (raise_plaid ex)))
         ∨ (mode = true ∧ v = true ∧ o = Raise TypeError)))
  ∨ (∃ info p1 balances p2 r p3,
        mode = true
        ∧ get_item_info tok (plaid (world m)) = (Ok info, p1)
        ∧ fetch_balances_opt fb tok p1 = (Ok balances, p2)
        ∧ sync_transactions_with fuel tok
            (get_last_sync_cursor (AccountInfo.item_id info) (db (world m)))
            (cursor_status_callback v) p2
          = (Ok r, p3)
        ∧ o = Ok tt ∧ m' = cursor_done m info balances r p3)
  ∨ (∃ info p1 balances p2 fetched p3,
        mode = false
        ∧ get_item_info tok (plaid (world m)) = (Ok info, p1)
        ∧ fetch_balances_opt fb tok p1 = (Ok balances, p2)
        ∧ get_transactions fuel tok sd ed None p2 = (Ok fetched, p3)
        ∧ (o, m') = window_done m sd ed v info balances fetched p3).
Proof.
  cbv zeta. unfold try_block.
  assert (Hraise : ∀ (e : exn) (mo vb : bool),
            (∃ ex, e = PlaidExn (raise_plaid ex)) →
            Raise (A := unit) e = OutOfFuel
            ∨ (∃ ex, Raise (A := unit) e = Raise (PlaidExn (raise_plaid ex)))
            ∨ (mo = true ∧ vb = true ∧ Raise (A := unit) e = Raise TypeError)).
  { intros e mo vb [ex ->]. right. left. by exists ex. }
  destruct mode; [rewrite sync_with_cursor_try_eq|rewrite sync_try_eq]; cbv zeta.
  all: destruct (get_item_info _ _) as [[info|e|] p1] eqn:H1.
  all: try (intros [= <- <-]; left; exists None, [], p1;
            split; [done|]; split; [done|]; split; [by split|];
            split; [done|];
            first [by left | apply Hraise; eapply get_item_info_raise; eauto]).
  all: destruct (fetch_balances_opt _ _ _) as [[balances|e|] p2] eqn:H2.
  all: try (intros [= <- <-]; left; exists (Some info), [], p2;
            split; [done|]; split; [done|];
            split; [split; [done|]; intros Hn; by destruct (Hn info p1)|];
            split; [intros i [= <-]; by exists p1|];
            first [by left | apply Hraise; eapply fetch_balances_opt_raise; eauto]).
  - destruct (sync_transactions_with _ _ _ _ _) as [[r|e|] p3] eqn:H3.
    + intros [= <- <-]. right. left.
      by exists info, p1, balances, p2, r, p3.
    + intros [= <- <-]. left.
      exists (Some info), [GetLastSyncCursor (AccountInfo.item_id info)], p3.
      split; [done|]. split; [by repeat constructor|].
      split; [split; [done|]; intros Hn; by destruct (Hn info p1)|].
      split; [intros i [= <-]; by exists p1|].
      apply cursor_status_callback_raise in H3 as [Hex|[-> ->]];
        [by apply Hraise|].
      by right; right.
    + intros [= <- <-]. left.
      exists (Some info), [GetLastSyncCursor (AccountInfo.item_id info)], p3.
      split; [done|]. split; [by repeat constructor|].
      split; [split; [done|]; intros Hn; by destruct (Hn info p1)|].
      split; [intros i [= <-]; by exists p1|]. by left.
  - destruct (get_transactions _ _ _ _ _ _) as [[fetched|e|] p3] eqn:H3.
    + intros Hdone. right. right.
      by exists info, p1, balances, p2, fetched, p3.
    + intros [= <- <-]. left. exists (Some info), [], p3.
      split; [done|]. split; [done|].
      split; [split; [done|]; intros Hn; by destruct (Hn info p1)|].
      split; [intros i [= <-]; by exists p1|].
      apply Hraise. eapply get_transactions_raise; eauto.
    + intros [= <- <-]. left. exists (Some info), [], p3.
      split; [done|]. split; [done|].
      split; [split; [done|]; intros Hn; by destruct (Hn info p1)|].
      split; [intros i [= <-]; by exists p1|]. by left.
Qed.


(** [sync] ends where its try block ended, but for a provider error, which
    it records. *)
Lemma sync_ends fuel sd ed fb v mode (m : Machine P D) :
  ∃ o m1,
    try_block fuel sd ed fb v mode m = (o, m1)
    ∧ ((∃ ex, o = Raise (PlaidExn ex)
              ∧ sync fuel sd ed fb v mode m = (Ok tt, failed ex m1))
       ∨ ((∀ ex, o ≠ Raise (PlaidExn ex))
          ∧ sync fuel sd ed fb v mode m = (o, m1))).
Proof.
  rewrite sync_try_block.
  destruct (try_block fuel sd ed fb v mode m) as [o m1].
  exists o, m1. split; [done|].
  destruct o as [[]|[ex'|e'| |k]|]; try (by right); left; by exists e'.
Qed.

Lemma window_done_transactions (m : Machine P D) sd ed v info balances fetched p :
  PlaidSynchronizer.transactions
    (self (window_done m sd ed v info balances fetched p).2)
  = window_merged m sd ed fetched.
Proof. unfold window_done. cbv zeta. by destruct (v && _). Qed.

Lemma window_done_item_info (m : Machine P D) sd ed v info balances fetched p :
  PlaidSynchronizer.item_info
    (self (window_done m sd ed v info balances fetched p).2)
  = Some info.
Proof. unfold window_done. cbv zeta. by destruct (v && _). Qed.

Lemma stopped_self_fields (m : Machine P D) info reads p :
  PlaidSynchronizer.transactions (self (stopped m info reads p))
  = PlaidSynchronizer.transactions (self m)
  ∧ PlaidSynchronizer.account_name (self (stopped m info reads p))
    = PlaidSynchronizer.account_name (self m)
  ∧ PlaidSynchronizer.access_token (self (stopped m info reads p))
    = PlaidSynchronizer.access_token (self m).
Proof. by destruct info. Qed.

Lemma transactions_updated_nil d : transactions_updated d [] = d.
Proof. apply map_eq. intros k. by rewrite transactions_updated_lookup. Qed.

(** The working map at the end of a try block. *)
Lemma try_block_transactions fuel sd ed fb v mode (m : Machine P D) o m' :
  try_block fuel sd ed fb v mode m = (o, m') →
  ∃ l1 l2,
    PlaidSynchronizer.transactions (self m')
    = transactions_updated
        (transactions_updated (PlaidSynchronizer.transactions (self m)) l1) l2.
Proof.
  intros Hrun.
  apply try_block_cases in Hrun
    as [(info & reads & p & -> & _)
       |[(info & b & r & p & _ & _ & ->)|(info & b & f & p & _ & Hd)]].
  - exists [], []. rewrite !transactions_updated_nil. by destruct info.
  - by exists (SyncResult.added r), (SyncResult.modified r).
  - eexists f, _.
    pose proof (window_done_transactions m sd ed v info b f p) as Ht.
    rewrite <- Hd in Ht. cbn [snd] in Ht. rewrite Ht. reflexivity.
Qed.

(** X11.  A run, in either mode and however it ends, only adds to the
    working map: no key of [self.transactions] is lost, and every entry
    still sits under its own id if that held before the run. *)
Theorem sync_keeps_working_map fuel sd ed fb v mode (m : Machine P D) :
  let before := PlaidSynchronizer.transactions (self m) in
  let after :=
    PlaidSynchronizer.transactions (self (sync fuel sd ed fb v mode m).2) in
  dom before ⊆ dom after ∧ (well_keyed before → well_keyed after).
Proof.
  cbv zeta.
  destruct (sync_ends fuel sd ed fb v mode m) as (o & m1 & Hrun & Hend).
  destruct (try_block_transactions _ _ _ _ _ _ _ _ _ Hrun) as (l1 & l2 & Ht).
  assert (Hafter : PlaidSynchronizer.transactions
                     (self (sync fuel sd ed fb v mode m).2)
                   = PlaidSynchronizer.transactions (self m1)).
  { by destruct Hend as [(ex & _ & ->)|[_ ->]]. }
  rewrite Hafter, Ht. split.
  - rewrite !transactions_updated_dom. intros k Hk.
    apply elem_of_union. right. apply elem_of_union. by right.
  - intros Hk. by do 2 apply transactions_updated_well_keyed.
Qed.

(** X12.  [self.item_info] is set as soon as [get_item_info] has answered
    and stays set however the run ends, also when a later provider call
    raises; when [get_item_info] itself does not answer, [self.item_info] is
    what it was. *)
Theorem item_info_kept_from_first_call fuel sd ed fb v mode (m : Machine P D) :
  let tok := PlaidSynchronizer.access_token (self m) in
  let m' := (sync fuel sd ed fb v mode m).2 in
  (∀ info p1,
     get_item_info tok (plaid (world m)) = (Ok info, p1) →
     PlaidSynchronizer.item_info (self m') = Some info)
  ∧ ((∀ info p1, get_item_info tok (plaid (world m)) ≠ (Ok info, p1)) →
     PlaidSynchronizer.item_info (self m')
     = PlaidSynchronizer.item_info (self m)).
Proof.
  cbv zeta.
  destruct (sync_ends fuel sd ed fb v mode m) as (o & m1 & Hrun & Hend).
  assert (Hafter : PlaidSynchronizer.item_info
                     (self (sync fuel sd ed fb v mode m).2)
                   = PlaidSynchronizer.item_info (self m1)).
  { by destruct Hend as [(ex & _ & ->)|[_ ->]]. }
  rewrite Hafter.
  apply try_block_outcome in Hrun
    as [(info & reads & p & -> & _ & Hnone & Hsome & _)
       |[(info & p1 & b & p2 & r & p3 & _ & H1 & _ & _ & _ & ->)
        |(info & p1 & b & p2 & f & p3 & _ & H1 & _ & _ & Hd)]];
    cbv zeta in *.
  - split.
    + intros i q Hi. destruct info as [i'|].
      * destruct (Hsome i' eq_refl) as [q' Hq']. rewrite Hi in Hq'.
        by injection Hq' as -> _.
      * destruct Hnone as [Hn _]. by destruct (Hn eq_refl i q).
    + intros Hno. destruct info as [i'|]; [|done].
      destruct (Hsome i' eq_refl) as [q' Hq']. by destruct (Hno i' q').
  - split.
    + intros i q Hi. rewrite Hi in H1. by injection H1 as -> _.
    + intros Hno. by destruct (Hno info p1).
  - pose proof (window_done_item_info m sd ed v info b f p3) as Hi'.
    rewrite <- Hd in Hi'. cbn [snd] in Hi'. rewrite Hi'. split.
    + intros i q Hi. rewrite Hi in H1. by injection H1 as -> _.
    + intros Hno. by destruct (Hno info p1).
Qed.

(** X13.  Cursor mode, provider calls answered and the call to
    [sync_transactions], made with the status callback of the run, returned
    (which that of a verbose run does not): the store calls of the run
    are, in this order, the query of the last cursor, [save_item_info], one
    [save_balance] per balance row fetched, one [save_transaction] per added
    transaction, one per modified transaction, and [save_sync_cursor] when
    the store has it; the store's final state is these calls applied in
    order. *)
Theorem cursor_run_store_calls fuel fb v (m : Machine P D)
    info p1 balances p2 sync_result p3 :
  let tok := PlaidSynchronizer.access_token (self m) in
  let item_id := AccountInfo.item_id info in
  get_item_info tok (plaid (world m)) = (Ok info, p1) →
  fetch_balances_opt fb tok p1 = (Ok balances, p2) →
  sync_transactions_with fuel tok
    (get_last_sync_cursor item_id (db (world m))) (cursor_status_callback v) p2
  = (Ok sync_result, p3) →
  let m' := (sync_with_cursor fuel fb v m).2 in
  let saves :=
    SaveItemInfo info
    :: map (SaveBalance item_id) (default [] balances)
    ++ map SaveTransaction (SyncResult.added sync_result)
    ++ map SaveTransaction (SyncResult.modified sync_result) in
  let d2 := foldl (λ d c, db_apply c d) (db (world m)) saves in
  let tail :=
    if has_save_sync_cursor d2
    then [SaveSyncCursor item_id (SyncResult.cursor sync_result)]
    else [] in
  new_calls m m' = GetLastSyncCursor item_id :: saves ++ tail
  ∧ db (world m') = foldl (λ d c, db_apply c d) (db (world m)) (saves ++ tail)
  ∧ plaid (world m') = p3.
Proof.
  cbv zeta. intros H1 H2 H3.
  rewrite (sync_with_cursor_chain _ _ _ _ _ _ _ _ _ _ H1 H2 H3).
  cbn [snd]. unfold cursor_done. cbv zeta. cbn [world].
  unfold balance_calls.
  set (saves := SaveItemInfo info :: _).
  rewrite foldl_app.
  change (db (exec_calls saves _)) with
    (foldl (λ d c, db_apply c d) (db (world m)) saves).
  destruct (has_save_sync_cursor _).
  - split; [|done]. apply new_calls_app. cbn [world exec_calls db_log].
    by rewrite <- !app_assoc.
  - split; [|done]. apply new_calls_app.
    cbn [world exec_calls db_log]. by rewrite app_nil_r, <- !app_assoc.
Qed.

End RunProperties.

Section RunErrors.
Context {P D : Type} `{PlaidApi P} `{TransactionsDB D}.

Lemma fetch_balances_opt_none fb tok (p p' : P) :
  fetch_balances_opt fb tok p = (Ok None, p') → fb = false.
Proof.
  unfold fetch_balances_opt. destruct fb; [|done].
  unfold st_bind. by destruct (get_account_balance tok p) as [[b|e|] q].
Qed.

Lemma fetch_balances_opt_some fb tok (p p' : P) balances :
  fetch_balances_opt fb tok p = (Ok (Some balances), p') →
  fb = true ∧ get_account_balance tok p = (Ok balances, p').
Proof.
  unfold fetch_balances_opt. destruct fb; [|done].
  unfold st_bind. destruct (get_account_balance tok p) as [[b|e|] q]; try done.
  by intros [= -> ->].
Qed.

(** X14.  Window mode with [verbose] and without the balance fetch: once the
    provider calls have answered, [sync] raises [TypeError] (the message of
    line 345 takes [len(None)]).  It does so after the two store queries and
    before any write, [except PlaidError] does not catch it, and the loop of
    [main] stops there, leaving the remaining accounts without a result. *)
Theorem verbose_window_without_balances_raises fuel sd ed (m : Machine P D)
    info p1 fetched p3 :
  let tok := PlaidSynchronizer.access_token (self m) in
  get_item_info tok (plaid (world m)) = (Ok info, p1) →
  get_transactions fuel tok sd ed None p1 = (Ok fetched, p3) →
  let run := sync fuel sd ed false true false m in
  run.1 = Raise TypeError
  ∧ db (world run.2) = db (world m)
  ∧ new_calls m run.2
    = [GetTransactionIds sd ed
         (elements (window_account_ids (window_fetched m fetched)));
       FetchTransactionsById (elements (window_to_archive m sd ed fetched))]
  ∧ PlaidSynchronizer.plaid_error (self run.2)
    = PlaidSynchronizer.plaid_error (self m)
  ∧ ∀ get_token account_name rest results,
      self m = PlaidSynchronizer.__init__ account_name (get_token account_name) →
      process_accounts fuel (mkArgs true false sd ed false) get_token
        (account_name :: rest) (results, world m)
      = (Raise TypeError, (results, world run.2)).
Proof.
  cbv zeta. intros H1 H3.
  assert (H2 : fetch_balances_opt false
                 (PlaidSynchronizer.access_token (self m)) p1 = (Ok None, p1))
    by done.
  pose proof (sync_window_chain fuel sd ed false true m info p1 None p1
                fetched p3 H1 H2 H3) as Hsync.
  rewrite Hsync. unfold window_done. cbv zeta. cbn [andb negb fst snd].
  assert (Hb : bool_decide (is_Some (@None (list AccountBalance.t))) = false).
  { apply bool_decide_eq_false. by intros [? ?]. }
  rewrite Hb. cbn [negb fst snd self world db].
  split; [done|]. split; [done|]. split; [by apply new_calls_app|].
  split; [done|].
  intros get_token account_name rest results Hself.
  unfold process_accounts. cbn [for_each]. unfold st_bind at 1.
  unfold process_account at 1. cbn [fst snd args_cursor_sync args_start_date
    args_end_date args_balances args_verbose]. rewrite <- Hself.
  assert (Hm : mkMachine (self m) (world m) = m) by (by destruct m).
  rewrite Hm, Hsync. unfold window_done. cbv zeta. cbn [andb negb].
  by rewrite Hb.
Qed.


(** X16.  Every balance row a run saves, in either mode, is one of the rows
    [get_account_balance] answered in that run, saved under the id of the
    item [get_item_info] answered; without the balance fetch no row is
    saved. *)
Theorem balances_saved_as_fetched fuel sd ed fb v mode (m : Machine P D)
    item_id balance :
  let tok := PlaidSynchronizer.access_token (self m) in
  SaveBalance item_id balance ∈ new_calls m (sync fuel sd ed fb v mode m).2 →
  fb = true
  ∧ ∃ info p1 balances p2,
      get_item_info tok (plaid (world m)) = (Ok info, p1)
      ∧ get_account_balance tok p1 = (Ok balances, p2)
      ∧ item_id = AccountInfo.item_id info
      ∧ balance ∈ balances.
Proof.
  cbv zeta.
  destruct (sync_ends fuel sd ed fb v mode m) as (o & m1 & Hrun & Hend).
  assert (Hcalls : new_calls m (sync fuel sd ed fb v mode m).2 = new_calls m m1).
  { by destruct Hend as [(ex & _ & ->)|[_ ->]]. }
  rewrite Hcalls. clear Hcalls Hend.
  assert (Hin_balances : ∀ info b,
            SaveBalance item_id balance
            ∈ balance_calls (AccountInfo.item_id info) b →
            ∃ balances, b = Some balances
                        ∧ item_id = AccountInfo.item_id info
                        ∧ balance ∈ balances).
  { intros info b Hin. unfold balance_calls in Hin.
    apply list_elem_of_fmap in Hin as (x & [= -> ->] & Hx).
    destruct b as [balances|]; [|by apply elem_of_nil in Hx].
    by exists balances. }
  apply try_block_outcome in Hrun
    as [(info & reads & p & -> & Hreads & _)
       |[(info & p1 & b & p2 & r & p3 & _ & H1 & H2 & _ & _ & ->)
        |(info & p1 & b & p2 & f & p3 & _ & H1 & H2 & _ & Hd)]];
    cbv zeta in *; intros Hin.
  - erewrite new_calls_app in Hin; [|reflexivity].
    rewrite Forall_forall in Hreads. by apply Hreads in Hin.
  - destruct (cursor_done_log m info b r p3) as (tail & Hlog & Htail).
    rewrite (new_calls_app _ _ _ Hlog) in Hin.
    rewrite !elem_of_cons, !elem_of_app, !list_elem_of_fmap in Hin.
    destruct Hin as [?|[?|[Hin|[(? & ? & ?)|[(? & ? & ?)|Hin]]]]];
      try discriminate.
    + apply Hin_balances in Hin as (balances & -> & -> & Hb).
      apply fetch_balances_opt_some in H2 as [-> H2].
      split; [done|]. by exists info, p1, balances, p2.
    + destruct Htail as [->| ->]; [by apply elem_of_nil in Hin|].
      by apply list_elem_of_singleton in Hin.
  - destruct (window_done_log m sd ed v info b f p3) as (tail & Hlog & Htail).
    rewrite <- Hd in Hlog. cbn [snd] in Hlog.
    rewrite (new_calls_app _ _ _ Hlog) in Hin.
    unfold window_reads in Hin.
    rewrite elem_of_app, !elem_of_cons in Hin.
    destruct Hin as [[?|[?|Hin]]|Hin]; try discriminate;
      [by apply elem_of_nil in Hin|].
    destruct Htail as [->| ->]; [by apply elem_of_nil in Hin|].
    unfold window_writes in Hin.
    rewrite elem_of_cons, elem_of_app, list_elem_of_fmap in Hin.
    destruct Hin as [?|[Hin|(? & ? & ?)]]; try discriminate.
    apply Hin_balances in Hin as (balances & -> & -> & Hb).
    apply fetch_balances_opt_some in H2 as [-> H2].
    split; [done|]. by exists info, p1, balances, p2.
Qed.

(** X22.  Cursor mode with [verbose]: once [get_item_info] and the balance
    fetch have answered and the provider has served the first page of
    changes, [sync_with_cursor] raises [TypeError]: the status callback of
    lines 178-185 takes [len] of the lengths [sync_transactions] calls it
    with.  This happens after the query of the last cursor and the first
    page request, before anything is merged, counted or written;
    [except PlaidError] does not catch it and no error is recorded; and the
    loop of [main] stops there, leaving the remaining accounts without a
    result. *)
Theorem verbose_cursor_sync_raises fuel sd ed fb (m : Machine P D)
    info p1 balances p2 page p3 :
  let tok := PlaidSynchronizer.access_token (self m) in
  let item_id := AccountInfo.item_id info in
  get_item_info tok (plaid (world m)) = (Ok info, p1) →
  fetch_balances_opt fb tok p1 = (Ok balances, p2) →
  transactions_sync tok (get_last_sync_cursor item_id (db (world m))) p2
  = (inr page, p3) →
  let run := sync (S fuel) sd ed fb true true m in
  run.1 = Raise TypeError
  ∧ plaid (world run.2) = p3
  ∧ db (world run.2) = db (world m)
  ∧ new_calls m run.2 = [GetLastSyncCursor item_id]
  ∧ PlaidSynchronizer.transactions (self run.2)
    = PlaidSynchronizer.transactions (self m)
  ∧ PlaidSynchronizer.counts (self run.2) = PlaidSynchronizer.counts (self m)
  ∧ PlaidSynchronizer.plaid_error (self run.2)
    = PlaidSynchronizer.plaid_error (self m)
  ∧ ∀ get_token account_name rest results,
      self m = PlaidSynchronizer.__init__ account_name (get_token account_name) →
      process_accounts (S fuel) (mkArgs true fb sd ed true) get_token
        (account_name :: rest) (results, world m)
      = (Raise TypeError, (results, world run.2)).
Proof.
  cbv zeta. intros H1 H2 Hpage.
  assert (H3 : sync_transactions_with (S fuel)
                 (PlaidSynchronizer.access_token (self m))
                 (get_last_sync_cursor (AccountInfo.item_id info) (db (world m)))
                 (cursor_status_callback true) p2
               = (Raise TypeError, p3))
    by (by rewrite sync_transactions_verbose_first_page, Hpage).
  assert (Hsync : sync (S fuel) sd ed fb true true m
                  = (Raise TypeError,
                     stopped m (Some info)
                       [GetLastSyncCursor (AccountInfo.item_id info)] p3)).
  { unfold sync, sync_with_cursor, try_except_PlaidError.
    rewrite sync_with_cursor_try_eq. cbv zeta. by rewrite H1, H2, H3. }
  rewrite Hsync. cbn [fst snd stopped world plaid db self].
  split; [done|]. split; [done|]. split; [done|].
  split; [by apply new_calls_app|].
  split; [done|]. split; [done|]. split; [done|].
  intros get_token account_name rest results Hself.
  unfold process_accounts. cbn [for_each]. unfold st_bind at 1.
  unfold process_account at 1. cbn [fst snd args_cursor_sync args_start_date
    args_end_date args_balances args_verbose]. rewrite <- Hself.
  assert (Hm : mkMachine (self m) (world m) = m) by (by destruct m).
  rewrite Hm.
  change (sync (S fuel) None None fb true true m)
    with (sync (S fuel) sd ed fb true true m).
  by rewrite Hsync.
Qed.

Lemma verbose_cursor_try_stops fuel fb (m : Machine P D) o m1 :
  sync_with_cursor_try fuel fb true m = (o, m1) →
  ∃ info reads p,
    m1 = stopped m info reads p
    ∧ Forall (λ c, ∃ item_id, c = GetLastSyncCursor item_id) reads.
Proof.
  rewrite sync_with_cursor_try_eq. cbv zeta.
  destruct (get_item_info _ _) as [[info|e|] p1].
  2,3: intros [= <- <-]; by exists None, [], p1.
  destruct (fetch_balances_opt _ _ _) as [[balances|e|] p2].
  2,3: intros [= <- <-]; by exists (Some info), [], p2.
  destruct (sync_transactions_with _ _ _ _ _) as [[r|e|] p3] eqn:H3.
  - by apply cursor_status_callback_ok in H3.
  - intros [= <- <-]. eexists (Some info), _, p3. split; [done|].
    repeat constructor. by eexists.
  - intros [= <- <-]. eexists (Some info), _, p3. split; [done|].
    repeat constructor. by eexists.
Qed.

(** X23.  A verbose cursor-mode run, however it ends, returns no result:
    it merges nothing, counts nothing and writes nothing, and the only store
    call it can make is the query of the last cursor. *)
Theorem verbose_cursor_sync_never_saves fuel sd ed fb (m : Machine P D) :
  let m' := (sync fuel sd ed fb true true m).2 in
  PlaidSynchronizer.transactions (self m')
  = PlaidSynchronizer.transactions (self m)
  ∧ PlaidSynchronizer.counts (self m') = PlaidSynchronizer.counts (self m)
  ∧ db (world m') = db (world m)
  ∧ Forall (λ c, ∃ item_id, c = GetLastSyncCursor item_id) (new_calls m m').
Proof.
  cbv zeta. rewrite sync_try_block.
  destruct (try_block fuel sd ed fb true true m) as [o m1] eqn:Hrun.
  change (try_block fuel sd ed fb true true m)
    with (sync_with_cursor_try fuel fb true m) in Hrun.
  apply verbose_cursor_try_stops in Hrun as (info & reads & p & -> & Hreads).
  assert (Hcalls : ∀ m2, db_log (world m2) = db_log (world m) ++ reads →
            Forall (λ c, ∃ item_id, c = GetLastSyncCursor item_id)
              (new_calls m m2)).
  { intros m2 Hlog. by rewrite (new_calls_app _ _ _ Hlog). }
  destruct o as [[]|[ex'|e'| |k]|], info as [i|]; cbn [snd];
    (split; [done|]; split; [done|]; split; [done|]; by apply Hcalls).
Qed.

End RunErrors.

Section WindowPending.
Context {P D : Type} `{PlaidApi P} `{TransactionsDB D}.

Lemma length_filter_ext_in {A} (f g : A → bool) (l : list A) :
  (∀ x, x ∈ l → f x = g x) →
  length (List.filter f l) = length (List.filter g l).
Proof.
  intros Hfg. induction l as [|x l IH]; [done|]. cbn.
  rewrite (Hfg x) by apply list_elem_of_here.
  destruct (g x); cbn; rewrite IH; try done;
    intros y Hy; apply Hfg; by apply list_elem_of_further.
Qed.

(** X19.  Window mode: the pending flag of an id to archive is read from the
    record the store returns for it, never from the provider's answer:
    [archived_pending] counts the ids to archive whose record, as answered
    by [fetch_transactions_by_id], is pending, and is zero when the store
    answers no record. *)
Theorem archived_pending_read_from_store fuel sd ed fb v (m : Machine P D)
    info p1 balances p2 fetched p3 :
  let tok := PlaidSynchronizer.access_token (self m) in
  get_item_info tok (plaid (world m)) = (Ok info, p1) →
  fetch_balances_opt fb tok p1 = (Ok balances, p2) →
  get_transactions fuel tok sd ed None p2 = (Ok fetched, p3) →
  let m' := (sync fuel sd ed fb v false m).2 in
  let tids_to_archive := window_to_archive m sd ed fetched in
  let stored :=
    fetch_transactions_by_id (elements tids_to_archive) (db (world m)) in
  SyncCounts.archived_pending (PlaidSynchronizer.counts (self m'))
  = length
      (List.filter
         (λ tid, match last_version tid stored with
                 | Some t => Transaction.pending t
                 | None => false
                 end)
         (elements tids_to_archive))
  ∧ (stored = [] →
     SyncCounts.archived_pending (PlaidSynchronizer.counts (self m')) = 0).
Proof.
  cbv zeta. intros H1 H2 H3.
  rewrite (sync_window_chain _ _ _ _ _ _ _ _ _ _ _ _ H1 H2 H3).
  assert (Hc : PlaidSynchronizer.counts
                 (self (window_done m sd ed v info balances fetched p3).2)
               = window_counts m sd ed fetched).
  { unfold window_done. cbv zeta. by destruct (v && _). }
  rewrite Hc. cbn [window_counts SyncCounts.archived_pending].
  assert (Heq :
    length (List.filter (pending_in (window_merged m sd ed fetched))
              (elements (window_to_archive m sd ed fetched)))
    = length
        (List.filter
           (λ tid,
              match last_version tid
                      (fetch_transactions_by_id
                         (elements (window_to_archive m sd ed fetched))
                         (db (world m))) with
              | Some t => Transaction.pending t
              | None => false
              end)
           (elements (window_to_archive m sd ed fetched)))).
  { apply length_filter_ext_in. intros tid Hin.
    apply elem_of_elements in Hin.
    unfold window_to_archive, window_tids_to_archive, window_tids_fetched in Hin.
    apply elem_of_difference in Hin as [_ Hnot].
    apply not_elem_of_dom in Hnot.
    unfold pending_in, window_merged.
    rewrite transactions_updated_lookup.
    destruct (last_version tid _); [done|]. by rewrite Hnot. }
  split; [exact Heq|].
  intros Hnil. rewrite Heq, Hnil. clear Heq Hnil.
  generalize (elements (window_to_archive m sd ed fetched)).
  intros l. by induction l.
Qed.

End WindowPending.

(* ===================================================================== *)
(** * Further properties of the per-account loop of [main] *)
(* ===================================================================== *)

Section Batch.
Context {P D : Type} `{PlaidApi P} `{TransactionsDB D}.

(** The run [process_account] makes for an account on world [w]. *)
Lemma process_account_run fuel (args : Args) get_token account_name
    (results : gmap string PlaidSynchronizer.t) (w : World P D) :
  let m := mkMachine
             (PlaidSynchronizer.__init__ account_name (get_token account_name))
             w in
  let run := sync fuel (args_start_date args) (args_end_date args)
               (args_balances args) (args_verbose args)
               (args_cursor_sync args) m in
  process_account fuel args get_token account_name (results, w)
  = match run.1 with
    | Ok _ => (Ok tt, (<[account_name := self run.2]> results, world run.2))
    | Raise e => (Raise e, (results, world run.2))
    | OutOfFuel => (OutOfFuel, (results, world run.2))
    end.
Proof.
  cbv zeta. unfold process_account. cbn [fst snd].
  destruct (args_cursor_sync args);
    by destruct (sync _ _ _ _ _ _ _) as [[[]|e|] m1].
Qed.

Lemma sync_keeps_identity fuel sd ed fb v mode (m : Machine P D) :
  PlaidSynchronizer.account_name (self (sync fuel sd ed fb v mode m).2)
  = PlaidSynchronizer.account_name (self m)
  ∧ PlaidSynchronizer.access_token (self (sync fuel sd ed fb v mode m).2)
    = PlaidSynchronizer.access_token (self m).
Proof.
  destruct (sync_ends fuel sd ed fb v mode m) as (o & m1 & Hrun & Hend).
  assert (Hafter :
    PlaidSynchronizer.account_name (self (sync fuel sd ed fb v mode m).2)
    = PlaidSynchronizer.account_name (self m1)
    ∧ PlaidSynchronizer.access_token (self (sync fuel sd ed fb v mode m).2)
      = PlaidSynchronizer.access_token (self m1)).
  { by destruct Hend as [(ex & _ & ->)|[_ ->]]. }
  destruct Hafter as [-> ->].
  apply try_block_cases in Hrun
    as [(info & reads & p & -> & _)
       |[(info & b & r & p & _ & _ & ->)|(info & b & f & p & _ & Hd)]].
  - by destruct info.
  - done.
  - unfold window_done in Hd. cbv zeta in Hd.
    by destruct (v && _); injection Hd as _ ->.
Qed.

Lemma sync_log fuel sd ed fb v mode (m : Machine P D) :
  ∃ calls,
    db_log (world (sync fuel sd ed fb v mode m).2) = db_log (world m) ++ calls
    ∧ Forall (λ c, is_archive c = false) calls.
Proof.
  destruct (sync_ends fuel sd ed fb v mode m) as (o & m1 & Hrun & Hend).
  destruct (try_block_log _ _ _ _ _ _ _ _ _ Hrun) as (calls & Hlog & Hcalls).
  exists calls. split; [|done].
  by destruct Hend as [(ex & _ & ->)|[_ ->]].
Qed.

Lemma process_accounts_spec fuel (args : Args) get_token
    (enabled_accounts : list string)
    (st st' : gmap string PlaidSynchronizer.t * World P D) :
  process_accounts fuel args get_token enabled_accounts st = (Ok tt, st') →
  dom st'.1 = dom st.1 ∪ list_to_set enabled_accounts
  ∧ (∀ account_name,
       account_name ∈ enabled_accounts →
       ∃ s, st'.1 !! account_name = Some s
            ∧ PlaidSynchronizer.account_name s = account_name
            ∧ PlaidSynchronizer.access_token s = get_token account_name)
  ∧ (∀ name, name ∉ enabled_accounts → st'.1 !! name = st.1 !! name).
Proof.
  unfold process_accounts. revert st.
  induction enabled_accounts as [|a rest IH]; intros [results w].
  - cbn. intros [= <-]. cbn. split; [|split; [|done]].
    + apply set_eq. intros k. rewrite elem_of_union, elem_of_empty. tauto.
    + intros k Hk. by apply elem_of_nil in Hk.
  - cbn [for_each]. unfold st_bind at 1. rewrite process_account_run.
    cbv zeta.
    set (m := mkMachine (PlaidSynchronizer.__init__ a (get_token a)) w).
    set (run := sync _ _ _ _ _ _ m).
    destruct (sync_keeps_identity fuel (args_start_date args)
                (args_end_date args) (args_balances args) (args_verbose args)
                (args_cursor_sync args) m) as [Hname Htok].
    fold run in Hname, Htok. cbn in Hname, Htok.
    destruct (run.1) as [[]|e|]; [|discriminate..].
    intros Hrest. apply IH in Hrest as (Hdom & Hall & Hother).
    cbn [fst] in *. split; [|split].
    + rewrite Hdom, dom_insert_L, list_to_set_cons.
      apply set_eq. intros k. rewrite !elem_of_union. tauto.
    + intros k Hk. apply elem_of_cons in Hk as [->|Hk]; [|by apply Hall].
      destruct (decide (a ∈ rest)) as [Hin|Hnin]; [by apply Hall|].
      exists (self run.2). split; [|done].
      rewrite (Hother a Hnin). apply lookup_insert_eq.
    + intros k Hk. rewrite not_elem_of_cons in Hk. destruct Hk as [Hne Hk].
      rewrite (Hother k Hk). by apply lookup_insert_ne.
Qed.

(** X17.  When the loop over the enabled accounts completes, every account
    of the list has a result, built for that account's name and access
    token; the results of other names are as they were. *)
Theorem process_accounts_results fuel (args : Args) get_token
    (enabled_accounts : list string)
    (st st' : gmap string PlaidSynchronizer.t * World P D) :
  process_accounts fuel args get_token enabled_accounts st = (Ok tt, st') →
  dom st'.1 = dom st.1 ∪ list_to_set enabled_accounts
  ∧ (∀ account_name,
       account_name ∈ enabled_accounts →
       ∃ s, st'.1 !! account_name = Some s
            ∧ PlaidSynchronizer.account_name s = account_name
            ∧ PlaidSynchronizer.access_token s = get_token account_name)
  ∧ (∀ name, name ∉ enabled_accounts → st'.1 !! name = st.1 !! name).
Proof. apply process_accounts_spec. Qed.

(** X18.  However the loop over the accounts ends, the store calls of the
    whole batch extend the log it started with, and none of them is
    [archive_transactions]. *)
Theorem batch_never_archives fuel (args : Args) get_token
    (enabled_accounts : list string)
    (st : gmap string PlaidSynchronizer.t * World P D) :
  let st' := (process_accounts fuel args get_token enabled_accounts st).2 in
  ∃ calls,
    db_log st'.2 = db_log st.2 ++ calls
    ∧ Forall (λ c, is_archive c = false) calls.
Proof.
  cbv zeta. unfold process_accounts. revert st.
  induction enabled_accounts as [|a rest IH]; intros [results w].
  - exists []. cbn. by rewrite app_nil_r.
  - cbn [for_each]. unfold st_bind at 1. rewrite process_account_run.
    cbv zeta.
    set (m := mkMachine (PlaidSynchronizer.__init__ a (get_token a)) w).
    destruct (sync_log fuel (args_start_date args) (args_end_date args)
                (args_balances args) (args_verbose args)
                (args_cursor_sync args) m) as (calls & Hlog & Hcalls).
    set (run := sync _ _ _ _ _ _ m) in *.
    destruct (run.1) as [[]|e|]; try (by exists calls).
    destruct (IH (<[a := self run.2]> results, world run.2))
      as (calls' & Hlog' & Hcalls').
    exists (calls ++ calls'). cbn [snd] in *.
    rewrite Hlog', Hlog, app_assoc. split; [done|].
    by apply Forall_app.
Qed.

(** X21.  A batch over distinct accounts that completes with an error
    recorded on every account has written nothing: the store is as it was,
    and all the calls made on it were queries. *)
Theorem batch_of_failures_writes_nothing fuel (args : Args) get_token
    (enabled_accounts : list string)
    (results results' : gmap string PlaidSynchronizer.t) (w w' : World P D) :
  NoDup enabled_accounts →
  process_accounts fuel args get_token enabled_accounts (results, w)
  = (Ok tt, (results', w')) →
  (∀ account_name,
     account_name ∈ enabled_accounts →
     ∃ s, results' !! account_name = Some s
          ∧ is_Some (PlaidSynchronizer.plaid_error s)) →
  db w' = db w
  ∧ ∃ reads, db_log w' = db_log w ++ reads
             ∧ Forall (λ c, is_write c = false) reads.
Proof.
  revert results w.
  induction enabled_accounts as [|a rest IH]; intros results w Hnodup Hrun Hall.
  - injection Hrun as _ <-. split; [done|]. exists []. by rewrite app_nil_r.
  - apply NoDup_cons in Hnodup as [Hnin Hnodup].
    pose proof Hrun as Hrun'.
    unfold process_accounts in Hrun. cbn [for_each] in Hrun.
    unfold st_bind at 1 in Hrun. rewrite process_account_run in Hrun.
    cbv zeta in Hrun.
    set (m := mkMachine (PlaidSynchronizer.__init__ a (get_token a)) w) in *.
    set (run := sync _ _ _ _ _ _ m) in *.
    destruct (run.1) as [[]|e|] eqn:Hout; [|discriminate..].
    fold (process_accounts fuel args get_token rest
            (<[a := self run.2]> results, world run.2)) in Hrun.
    destruct (process_accounts_spec _ _ _ _ _ _ Hrun) as (_ & _ & Hother).
    cbn [fst] in Hother.
    destruct (Hall a) as (s & Hs & [ex Hex]); [apply list_elem_of_here|].
    rewrite (Hother a Hnin), lookup_insert_eq in Hs. injection Hs as <-.
    destruct (IH _ _ Hnodup Hrun) as (Hdb & reads' & Hlog' & Hreads').
    { intros a' Ha'. apply Hall. by apply list_elem_of_further. }
    assert (Hfail : ∃ m1,
              try_block fuel (args_start_date args) (args_end_date args)
                (args_balances args) (args_verbose args)
                (args_cursor_sync args) m = (Raise (PlaidExn ex), m1)
              ∧ run = (Ok tt, failed ex m1)).
    { subst run. by apply sync_error_recorded. }
    destruct Hfail as (m1 & Htry & Hrun1).
    apply try_block_plaid_error in Htry as (info & reads & p & -> & Hreads).
    rewrite Hrun1 in Hdb, Hlog'. cbn in Hdb, Hlog'.
    split; [done|]. exists (reads ++ reads').
    rewrite Hlog', app_assoc. split; [done|]. by apply Forall_app.
Qed.

End Batch.

(* ===================================================================== *)
(** * Properties of the dates of [parse_options] *)
(* ===================================================================== *)

(** X20.  The dates after [parse_options].  In cursor mode the options are
    left as given, whatever the dates.  In window mode a result has both
    dates set, a given date kept, a missing start replaced by thirty days
    before the first clock reading and a missing end by the second, and
    [start ≤ end]; the options are refused exactly when the end so obtained
    is before the start. *)
Theorem parse_options_dates_window (today_1 today_2 : Z) (args : Args) :
  let start_date := default (today_1 - 30)%Z (args_start_date args) in
  let end_date := default today_2 (args_end_date args) in
  (args_cursor_sync args = true →
   parse_options_dates today_1 today_2 args = Some args)
  ∧ (args_cursor_sync args = false →
     (parse_options_dates today_1 today_2 args = None
      ↔ (end_date < start_date)%Z)
     ∧ ∀ args',
         parse_options_dates today_1 today_2 args = Some args' →
         args_start_date args' = Some start_date
         ∧ args_end_date args' = Some end_date
         ∧ (start_date ≤ end_date)%Z
         ∧ args_verbose args' = args_verbose args
         ∧ args_balances args' = args_balances args
         ∧ args_cursor_sync args' = false).
Proof.
  cbv zeta. unfold parse_options_dates. split.
  - by intros ->.
  - intros ->.
    assert (Hs : match args_start_date args with
                 | Some d => d
                 | None => (today_1 - 30)%Z
                 end = default (today_1 - 30)%Z (args_start_date args))
      by (by destruct (args_start_date args)).
    assert (He : match args_end_date args with
                 | Some d => d
                 | None => today_2
                 end = default today_2 (args_end_date args))
      by (by destruct (args_end_date args)).
    rewrite Hs, He.
    destruct (Z.ltb_spec (default today_2 (args_end_date args))
                (default (today_1 - 30)%Z (args_start_date args))) as [Hlt|Hge].
    + split; [done|]. discriminate.
    + split; [split; [discriminate|lia]|].
      intros args' [= <-]. cbn. repeat split; done.
Qed.

(** ** Witnesses of the further properties *)

(** A cursor the provider does not know: the first request is refused, and
    the refusal leaves [sync_transactions] classified, also with the status
    callback of a verbose run. *)
Lemma api_methods_raise_classified_witness :
  transactions_sync "access-1" (Some "stale") failing_drain
  = (inl invalid_cursor, failing_drain)
  ∧ sync_transactions_with 10 "access-1" (Some "stale")
      (cursor_status_callback true) failing_drain
    = (Raise (PlaidExn (PlaidUnknownError invalid_cursor)), failing_drain).
Proof.
  assert (Hreq :
    transactions_sync "access-1" (Some "stale") failing_drain
    = (inl invalid_cursor, failing_drain)) by (vm_compute; reflexivity).
  split; [exact Hreq|].
  destruct (api_methods_raise_classified "access-1" 9 None None None
              (Some "stale") (cursor_status_callback true) failing_drain)
    as (_ & _ & _ & _ & Hsync).
  exact (Hsync _ _ Hreq).
Defined.

Lemma sync_transactions_returns_iff_drained_witness :
  sync_transactions 10 "access-1" None two_page_drain
  = (Ok two_page_result, two_page_drain)
  ∧ SyncResult.cursor two_page_result
    = option_map TransactionsSyncResponse.next_cursor
        (last (served_pages 10 "access-1" None two_page_drain))
  ∧ is_Some (SyncResult.cursor two_page_result).
Proof.
  assert (Hrun :
    sync_transactions 10 "access-1" None two_page_drain
    = (Ok two_page_result, two_page_drain)) by (vm_compute; reflexivity).
  split; [exact Hrun|].
  destruct (sync_transactions_returns_iff_drained 10 "access-1" None
              two_page_drain) as [_ Hres].
  destruct (Hres _ _ Hrun) as (_ & _ & _ & _ & _ & Hc & Hs).
  split; [exact Hc|exact Hs].
Defined.

Lemma sync_transactions_has_no_ceiling_witness :
  (sync_transactions 50 "access-1" None endless_drain).1 = OutOfFuel.
Proof.
  apply (sync_transactions_has_no_ceiling
           (λ c q, q = endless_drain ∧ (c = None ∨ c = Some "c"))).
  - intros c q [-> Hc]. exists endless_page, endless_drain.
    split; [by destruct Hc as [-> | ->]|].
    split; [reflexivity|]. split; [reflexivity|]. by right.
  - split; [reflexivity|]. by left.
Defined.

Lemma get_transactions_has_no_ceiling_witness :
  (get_transactions 3 "access-1" None None None (mkFullPages 0)).1 = OutOfFuel.
Proof.
  apply (get_transactions_has_no_ceiling (λ _, True)); [|exact I].
  intros offset q _. eexists _, _. split; [reflexivity|].
  split; [apply length_replicate|]. split; [|exact I].
  cbn [TransactionsGetResponse.total_transactions]. lia.
Defined.

Lemma get_transactions_stops_at_first_page_witness :
  length (capped_ledger capped_provider) = 5
  ∧ get_transactions 4 "access-1" None None None capped_provider
    = (Ok [B_fetched; tx "C" false "baker"], capped_provider).
Proof.
  split; [reflexivity|].
  apply (get_transactions_stops_at_first_page 3 "access-1" None None None
           capped_provider
           (TransactionsGetResponse.mk [B_fetched; tx "C" false "baker"] 5)
           capped_provider).
  - reflexivity.
  - left. cbn. lia.
Defined.

Lemma add_transactions_keys_witness :
  let m := start_machine two_page_drain empty_store in
  let after :=
    PlaidSynchronizer.transactions
      (self (add_transactions [tx "T1" true "cafe"; T2_modified] m).2) in
  well_keyed (PlaidSynchronizer.transactions (self m)) ∧ well_keyed after.
Proof.
  cbv zeta.
  assert (Hbefore : well_keyed
            (PlaidSynchronizer.transactions
               (self (start_machine two_page_drain empty_store)))).
  { intros k t Hk. vm_compute in Hk. discriminate Hk. }
  split; [exact Hbefore|].
  destruct (add_transactions_keys [tx "T1" true "cafe"; T2_modified]
              (start_machine two_page_drain empty_store))
    as (_ & Hkeyed & _).
  exact (Hkeyed Hbefore).
Defined.

Lemma count_pending_passes_unknown_ids_witness :
  count_pending one_pending ["T1"] = 1
  ∧ PlaidSynchronizer.transactions one_pending !! "T9" = None
  ∧ count_pending one_pending ["T9"] = 0.
Proof.
  split; [vm_compute; reflexivity|].
  assert (Hnone : ∀ tid, tid ∈ ["T9"] →
            PlaidSynchronizer.transactions one_pending !! tid = None).
  { intros tid Hin. apply list_elem_of_singleton in Hin as ->.
    vm_compute. reflexivity. }
  split; [apply Hnone, list_elem_of_here|].
  destruct (count_pending_passes_unknown_ids one_pending ["T9"] [])
    as (_ & _ & _ & Hzero).
  exact (Hzero Hnone).
Defined.

Lemma sync_keeps_working_map_witness :
  let m := start_machine two_page_drain empty_store in
  well_keyed (PlaidSynchronizer.transactions (self m))
  ∧ well_keyed
      (PlaidSynchronizer.transactions
         (self (sync 10 None None true false true m).2)).
Proof.
  cbv zeta.
  assert (Hbefore : well_keyed
            (PlaidSynchronizer.transactions
               (self (start_machine two_page_drain empty_store)))).
  { intros k t Hk. vm_compute in Hk. discriminate Hk. }
  split; [exact Hbefore|].
  destruct (sync_keeps_working_map 10 None None true false true
              (start_machine two_page_drain empty_store)) as [_ Hkeyed].
  exact (Hkeyed Hbefore).
Defined.

Lemma item_info_kept_from_first_call_witness :
  let m := start_machine failing_drain store_at_c0 in
  let m' := (sync 10 None None true false true m).2 in
  get_item_info "access-1" (plaid (world m)) = (Ok sample_item, failing_drain)
  ∧ is_Some (PlaidSynchronizer.plaid_error (self m'))
  ∧ PlaidSynchronizer.item_info (self m') = Some sample_item.
Proof.
  cbv zeta.
  assert (Hitem :
    get_item_info
      (PlaidSynchronizer.access_token
         (self (start_machine failing_drain store_at_c0)))
      (plaid (world (start_machine failing_drain store_at_c0)))
    = (Ok sample_item, failing_drain)) by (vm_compute; reflexivity).
  split; [exact Hitem|].
  split; [eexists; vm_compute; reflexivity|].
  destruct (item_info_kept_from_first_call 10 None None true false true
              (start_machine failing_drain store_at_c0)) as [Hset _].
  exact (Hset _ _ Hitem).
Defined.

Lemma cursor_run_store_calls_witness :
  let m := start_machine two_page_drain empty_store in
  let m' := (sync_with_cursor 10 true false m).2 in
  sync_transactions_with 10 "access-1" None (cursor_status_callback false)
    two_page_drain
  = (Ok two_page_result, two_page_drain)
  ∧ new_calls m m'
    = [GetLastSyncCursor "item-1"; SaveItemInfo sample_item;
       SaveBalance "item-1" sample_balance;
       SaveTransaction (tx "T1" true "cafe");
       SaveTransaction (tx "T2" false "shop");
       SaveTransaction T2_modified;
       SaveSyncCursor "item-1" (Some "c2")].
Proof.
  cbv zeta. split; [vm_compute; reflexivity|].
  destruct (cursor_run_store_calls 10 true false
              (start_machine two_page_drain empty_store)
              sample_item two_page_drain (Some [sample_balance]) two_page_drain
              two_page_result two_page_drain) as (Hcalls & _);
    [vm_compute; reflexivity..|].
  rewrite Hcalls. vm_compute; reflexivity.
Defined.

Lemma verbose_window_without_balances_raises_witness :
  let m := start_machine window_provider window_store in
  let run := sync 10 (Some 0%Z) (Some 20%Z) false true false m in
  get_transactions 10 "access-1" (Some 0%Z) (Some 20%Z) None window_provider
  = (Ok window_ledger, sim_with_requests window_provider [(0, 500)])
  ∧ run.1 = Raise TypeError
  ∧ db (world run.2) = window_store
  ∧ process_accounts 10 verbose_window_args (λ _, "access-1")
      ["bank"; "broker"] (∅, world m)
    = (Raise TypeError, (∅, world run.2)).
Proof.
  cbv zeta.
  assert (Hget :
    get_transactions 10 "access-1" (Some 0%Z) (Some 20%Z) None window_provider
    = (Ok window_ledger, sim_with_requests window_provider [(0, 500)]))
    by (vm_compute; reflexivity).
  split; [exact Hget|].
  destruct (verbose_window_without_balances_raises 10 (Some 0%Z) (Some 20%Z)
              (start_machine window_provider window_store)
              sample_item window_provider window_ledger
              (sim_with_requests window_provider [(0, 500)]))
    as (Hout & Hdb & _ & _ & Hbatch); [vm_compute; reflexivity|exact Hget|].
  split; [exact Hout|]. split; [exact Hdb|].
  apply (Hbatch (λ _, "access-1") "bank" ["broker"] ∅). reflexivity.
Defined.


(** The verbose cursor-mode run on the two-page drain ends at the first
    page, and the batch with it. *)
Lemma verbose_cursor_sync_raises_witness :
  let m := start_machine two_page_drain empty_store in
  let run := sync 10 None None true true true m in
  transactions_sync "access-1" None two_page_drain
  = (inr two_page_1, two_page_drain)
  ∧ run.1 = Raise TypeError
  ∧ new_calls m run.2 = [GetLastSyncCursor "item-1"]
  ∧ PlaidSynchronizer.counts (self run.2) = SyncCounts.mk 0 0 0 0 0 0
  ∧ PlaidSynchronizer.transactions (self run.2) = ∅
  ∧ PlaidSynchronizer.plaid_error (self run.2) = None
  ∧ process_accounts 10 (mkArgs true true None None true) (λ _, "access-1")
      ["bank"; "broker"] (∅, world m)
    = (Raise TypeError, (∅, world run.2)).
Proof.
  cbv zeta.
  assert (Hpage :
    transactions_sync "access-1" None two_page_drain
    = (inr two_page_1, two_page_drain)) by (vm_compute; reflexivity).
  split; [exact Hpage|].
  destruct (verbose_cursor_sync_raises 9 None None true
              (start_machine two_page_drain empty_store)
              sample_item two_page_drain (Some [sample_balance]) two_page_drain
              two_page_1 two_page_drain)
    as (Hout & _ & _ & Hcalls & Hmap & Hcounts & Herr & Hbatch);
    [vm_compute; reflexivity|vm_compute; reflexivity|exact Hpage|].
  split; [exact Hout|]. split; [exact Hcalls|].
  split; [rewrite Hcounts; reflexivity|].
  split; [rewrite Hmap; reflexivity|].
  split; [rewrite Herr; reflexivity|].
  apply (Hbatch (λ _, "access-1") "bank" ["broker"] ∅). reflexivity.
Defined.

Lemma balances_saved_as_fetched_witness :
  let m := start_machine window_provider window_store in
  let m' := (sync 10 (Some 0%Z) (Some 20%Z) true false false m).2 in
  SaveBalance "item-1" sample_balance ∈ new_calls m m'
  ∧ ∃ info p1 balances p2,
      get_item_info "access-1" window_provider = (Ok info, p1)
      ∧ get_account_balance "access-1" p1 = (Ok balances, p2)
      ∧ "item-1" = AccountInfo.item_id info
      ∧ sample_balance ∈ balances.
Proof.
  cbv zeta.
  assert (Hin :
    SaveBalance "item-1" sample_balance
    ∈ new_calls (start_machine window_provider window_store)
        (sync 10 (Some 0%Z) (Some 20%Z) true false false
           (start_machine window_provider window_store)).2).
  { eapply bool_decide_eq_true_1. vm_compute. reflexivity. }
  split; [exact Hin|].
  destruct (balances_saved_as_fetched _ _ _ _ _ _ _ _ _ Hin) as [_ Hex].
  exact Hex.
Defined.

Lemma archived_pending_read_from_store_witness :
  let m := start_machine window_provider window_store in
  let m' := (sync 10 (Some 0%Z) (Some 20%Z) true false false m).2 in
  elements (window_to_archive m (Some 0%Z) (Some 20%Z) window_ledger) = ["A"]
  ∧ SyncCounts.archived_pending (PlaidSynchronizer.counts (self m')) = 0.
Proof.
  cbv zeta. split; [vm_compute; reflexivity|].
  destruct (archived_pending_read_from_store 10 (Some 0%Z) (Some 20%Z) true
              false (start_machine window_provider window_store)
              sample_item window_provider (Some [sample_balance])
              window_provider window_ledger
              (sim_with_requests window_provider [(0, 500)]))
    as [Hcount _]; [vm_compute; reflexivity..|].
  rewrite Hcount. vm_compute; reflexivity.
Defined.

Lemma process_accounts_results_witness :
  let st := (∅ : gmap string PlaidSynchronizer.t,
             mkWorld window_provider window_store []) in
  let st' := (process_accounts 10 window_args (λ _, "access-1")
                ["bank"; "broker"] st).2 in
  (process_accounts 10 window_args (λ _, "access-1") ["bank"; "broker"] st).1
  = Ok tt
  ∧ dom st'.1 = dom st.1 ∪ list_to_set ["bank"; "broker"]
  ∧ ∃ s, st'.1 !! "broker" = Some s
         ∧ PlaidSynchronizer.account_name s = "broker".
Proof.
  cbv zeta.
  assert (Hrun :
    process_accounts 10 window_args (λ _, "access-1") ["bank"; "broker"]
      (∅, mkWorld window_provider window_store [])
    = (Ok tt,
       (process_accounts 10 window_args (λ _, "access-1") ["bank"; "broker"]
          (∅, mkWorld window_provider window_store [])).2))
    by (vm_compute; reflexivity).
  split; [by rewrite Hrun at 1|].
  destruct (process_accounts_results _ _ _ _ _ _ Hrun) as (Hdom & Hall & _).
  split; [exact Hdom|].
  destruct (Hall "broker") as (s & Hs & Hname & _).
  - apply list_elem_of_further, list_elem_of_here.
  - exists s. split; [exact Hs|exact Hname].
Defined.

Lemma batch_of_failures_writes_nothing_witness :
  let w := mkWorld item_down window_store [] in
  let st' := (process_accounts 10 window_args (λ _, "access-1")
                ["bank"; "broker"] (∅, w)).2 in
  NoDup ["bank"; "broker"]
  ∧ db st'.2 = window_store.
Proof.
  cbv zeta.
  assert (Hnodup : NoDup ["bank"; "broker"]).
  { apply NoDup_cons. split; [|apply NoDup_singleton].
    intros Hin. apply list_elem_of_singleton in Hin. discriminate Hin. }
  split; [exact Hnodup|].
  set (st' := (process_accounts 10 window_args (λ _, "access-1")
                 ["bank"; "broker"]
                 (∅, mkWorld item_down window_store [])).2).
  assert (Hrun :
    process_accounts 10 window_args (λ _, "access-1") ["bank"; "broker"]
      (∅, mkWorld item_down window_store [])
    = (Ok tt, (st'.1, st'.2))) by (vm_compute; reflexivity).
  destruct (batch_of_failures_writes_nothing _ _ _ _ _ _ _ _ Hnodup Hrun)
    as [Hdb _]; [|exact Hdb].
  intros a Ha.
  apply elem_of_cons in Ha as [->|Ha];
    [|apply list_elem_of_singleton in Ha as ->].
  - eexists. split; [vm_compute; reflexivity|]. eexists. reflexivity.
  - eexists. split; [vm_compute; reflexivity|]. eexists. reflexivity.
Defined.

Lemma parse_options_dates_window_witness :
  args_cursor_sync default_dates_args = false
  ∧ parse_options_dates 100 100 default_dates_args
    = Some (mkArgs false false (Some 70%Z) (Some 100%Z) false)
  ∧ args_start_date (mkArgs false false (Some 70%Z) (Some 100%Z) false)
    = Some 70%Z
  ∧ (70 ≤ 100)%Z.
Proof.
  assert (Hmode : args_cursor_sync default_dates_args = false) by reflexivity.
  assert (Hparse : parse_options_dates 100 100 default_dates_args
                   = Some (mkArgs false false (Some 70%Z) (Some 100%Z) false))
    by reflexivity.
  split; [exact Hmode|]. split; [exact Hparse|].
  destruct (parse_options_dates_window 100 100 default_dates_args)
    as [_ Hwindow].
  destruct (Hwindow Hmode) as [_ Hres].
  destruct (Hres _ Hparse) as (Hs & _ & Hle & _).
  split; [exact Hs|exact Hle].
Defined.
